(** * GermiTrack 1.4: the germination-parameter engine

    A shallow embedding of [GermiTrackAnalyzer] (GermiTrack_1.4.py):
    [calculate_all_germination_parameters], [_combination] and
    [_calculate_tx], of the analysis loop of the desktop window and of the
    curve export.

    Conventions of the embedding.
    - A DataFrame is an ordered list of named columns, in two layers.  The
      first one, [DataFrame], has string headers and integer cells: the
      int64 columns pandas builds from a sheet of whole numbers with no
      blank cell, on which [fillna(0)] changes nothing.  The second one,
      [RawFrame], is the frame as the loaders leave it: a header may be a
      number and a cell may be blank, which makes its column float64.  On a
      frame of the first kind the two layers return the same rows
      ([engine_agrees_on_whole_number_frames]).  The columns of a frame
      have one common length, so [days] and [rep_data] are arrays of the
      same length: indices then stay in range and [days[-1]] exists
      whenever the total is not zero.
    - Days are whole numbers, as in the sheets the program reads and in the
      specification.  The per-replicate functions take the day axis as
      rationals because their interpolation leaves the integers; the
      statements hand them whole-number days.
    - Arithmetic is exact: integer operations are on [Z], and every
      operation that numpy carries out in float64 is carried out on [Q].
      Overflow to infinity and int64 wrap-around are outside the model.
      The statements are chosen so that rounding does not decide them:
      bounds are whole numbers, which float64 holds exactly and which
      correctly rounded operations cannot cross; equalities are stated
      where every intermediate value is a whole number or a half of one;
      and where a reported field is compared with an exact fraction, the
      statement leaves a margin of one unit of the last reported decimal,
      twice what the rounding of the field needs.
    - The ways a float64 NaN can arise are kept: a square root of a
      negative number, an arcsine of a number outside [-1, 1] and a blank
      cell in the day column; see [npfloat].  Division is only faithful
      where the divisor is not zero; the source guards every division
      except the one by [total_seeds].
    - [np.sqrt], [np.log2], [np.arcsin] and [np.pi] belong to numpy, not to
      the program; they are the operations of the class [Numpy]. *)

From Stdlib Require Import ZArith QArith Qround Qabs List String Bool.
From Stdlib Require Import Lia Lqa DecimalString DecimalNat Sorted.
Import ListNotations.

Local Open Scope Q_scope.

(** ** numpy and Python primitives *)

(** [a < b] on rationals, as a boolean. *)
Definition Qltb (a b : Q) : bool :=
  (Qnum a * QDen b <? Qnum b * QDen a)%Z.

(** A float64 result: a finite number or NaN. *)
Inductive npfloat : Type :=
| Fin (q : Q)
| NaN.

(** The numeric library the program calls into. *)
Class Numpy : Type := {
  np_sqrt : Q -> Q;     (* on arguments >= 0 *)
  np_log2 : Q -> Q;     (* on arguments > 0 *)
  np_arcsin : Q -> Q;   (* on arguments in [-1, 1] *)
  np_pi : Q
}.

Module Np.

(** [np.sum] of an integer array. *)
Definition sum (a : list Z) : Z := fold_right Z.add 0%Z a.

(** [np.sum] of a float array; also Python's [sum] of a generator of floats. *)
Definition sumQ (a : list Q) : Q := fold_right Qplus 0 a.

(** [np.cumsum]. *)
Fixpoint cumsum_from (acc : Z) (a : list Z) : list Z :=
  match a with
  | [] => []
  | x :: a' => (acc + x)%Z :: cumsum_from (acc + x)%Z a'
  end.

Definition cumsum (a : list Z) : list Z := cumsum_from 0%Z a.

(** Element-wise binary operation on two arrays of the same length. *)
Definition zip_with {A B C : Type} (f : A -> B -> C)
  (a : list A) (b : list B) : list C :=
  map (fun p => f (fst p) (snd p)) (combine a b).

(** [np.all(days > 0)]. *)
Definition all_positive (days : list Q) : bool :=
  forallb (fun d => Qltb 0 d) days.

(** [np.sqrt x]: NaN below zero. *)
Definition sqrt `{Numpy} (x : Q) : npfloat :=
  if Qltb x 0 then NaN else Fin (np_sqrt x).

(** [np.arcsin y]: NaN outside [-1, 1], and NaN in gives NaN out. *)
Definition arcsin `{Numpy} (y : npfloat) : npfloat :=
  match y with
  | NaN => NaN
  | Fin q => if Qle_bool (Qabs q) 1 then Fin (np_arcsin q) else NaN
  end.

(** Arithmetic with a NaN-able operand on the left. *)
Definition lift (f : Q -> Q) (y : npfloat) : npfloat :=
  match y with
  | NaN => NaN
  | Fin q => Fin (f q)
  end.

End Np.

(** [round(x, ndigits)]: to the nearest multiple of 10^-ndigits, ties to the
    even one. *)
Definition py_round (x : Q) (ndigits : nat) : Q :=
  let scale := inject_Z (10 ^ Z.of_nat ndigits) in
  let s := x * scale in
  let f := Qfloor s in
  let r := match (s - inject_Z f) ?= (1 # 2) with
           | Lt => f
           | Gt => (f + 1)%Z
           | Eq => if Z.even f then f else (f + 1)%Z
           end in
  inject_Z r / scale.

Definition py_round_f (y : npfloat) (ndigits : nat) : npfloat :=
  Np.lift (fun q => py_round q ndigits) y.

(** [math.factorial] on a non-negative integer. *)
Fixpoint fact_upto (k : nat) : Z :=
  match k with
  | O => 1%Z
  | S k' => (Z.of_nat k * fact_upto k')%Z
  end.

Definition factorial (n : Z) : Z := fact_upto (Z.to_nat n).

(** ** The analyzer *)

(** [GermiTrackAnalyzer._combination] on the counts of an int64 column.
    Past the guard neither factorial raises on an integer; the [except]
    branch is then reached only when the quotient leaves the float64 range
    (from C(1030, 515) on), which is outside the model.  The counts of a
    float64 column go through [_combination_float] below. *)
Definition _combination (n r : Z) : Q :=
  if ((n <? r) || (n <? 0) || (r <? 0))%Z then 0
  else inject_Z (factorial n) / inject_Z (factorial r * factorial (n - r)).

(** The [for i, cum_germ in enumerate(cumulative)] loop of [_calculate_tx];
    [rest] is what is left of [cumulative] from index [i] on.  [None] when
    the loop ends without returning. *)
Fixpoint tx_loop (days : list Q) (cumulative : list Z) (target : Q)
  (i : nat) (rest : list Z) : option Q :=
  match rest with
  | [] => None
  | cum_germ :: rest' =>
      if Qle_bool target (inject_Z cum_germ) then
        if Nat.eqb i 0 then Some (nth 0 days 0)
        else
          let x1 := nth (i - 1) days 0 in
          let y1 := inject_Z (nth (i - 1) cumulative 0%Z) in
          let x2 := nth i days 0 in
          let y2 := inject_Z (nth i cumulative 0%Z) in
          if negb (Qeq_bool y2 y1)
          then Some (x1 + (target - y1) * (x2 - x1) / (y2 - y1))
          else Some x1
      else tx_loop days cumulative target (S i) rest'
  end.

(** [GermiTrackAnalyzer._calculate_tx].  [days] and [rep_data] come from the
    same frame and have the same length. *)
Definition _calculate_tx (days : list Q) (rep_data : list Z)
  (total_germinated : Z) (percentage : Q) : Q :=
  if (total_germinated =? 0)%Z then 0
  else
    let cumulative := Np.cumsum rep_data in
    let target := inject_Z total_germinated * percentage in
    match tx_loop days cumulative target 0 cumulative with
    | Some d => d
    | None => last days 0
    end.

(** The local variables of one pass of the replicate loop, after the
    [if total_germinated > 0: ... else: ...]. *)
Record Stats : Type := {
  germinability : Q;
  mgt : Q;
  mgr : Q;
  variance : Q;
  std_dev : npfloat;
  cv : npfloat;
  speed_maguire : Q;
  uncertainty : Q;
  synchrony : Q;
  t50 : Q
}.

(** One row of the resulting frame (the dict appended to [results]). *)
Record GerminationRecord : Type := {
  Replicate : string;
  Total_Seeds : Z;
  Germinated_Seeds : Z;
  G_Germinability : Q;
  MT_Mean_Germination_Time : Q;
  CVt_Coefficient_Variation : npfloat;
  MR_Mean_Germination_Rate : Q;
  U_Uncertainty_Index : Q;
  Z_Synchrony_Index : Q;
  Variance_Germination_Time : Q;
  Standard_Deviation : npfloat;
  Speed_Maguire_Index : Q;
  T50_Time_50 : Q;
  ArcSin_Transformation : npfloat
}.

Section Analyzer.

Context `{NP : Numpy}.

(** [sum(self._combination(ni, 2) for ni in rep_data if ni >= 2)]. *)
Definition synchrony_numerator (rep_data : list Z) : Q :=
  Np.sumQ (map (fun ni => _combination ni 2)
               (filter (fun ni => (2 <=? ni)%Z) rep_data)).

(** [frequencies[frequencies > 0]]. *)
Definition frequencies (rep_data : list Z) (total_germinated : Z) : list Q :=
  filter (fun f => Qltb 0 f)
         (map (fun c => inject_Z c / inject_Z total_germinated) rep_data).

Definition replicate_stats (days : list Q) (total_seeds : Z)
  (rep_data : list Z) : Stats :=
  let total_germinated := Np.sum rep_data in
  if (0 <? total_germinated)%Z then
    let total := inject_Z total_germinated in
    let germinability := (total / inject_Z total_seeds) * 100 in
    let mgt :=
      Np.sumQ (Np.zip_with (fun d c => d * inject_Z c) days rep_data)
      / total in
    let mgr := if Qltb 0 mgt then 1 / mgt else 0 in
    let variance :=
      if (1 <? total_germinated)%Z then
        Np.sumQ (Np.zip_with (fun c d => inject_Z c * (d - mgt) ^ 2)
                             rep_data days)
        / inject_Z (total_germinated - 1)
      else 0 in
    let std_dev := Np.sqrt variance in
    let cv :=
      if Qltb 0 mgt then Np.lift (fun s => s / mgt * 100) std_dev
      else Fin 0 in
    let speed_maguire :=
      if Np.all_positive days
      then Np.sumQ (Np.zip_with (fun c d => inject_Z c / d) rep_data days)
      else 0 in
    let freqs := frequencies rep_data total_germinated in
    let uncertainty :=
      if (0 <? List.length freqs)%nat
      then - Np.sumQ (map (fun f => f * np_log2 f) freqs)
      else 0 in
    let numerator := synchrony_numerator rep_data in
    let denominator := _combination total_germinated 2 in
    let synchrony :=
      if Qltb 0 denominator then numerator / denominator else 0 in
    let t50 := _calculate_tx days rep_data total_germinated (1 # 2) in
    {| germinability := germinability; mgt := mgt; mgr := mgr;
       variance := variance; std_dev := std_dev; cv := cv;
       speed_maguire := speed_maguire; uncertainty := uncertainty;
       synchrony := synchrony; t50 := t50 |}
  else
    {| germinability := 0; mgt := 0; mgr := 0;
       variance := 0; std_dev := Fin 0; cv := Fin 0;
       speed_maguire := 0; uncertainty := 0;
       synchrony := 0; t50 := 0 |}.

(** [f'R{i+1}']. *)
Definition replicate_label (i : nat) : string :=
  ("R" ++ NilEmpty.string_of_uint (Nat.to_uint (S i)))%string.

(** The dict of one replicate. *)
Definition replicate_record (days : list Q) (total_seeds : Z) (i : nat)
  (rep_data : list Z) : GerminationRecord :=
  let s := replicate_stats days total_seeds rep_data in
  {| Replicate := replicate_label i;
     Total_Seeds := total_seeds;
     Germinated_Seeds := Np.sum rep_data;
     G_Germinability := py_round (germinability s) 2;
     MT_Mean_Germination_Time := py_round (mgt s) 2;
     CVt_Coefficient_Variation := py_round_f (cv s) 2;
     MR_Mean_Germination_Rate := py_round (mgr s) 4;
     U_Uncertainty_Index := py_round (uncertainty s) 3;
     Z_Synchrony_Index := py_round (synchrony s) 3;
     Variance_Germination_Time := py_round (variance s) 2;
     Standard_Deviation := py_round_f (std_dev s) 2;
     Speed_Maguire_Index := py_round (speed_maguire s) 2;
     T50_Time_50 := py_round (t50 s) 2;
     ArcSin_Transformation :=
       if Qltb 0 (germinability s)
       then py_round_f
              (Np.lift (fun a => a * (180 / np_pi))
                 (Np.arcsin (Np.sqrt (germinability s / 100)))) 2
       else Fin 0 |}.

End Analyzer.

(** ** The frame and the replicate loop *)

(** [treatment_data]: the columns in sheet order, each with its header. *)
Definition DataFrame : Type := list (string * list Z).

(** [treatment_data.columns]. *)
Definition df_columns (df : DataFrame) : list string := map fst df.

(** [name in treatment_data.columns]. *)
Definition has_column (name : string) (df : DataFrame) : bool :=
  existsb (String.eqb name) (df_columns df).

(** [treatment_data[name]]; headers of a loaded sheet are pairwise
    distinct, so the first column with that header is the one. *)
Fixpoint df_get (name : string) (df : DataFrame) : option (list Z) :=
  match df with
  | [] => None
  | (h, cells) :: df' => if String.eqb name h then Some cells else df_get name df'
  end.

(** [sub in s] on strings. *)
Definition contains (sub s : string) : bool :=
  match index 0 sub s with
  | Some _ => true
  | None => false
  end.

(** [col.startswith('R') or 'Rep' in col]. *)
Definition is_rep_header (col : string) : bool :=
  prefix "R" col || contains "Rep" col.

(** [rep_columns], with its fall-back to every column but the first. *)
Definition rep_columns (df : DataFrame) : list string :=
  match filter is_rep_header (df_columns df) with
  | [] => tl (df_columns df)
  | found => found
  end.

(** What a call can raise.  The source defines no exception of its own and
    has no [raise].  On frames of numeric cells three library calls fail:
    [iloc[:, 0]] on a frame without columns (IndexError), [col.startswith]
    on a header that is not a string (AttributeError) and [math.factorial]
    on a float (TypeError). *)
Inductive exn : Type :=
| IndexError
| AttributeError
| TypeError.

Inductive outcome (A : Type) : Type :=
| Returns (v : A)
| Raises (e : exn).

Arguments Returns {A} v.
Arguments Raises {A} e.

(** The day axis: ['Day'], else ['ti'], else the first column. *)
Definition day_axis (df : DataFrame) : outcome (list Z) :=
  if has_column "Day" df then
    match df_get "Day" df with Some d => Returns d | None => Raises IndexError end
  else if has_column "ti" df then
    match df_get "ti" df with Some d => Returns d | None => Raises IndexError end
  else
    match df with
    | [] => Raises IndexError
    | (_, d) :: _ => Returns d
    end.

Section Engine.

Context `{NP : Numpy}.

(** [for i, rep_col in enumerate(rep_columns)], from index [i] on. *)
Fixpoint replicate_loop (df : DataFrame) (days : list Q) (total_seeds : Z)
  (i : nat) (cols : list string) : list GerminationRecord :=
  match cols with
  | [] => []
  | rep_col :: cols' =>
      match df_get rep_col df with
      | Some rep_data =>
          replicate_record days total_seeds i rep_data
          :: replicate_loop df days total_seeds (S i) cols'
      | None => replicate_loop df days total_seeds (S i) cols'
      end
  end.

(** [GermiTrackAnalyzer(data, total_seeds).calculate_all_germination_parameters(treatment_data)]. *)
Definition calculate_all_germination_parameters (total_seeds : Z)
  (treatment_data : DataFrame) : outcome (list GerminationRecord) :=
  let cols := rep_columns treatment_data in
  match day_axis treatment_data with
  | Raises e => Raises e
  | Returns days =>
      Returns (replicate_loop treatment_data (map inject_Z days)
                 total_seeds 0 cols)
  end.

End Engine.

(** An executable stand-in for numpy, to run the engine on examples: square
    roots truncated to nine decimals, the integer part of the binary
    logarithm, the arcsine by the first terms of its series.  No statement
    below relies on how close these are to numpy's values. *)
Definition sample_sqrt (x : Q) : Q :=
  inject_Z (Z.sqrt (Qfloor (x * inject_Z (10 ^ 18)))) / inject_Z (10 ^ 9).

Definition sample_log2 (x : Q) : Q :=
  if Qle_bool 1 x then inject_Z (Z.log2 (Qfloor x))
  else - inject_Z (Z.log2_up (Qceiling (/ x))).

Definition sample_arcsin (x : Q) : Q :=
  x + x ^ 3 * (1 # 6) + x ^ 5 * (3 # 40).

Definition sample_numpy : Numpy := {|
  np_sqrt := sample_sqrt;
  np_log2 := sample_log2;
  np_arcsin := sample_arcsin;
  np_pi := 355 # 113
|}.

(** Frames used in the examples below. *)
Definition frame_round_trip : DataFrame :=
  [("Day", [1; 2; 3; 4; 5]); ("R1", [0; 5; 10; 5; 5])]%Z%string.

Definition frame_negative : DataFrame :=
  [("Day", [1; 2]); ("R1", [-1; 3])]%Z%string.

Definition frame_no_rows : DataFrame :=
  [("Day", []); ("R1", [])]%Z%string.

Definition frame_one_third : DataFrame :=
  [("Day", [1]); ("R1", [1])]%Z%string.

Definition frame_seven : DataFrame :=
  [("Day", [1]); ("R1", [1]); ("R2", [1]); ("R3", [1]); ("R4", [1]);
   ("R5", [1]); ("R6", [1]); ("R7", [1])]%Z%string.

Definition frame_more_than_sown : DataFrame :=
  [("Day", [1]); ("R1", [30])]%Z%string.

Definition frame_day_zero : DataFrame :=
  [("Day", [0; 1; 2]); ("R1", [5; 10; 10])]%Z%string.

(** A structurally invalid frame in the sense of the specification: some
    replicate column holds a negative count, or the frame has no day row. *)
Definition has_negative_count (df : DataFrame) : bool :=
  existsb (fun col =>
             match df_get col df with
             | Some rep_data => existsb (fun c => (c <? 0)%Z) rep_data
             | None => false
             end) (rep_columns df).

Definition has_no_day_row (df : DataFrame) : bool :=
  match day_axis df with
  | Returns [] => true
  | _ => false
  end.

(** Every count of every replicate column is non-negative. *)
Definition counts_non_negative (df : DataFrame) : Prop :=
  forall col rep_data,
    In col (rep_columns df) -> df_get col df = Some rep_data ->
    Forall (fun c => (0 <= c)%Z) rep_data.

(** A field that holds the number zero. *)
Definition is_zero (y : npfloat) : Prop :=
  match y with
  | Fin q => q == 0
  | NaN => False
  end.

(** A field that holds the number one. *)
Definition is_one (y : npfloat) : Prop :=
  match y with
  | Fin q => q == 1
  | NaN => False
  end.

(** Every derived statistic of a row is zero. *)
Definition all_statistics_zero (r : GerminationRecord) : Prop :=
  G_Germinability r == 0 /\
  MT_Mean_Germination_Time r == 0 /\
  Variance_Germination_Time r == 0 /\
  is_zero (Standard_Deviation r) /\
  is_zero (CVt_Coefficient_Variation r) /\
  MR_Mean_Germination_Rate r == 0 /\
  Speed_Maguire_Index r == 0 /\
  U_Uncertainty_Index r == 0 /\
  Z_Synchrony_Index r == 0 /\
  T50_Time_50 r == 0 /\
  is_zero (ArcSin_Transformation r).

(** ** Frames as the loaders leave them

    [read_excel] and [read_csv] do not promise what the engine above takes
    for granted.  A header cell that holds a number stays a number, and a
    column with a blank cell is loaded as float64 with NaN in the blank
    places.  This layer models the same function,
    [calculate_all_germination_parameters], on such frames: headers are text
    or numbers, cells are whole numbers or blank, in the replicate columns
    and in the day column alike.  A float64 operand that may be NaN is an
    [npfloat]; arithmetic on the numbers is exact, as above. *)

(** A column header. *)
Inductive label : Type :=
| Text (s : string)
| Number (n : Z).

(** A frame: each column is a header and its cells, [None] for a blank. *)
Definition RawFrame : Type := list (label * list (option Z)).

Definition raw_columns (raw : RawFrame) : list label := map fst raw.

(** Equality of two headers. *)
Definition label_eqb (a b : label) : bool :=
  match a, b with
  | Text s, Text t => String.eqb s t
  | Number n, Number m => Z.eqb n m
  | _, _ => false
  end.

(** [name in data.columns]. *)
Definition raw_has_column (name : label) (raw : RawFrame) : bool :=
  existsb (label_eqb name) (raw_columns raw).

(** [data[name]], headers being pairwise distinct. *)
Fixpoint raw_get (name : label) (raw : RawFrame) : option (list (option Z)) :=
  match raw with
  | [] => None
  | (h, cells) :: raw' =>
      if label_eqb name h then Some cells else raw_get name raw'
  end.

(** The comprehension of line 89,
    [[col for col in columns if col.startswith('R') or 'Rep' in col]]:
    a header that is a number has no [startswith]. *)
Fixpoint rep_comprehension (columns : list label) : outcome (list label) :=
  match columns with
  | [] => Returns []
  | Number _ :: _ => Raises AttributeError
  | Text col :: columns' =>
      match rep_comprehension columns' with
      | Raises e => Raises e
      | Returns found =>
          Returns (if is_rep_header col then Text col :: found else found)
      end
  end.

(** [rep_columns] with its fall-back, lines 89 to 91. *)
Definition raw_rep_columns (raw : RawFrame) : outcome (list label) :=
  match rep_comprehension (raw_columns raw) with
  | Raises e => Raises e
  | Returns [] => Returns (tl (raw_columns raw))
  | Returns found => Returns found
  end.

(** The day axis, lines 92 to 97. *)
Definition raw_day_axis (raw : RawFrame) : outcome (list (option Z)) :=
  if raw_has_column (Text "Day") raw then
    match raw_get (Text "Day") raw with
    | Some d => Returns d
    | None => Raises IndexError
    end
  else if raw_has_column (Text "ti") raw then
    match raw_get (Text "ti") raw with
    | Some d => Returns d
    | None => Raises IndexError
    end
  else
    match raw with
    | [] => Raises IndexError
    | (_, d) :: _ => Returns d
    end.

(** A column with a blank cell is float64, a column without is int64. *)
Definition has_blank (cells : list (option Z)) : bool :=
  existsb (fun c => match c with None => true | Some _ => false end) cells.

(** [fillna(0).values]: the numbers of the column, 0 in the blank places. *)
Definition fillna0 (cells : list (option Z)) : list Z :=
  map (fun c => match c with Some z => z | None => 0%Z end) cells.

(** [.values] of the day column: NaN in the blank places. *)
Definition day_values (cells : list (option Z)) : list npfloat :=
  map (fun c => match c with Some z => Fin (inject_Z z) | None => NaN end)
      cells.

(** float64 arithmetic with NaN: NaN in, NaN out; a comparison with NaN is
    false. *)
Module Nf.

Definition add (a b : npfloat) : npfloat :=
  match a, b with
  | Fin x, Fin y => Fin (x + y)
  | _, _ => NaN
  end.

Definition sub (a b : npfloat) : npfloat :=
  match a, b with
  | Fin x, Fin y => Fin (x - y)
  | _, _ => NaN
  end.

Definition mul (a b : npfloat) : npfloat :=
  match a, b with
  | Fin x, Fin y => Fin (x * y)
  | _, _ => NaN
  end.

Definition div (a b : npfloat) : npfloat :=
  match a, b with
  | Fin x, Fin y => Fin (x / y)
  | _, _ => NaN
  end.

Definition square (a : npfloat) : npfloat :=
  match a with
  | Fin x => Fin (x ^ 2)
  | NaN => NaN
  end.

Definition ltb (a b : npfloat) : bool :=
  match a, b with
  | Fin x, Fin y => Qltb x y
  | _, _ => false
  end.

(** [np.sum] of a float array. *)
Definition sum (a : list npfloat) : npfloat := fold_right add (Fin 0) a.

(** [np.sqrt]. *)
Definition sqrt `{Numpy} (a : npfloat) : npfloat :=
  match a with
  | Fin x => Np.sqrt x
  | NaN => NaN
  end.

(** [np.all(days > 0)]. *)
Definition all_positive (days : list npfloat) : bool :=
  forallb (fun d => ltb (Fin 0) d) days.

End Nf.

(** [math.factorial] on a float: a TypeError, for whole values too (Python
    3.10 and later). *)
Definition factorial_of_float (x : Q) : outcome Z := Raises TypeError.

(** [GermiTrackAnalyzer._combination] on a float64 count, the [try] and the
    bare [except] included. *)
Definition _combination_float (n : Q) (r : Z) : Q :=
  if Qltb n (inject_Z r) || Qltb n 0 || (r <? 0)%Z then 0
  else
    match factorial_of_float n, factorial_of_float (n - inject_Z r) with
    | Returns fn, Returns fnr =>
        inject_Z fn / inject_Z (factorial r * fnr)
    | _, _ => 0
    end.

(** [_combination] on a count of a column of either kind. *)
Definition _combination_of (float_column : bool) (n r : Z) : Q :=
  if float_column then _combination_float (inject_Z n) r
  else _combination n r.

(** The loop of [_calculate_tx] on a day array that may hold NaN. *)
Fixpoint tx_loop_raw (days : list npfloat) (cumulative : list Z) (target : Q)
  (i : nat) (rest : list Z) : option npfloat :=
  match rest with
  | [] => None
  | cum_germ :: rest' =>
      if Qle_bool target (inject_Z cum_germ) then
        if Nat.eqb i 0 then Some (nth 0 days (Fin 0))
        else
          let x1 := nth (i - 1) days (Fin 0) in
          let y1 := inject_Z (nth (i - 1) cumulative 0%Z) in
          let x2 := nth i days (Fin 0) in
          let y2 := inject_Z (nth i cumulative 0%Z) in
          if negb (Qeq_bool y2 y1)
          then Some (Nf.add x1
                       (Nf.div (Nf.mul (Fin (target - y1)) (Nf.sub x2 x1))
                               (Fin (y2 - y1))))
          else Some x1
      else tx_loop_raw days cumulative target (S i) rest'
  end.

Definition _calculate_tx_raw (days : list npfloat) (rep_data : list Z)
  (total_germinated : Z) (percentage : Q) : npfloat :=
  if (total_germinated =? 0)%Z then Fin 0
  else
    let cumulative := Np.cumsum rep_data in
    let target := inject_Z total_germinated * percentage in
    match tx_loop_raw days cumulative target 0 cumulative with
    | Some d => d
    | None => last days (Fin 0)
    end.

(** The local variables of one pass of the replicate loop. *)
Record RawStats : Type := {
  raw_germinability : Q;
  raw_mgt : npfloat;
  raw_mgr : npfloat;
  raw_variance : npfloat;
  raw_std_dev : npfloat;
  raw_cv : npfloat;
  raw_speed_maguire : npfloat;
  raw_uncertainty : Q;
  raw_synchrony : Q;
  raw_t50 : npfloat
}.

(** One row of the resulting frame. *)
Record RawRecord : Type := {
  R_Replicate : string;
  R_Total_Seeds : Z;
  R_Germinated_Seeds : Z;
  R_G_Germinability : npfloat;
  R_MT_Mean_Germination_Time : npfloat;
  R_CVt_Coefficient_Variation : npfloat;
  R_MR_Mean_Germination_Rate : npfloat;
  R_U_Uncertainty_Index : npfloat;
  R_Z_Synchrony_Index : npfloat;
  R_Variance_Germination_Time : npfloat;
  R_Standard_Deviation : npfloat;
  R_Speed_Maguire_Index : npfloat;
  R_T50_Time_50 : npfloat;
  R_ArcSin_Transformation : npfloat
}.

(** A row of the engine on whole-number frames, as a row of this layer. *)
Definition to_raw (r : GerminationRecord) : RawRecord :=
  {| R_Replicate := Replicate r;
     R_Total_Seeds := Total_Seeds r;
     R_Germinated_Seeds := Germinated_Seeds r;
     R_G_Germinability := Fin (G_Germinability r);
     R_MT_Mean_Germination_Time := Fin (MT_Mean_Germination_Time r);
     R_CVt_Coefficient_Variation := CVt_Coefficient_Variation r;
     R_MR_Mean_Germination_Rate := Fin (MR_Mean_Germination_Rate r);
     R_U_Uncertainty_Index := Fin (U_Uncertainty_Index r);
     R_Z_Synchrony_Index := Fin (Z_Synchrony_Index r);
     R_Variance_Germination_Time := Fin (Variance_Germination_Time r);
     R_Standard_Deviation := Standard_Deviation r;
     R_Speed_Maguire_Index := Fin (Speed_Maguire_Index r);
     R_T50_Time_50 := Fin (T50_Time_50 r);
     R_ArcSin_Transformation := ArcSin_Transformation r |}.

(** A whole-number frame with text headers, as a frame of this layer. *)
Definition embed_frame (df : DataFrame) : RawFrame :=
  map (fun column => (Text (fst column), map Some (snd column))) df.


(** The test of line 89 on a header that is a string. *)
Definition is_rep_label (l : label) : bool :=
  match l with
  | Text col => is_rep_header col
  | Number _ => false
  end.

(** A header that is a string. *)
Definition is_text (l : label) : bool :=
  match l with
  | Text _ => true
  | Number _ => false
  end.

(** Every header of the frame is a string. *)
Definition all_text (raw : RawFrame) : bool :=
  forallb is_text (raw_columns raw).

(** The columns that the replicate loop reads on a frame whose headers are
    strings. *)
Definition text_rep_columns (raw : RawFrame) : list label :=
  match filter is_rep_label (raw_columns raw) with
  | [] => tl (raw_columns raw)
  | found => found
  end.

Section RawEngine.

Context `{NP : Numpy}.

(** Lines 100 to 119 on a column of either kind and a day column that may
    hold NaN. *)
Definition replicate_stats_raw (days : list npfloat) (total_seeds : Z)
  (float_column : bool) (rep_data : list Z) : RawStats :=
  let total_germinated := Np.sum rep_data in
  if (0 <? total_germinated)%Z then
    let total := inject_Z total_germinated in
    let germinability := (total / inject_Z total_seeds) * 100 in
    let mgt :=
      Nf.div (Nf.sum (Np.zip_with (fun d c => Nf.mul d (Fin (inject_Z c)))
                        days rep_data))
             (Fin total) in
    let mgr := if Nf.ltb (Fin 0) mgt then Nf.div (Fin 1) mgt else Fin 0 in
    let variance :=
      if (1 <? total_germinated)%Z then
        Nf.div (Nf.sum (Np.zip_with
                          (fun c d =>
                             Nf.mul (Fin (inject_Z c)) (Nf.square (Nf.sub d mgt)))
                          rep_data days))
               (Fin (inject_Z (total_germinated - 1)))
      else Fin 0 in
    let std_dev := Nf.sqrt variance in
    let cv :=
      if Nf.ltb (Fin 0) mgt
      then Nf.mul (Nf.div std_dev mgt) (Fin 100)
      else Fin 0 in
    let speed_maguire :=
      if Nf.all_positive days
      then Nf.sum (Np.zip_with (fun c d => Nf.div (Fin (inject_Z c)) d)
                     rep_data days)
      else Fin 0 in
    let freqs := frequencies rep_data total_germinated in
    let uncertainty :=
      if (0 <? List.length freqs)%nat
      then - Np.sumQ (map (fun f => f * np_log2 f) freqs)
      else 0 in
    let numerator :=
      Np.sumQ (map (fun ni => _combination_of float_column ni 2)
                   (filter (fun ni => (2 <=? ni)%Z) rep_data)) in
    let denominator := _combination_of float_column total_germinated 2 in
    let synchrony :=
      if Qltb 0 denominator then numerator / denominator else 0 in
    let t50 := _calculate_tx_raw days rep_data total_germinated (1 # 2) in
    {| raw_germinability := germinability; raw_mgt := mgt; raw_mgr := mgr;
       raw_variance := variance; raw_std_dev := std_dev; raw_cv := cv;
       raw_speed_maguire := speed_maguire; raw_uncertainty := uncertainty;
       raw_synchrony := synchrony; raw_t50 := t50 |}
  else
    {| raw_germinability := 0; raw_mgt := Fin 0; raw_mgr := Fin 0;
       raw_variance := Fin 0; raw_std_dev := Fin 0; raw_cv := Fin 0;
       raw_speed_maguire := Fin 0; raw_uncertainty := 0;
       raw_synchrony := 0; raw_t50 := Fin 0 |}.

(** The dict of one replicate, lines 120 to 136. *)
Definition replicate_record_raw (days : list (option Z)) (total_seeds : Z)
  (i : nat) (cells : list (option Z)) : RawRecord :=
  let rep_data := fillna0 cells in
  let s := replicate_stats_raw (day_values days) total_seeds
             (has_blank cells) rep_data in
  {| R_Replicate := replicate_label i;
     R_Total_Seeds := total_seeds;
     R_Germinated_Seeds := Np.sum rep_data;
     R_G_Germinability := Fin (py_round (raw_germinability s) 2);
     R_MT_Mean_Germination_Time := py_round_f (raw_mgt s) 2;
     R_CVt_Coefficient_Variation := py_round_f (raw_cv s) 2;
     R_MR_Mean_Germination_Rate := py_round_f (raw_mgr s) 4;
     R_U_Uncertainty_Index := Fin (py_round (raw_uncertainty s) 3);
     R_Z_Synchrony_Index := Fin (py_round (raw_synchrony s) 3);
     R_Variance_Germination_Time := py_round_f (raw_variance s) 2;
     R_Standard_Deviation := py_round_f (raw_std_dev s) 2;
     R_Speed_Maguire_Index := py_round_f (raw_speed_maguire s) 2;
     R_T50_Time_50 := py_round_f (raw_t50 s) 2;
     R_ArcSin_Transformation :=
       if Qltb 0 (raw_germinability s)
       then py_round_f
              (Np.lift (fun a => a * (180 / np_pi))
                 (Np.arcsin (Np.sqrt (raw_germinability s / 100)))) 2
       else Fin 0 |}.

(** [for i, rep_col in enumerate(rep_columns)], from index [i] on. *)
Fixpoint replicate_loop_raw (raw : RawFrame) (days : list (option Z))
  (total_seeds : Z) (i : nat) (cols : list label) : list RawRecord :=
  match cols with
  | [] => []
  | rep_col :: cols' =>
      match raw_get rep_col raw with
      | Some cells =>
          replicate_record_raw days total_seeds i cells
          :: replicate_loop_raw raw days total_seeds (S i) cols'
      | None => replicate_loop_raw raw days total_seeds (S i) cols'
      end
  end.

(** [calculate_all_germination_parameters] on a frame as loaded. *)
Definition calculate_all_raw (total_seeds : Z) (treatment_data : RawFrame)
  : outcome (list RawRecord) :=
  match raw_rep_columns treatment_data with
  | Raises e => Raises e
  | Returns cols =>
      match raw_day_axis treatment_data with
      | Raises e => Raises e
      | Returns days =>
          Returns (replicate_loop_raw treatment_data days total_seeds 0 cols)
      end
  end.

End RawEngine.

(** ** The analysis loop of the desktop window *)

(** [len(data)]: the number of rows of a frame. *)
Definition df_len (df : DataFrame) : nat :=
  match df with
  | [] => 0
  | (_, cells) :: _ => List.length cells
  end.

Definition raw_len (raw : RawFrame) : nat :=
  match raw with
  | [] => 0
  | (_, cells) :: _ => List.length cells
  end.

(** [data.empty]: no column or no row. *)
Definition raw_empty (raw : RawFrame) : bool :=
  (List.length raw =? 0)%nat || (raw_len raw =? 0)%nat.

(** The guard of [analyze_data]: [len(data) > 0 and not data.empty]. *)
Definition is_analysed (raw : RawFrame) : bool :=
  (0 <? raw_len raw)%nat && negb (raw_empty raw).

Section Desktop.

Context `{NP : Numpy}.

(** The engine results that [GermiTrackDesktop.analyze_data] collects in
    [all_results], treatment by treatment in the order of [self.data]; an
    exception of the engine leaves the loop for the [except] clause.  The
    charts, files and log lines that the loop produces between two engine
    calls are effects outside this model. *)
Fixpoint analyze_data (total_seeds : Z) (data : list (string * RawFrame))
  : outcome (list (string * list RawRecord)) :=
  match data with
  | [] => Returns []
  | (treatment, raw) :: data' =>
      if is_analysed raw then
        match calculate_all_raw total_seeds raw with
        | Raises e => Raises e
        | Returns results =>
            match analyze_data total_seeds data' with
            | Raises e => Raises e
            | Returns all_results => Returns ((treatment, results) :: all_results)
            end
        end
      else analyze_data total_seeds data'
  end.

End Desktop.

(** Frames as loaded, used in the examples below. *)
Definition raw_single_day : RawFrame :=
  [(Text "Day", [Some 1; Some 2; Some 3]);
   (Text "R1", [Some 0; Some 10; Some 0])]%Z%string.

Definition raw_single_day_blank : RawFrame :=
  [(Text "Day", [Some 1; Some 2; Some 3]);
   (Text "R1", [None; Some 10; Some 0])]%Z%string.

Definition raw_negative_and_blank : RawFrame :=
  [(Text "Day", [Some 1; Some 2; None]);
   (Text "R1", [Some (-1); Some 3; Some 0]);
   (Text "R2", [None; Some 4; Some 1])]%Z%string.

Definition raw_numeric_header : RawFrame :=
  [(Text "Day", [Some 1; Some 2]); (Number 1, [Some 0; Some 5])]%Z%string.

(** The series of a replicate in the words of the specification: the
    (day, dailyCount) pairs in order, and the sums that its formulas are
    written with. *)
Fixpoint sum_count_over_day (series : list (Z * Z)) : Q :=
  match series with
  | [] => 0
  | (day, count) :: series' =>
      inject_Z count / inject_Z day + sum_count_over_day series'
  end.

Fixpoint sum_day_times_count (series : list (Z * Z)) : Z :=
  match series with
  | [] => 0%Z
  | (day, count) :: series' => (day * count + sum_day_times_count series')%Z
  end.

Fixpoint sum_counts (series : list (Z * Z)) : Z :=
  match series with
  | [] => 0%Z
  | (_, count) :: series' => (count + sum_counts series')%Z
  end.

(** Σ(day·dailyCount) / totalGerminated. *)
Definition mean_day (series : list (Z * Z)) : Q :=
  inject_Z (sum_day_times_count series) / inject_Z (sum_counts series).

Fixpoint sum_squared_deviations (m : Q) (series : list (Z * Z)) : Q :=
  match series with
  | [] => 0
  | (day, count) :: series' =>
      inject_Z count * (inject_Z day - m) * (inject_Z day - m)
      + sum_squared_deviations m series'
  end.

(** The sample variance of the day of germination, 0 for a single seed. *)
Definition variance_of_days (series : list (Z * Z)) : Q :=
  if (1 <? sum_counts series)%Z
  then sum_squared_deviations (mean_day series) series
       / inject_Z (sum_counts series - 1)
  else 0.

Definition frame_third_day : DataFrame :=
  [("Day", [3]); ("R1", [1])]%Z%string.

(** The series of the round-trip scenario and of the day-0 scenario. *)
Definition series_round_trip : list (Z * Z) :=
  [(1, 0); (2, 5); (3, 10); (4, 5); (5, 5)]%Z.

Definition series_day_zero : list (Z * Z) := [(0, 5); (1, 10); (2, 10)]%Z.

(** ** The data behind the germination curves *)

(** [rep_columns] of [save_germination_curves_data] and
    [create_germination_curves]: the headers that start with R, else every
    column but the first. *)
Definition curve_rep_columns (df : DataFrame) : list string :=
  match filter (prefix "R") (df_columns df) with
  | [] => tl (df_columns df)
  | found => found
  end.

(** [for col in rep_columns[:6]: if col in data.columns: ...], collecting
    [daily_data]; a dict, in insertion order. *)
Fixpoint curve_loop (df : DataFrame) (cols : list string)
  : list (string * list Z) :=
  match cols with
  | [] => []
  | col :: cols' =>
      match df_get col df with
      | Some daily => (col, daily) :: curve_loop df cols'
      | None => curve_loop df cols'
      end
  end.

(** Row [t] of a block of columns. *)
Definition row_at (cols : list (list Z)) (t : nat) : list Z :=
  map (fun c => nth t c 0%Z) cols.

(** [np.mean] of a non-empty row. *)
Definition np_mean (row : list Z) : Q :=
  inject_Z (Np.sum row) / inject_Z (Z.of_nat (List.length row)).

(** The sum of the squared deviations of a row from its mean. *)
Definition squared_deviations (row : list Z) : Q :=
  Np.sumQ (map (fun x => (inject_Z x - np_mean row) ^ 2) row).

(** [np.std] of a non-empty row: the population standard deviation. *)
Definition np_std `{NP : Numpy} (row : list Z) : npfloat :=
  Np.sqrt (squared_deviations row / inject_Z (Z.of_nat (List.length row))).

(** pandas' [mean(axis=1)] on one row: NaN on a row without columns. *)
Definition pd_mean (row : list Z) : npfloat :=
  if (List.length row =? 0)%nat then NaN else Fin (np_mean row).

(** pandas' [std(axis=1)] on one row: the sample standard deviation, NaN on
    a row of fewer than two columns. *)
Definition pd_std `{NP : Numpy} (row : list Z) : npfloat :=
  if (List.length row <=? 1)%nat then NaN
  else Np.sqrt (squared_deviations row
                / inject_Z (Z.of_nat (List.length row) - 1)).

(** [df_save], column group by column group in the order of the saved
    sheet: Day, Cumulative_<col>, Mean_Cumulative and Std_Cumulative (when
    present), Daily_<col>, Mean_Daily, Std_Daily. *)
Record CurveData : Type := {
  cd_Day : list Z;
  cd_Cumulative : list (string * list Z);
  cd_Mean_Cumulative : option (list Q);
  cd_Std_Cumulative : option (list npfloat);
  cd_Daily : list (string * list Z);
  cd_Mean_Daily : list npfloat;
  cd_Std_Daily : list npfloat
}.

Section Curves.

Context `{NP : Numpy}.

(** The frame that [save_germination_curves_data] writes to the two files. *)
Definition save_germination_curves_data (data : DataFrame)
  : outcome CurveData :=
  let rep_columns := curve_rep_columns data in
  match day_axis data with
  | Raises e => Raises e
  | Returns days =>
      let daily_data := curve_loop data (firstn 6 rep_columns) in
      let cumulative_data :=
        map (fun p => (fst p, Np.cumsum (snd p))) daily_data in
      let cumulative_array := map snd cumulative_data in
      let rows := match cumulative_array with
                  | [] => 0%nat
                  | c :: _ => List.length c
                  end in
      let size := (List.length cumulative_array * rows)%nat in
      let mean_cumulative :=
        if (0 <? size)%nat
        then map (fun t => np_mean (row_at cumulative_array t)) (seq 0 rows)
        else [] in
      let std_cumulative :=
        if (0 <? size)%nat
        then map (fun t => np_std (row_at cumulative_array t)) (seq 0 rows)
        else [] in
      let rep_data := curve_loop data rep_columns in
      let mean_daily :=
        map (fun t => pd_mean (row_at (map snd rep_data) t))
            (seq 0 (df_len data)) in
      let std_daily :=
        map (fun t => pd_std (row_at (map snd rep_data) t))
            (seq 0 (df_len data)) in
      Returns
        {| cd_Day := days;
           cd_Cumulative := cumulative_data;
           cd_Mean_Cumulative :=
             if (0 <? List.length mean_cumulative)%nat
             then Some mean_cumulative else None;
           cd_Std_Cumulative :=
             if (0 <? List.length mean_cumulative)%nat
             then Some std_cumulative else None;
           cd_Daily := daily_data;
           cd_Mean_Daily := mean_daily;
           cd_Std_Daily := std_daily |}
  end.

End Curves.

(** A frame with a single replicate column. *)
Definition frame_one_replicate : DataFrame :=
  [("Day", [1; 2; 3]); ("R1", [2; 5; 3])]%Z%string.

(** The count that [upload_file] logs as "Germination events":
    [df.iloc[:, 1:].sum().sum()]. *)
Definition germination_events (df : DataFrame) : Z :=
  Np.sum (map (fun column => Np.sum (snd column)) (tl df)).

(** The columns of a frame have one common length. *)
Definition rectangular (df : DataFrame) : Prop :=
  forall h1 c1 h2 c2,
    In (h1, c1) df -> In (h2, c2) df -> List.length c1 = List.length c2.

(** Every count of every replicate column of the curves is non-negative. *)
Definition curve_counts_non_negative (df : DataFrame) : Prop :=
  forall col daily,
    In col (curve_rep_columns df) -> df_get col df = Some daily ->
    Forall (fun c => (0 <= c)%Z) daily.

(** A float64 cell that holds a number. *)
Definition is_number (y : npfloat) : Prop := exists q, y = Fin q.

(** ** Auxiliary notions of the proofs *)

(** Twice the number of unordered pairs of seeds that germinated on the
    same day, over the days with at least two seeds. *)
Definition pairs_within (rep_data : list Z) : Z :=
  Np.sum (map (fun ni => ni * (ni - 1))%Z
              (filter (fun ni => (2 <=? ni)%Z) rep_data)).

(** What [_calculate_tx] returns when its loop stops at index [j]. *)
Definition tx_at (days : list Q) (cumulative : list Z) (target : Q)
  (j : nat) : Q :=
  if Nat.eqb j 0 then nth 0 days 0
  else
    let x1 := nth (j - 1) days 0 in
    let y1 := inject_Z (nth (j - 1) cumulative 0%Z) in
    let x2 := nth j days 0 in
    let y2 := inject_Z (nth j cumulative 0%Z) in
    if negb (Qeq_bool y2 y1)
    then x1 + (target - y1) * (x2 - x1) / (y2 - y1)
    else x1.

(** The loop's result, with the fall-back to the last day. *)
Definition tx_result (days : list Q) (cumulative : list Z) (target : Q) : Q :=
  match tx_loop days cumulative target 0 cumulative with
  | Some d => d
  | None => last days 0
  end.

(** * Properties *)

(** ** Comparison and rounding *)

Lemma Qltb_lt (a b : Q) : Qltb a b = true <-> a < b.
Proof. unfold Qltb, Qlt. apply Z.ltb_lt. Qed.

Lemma Qltb_ge (a b : Q) : Qltb a b = false <-> b <= a.
Proof. unfold Qltb, Qle. rewrite Z.ltb_ge. reflexivity. Qed.

Lemma inject_Z_nonzero (z : Z) : z <> 0%Z -> ~ inject_Z z == 0.
Proof. intros H E. unfold Qeq in E. simpl in E. lia. Qed.

Lemma inject_Z_pos (z : Z) : (0 < z)%Z -> 0 < inject_Z z.
Proof. intros H. unfold Qlt. simpl. lia. Qed.

Lemma pow10_pos (n : nat) : 0 < inject_Z (10 ^ Z.of_nat n).
Proof.
  replace 0 with (inject_Z 0) by reflexivity.
  rewrite <- Zlt_Qlt. apply Z.pow_pos_nonneg; lia.
Qed.

#[export] Instance py_round_comp :
  Proper (Qeq ==> eq ==> Qeq) py_round.
Proof.
  intros x y Hxy n m <-. unfold py_round.
  assert (Hs : x * inject_Z (10 ^ Z.of_nat n) == y * inject_Z (10 ^ Z.of_nat n))
    by (rewrite Hxy; reflexivity).
  rewrite (Qfloor_comp _ _ Hs).
  set (f := Qfloor (y * inject_Z (10 ^ Z.of_nat n))).
  assert (Hc : (x * inject_Z (10 ^ Z.of_nat n) - inject_Z f ?= 1 # 2)
               = (y * inject_Z (10 ^ Z.of_nat n) - inject_Z f ?= 1 # 2))
    by (rewrite Hs; reflexivity).
  rewrite Hc. reflexivity.
Qed.

(** The integer that [py_round] picks lies between any two integers that
    enclose the scaled argument. *)
Lemma py_round_between (x : Q) (n : nat) (lo hi : Z) :
  inject_Z lo <= x * inject_Z (10 ^ Z.of_nat n) ->
  x * inject_Z (10 ^ Z.of_nat n) <= inject_Z hi ->
  inject_Z lo / inject_Z (10 ^ Z.of_nat n) <= py_round x n /\
  py_round x n <= inject_Z hi / inject_Z (10 ^ Z.of_nat n).
Proof.
  intros Hlo Hhi. unfold py_round.
  set (sc := inject_Z (10 ^ Z.of_nat n)) in *.
  assert (Hsc : 0 < sc) by apply pow10_pos.
  set (s := x * sc) in *. set (f := Qfloor s).
  assert (Hf1 : inject_Z f <= s) by apply Qfloor_le.
  assert (Hf2 : s < inject_Z (f + 1)) by apply Qlt_floor.
  assert (Hlof : (lo <= f)%Z).
  { rewrite <- (Qfloor_Z lo). apply Qfloor_resp_le. exact Hlo. }
  assert (Hup : inject_Z f < s -> (f + 1 <= hi)%Z).
  { intros Hlt. assert (Hfh : inject_Z f < inject_Z hi) by lra.
    rewrite <- Zlt_Qlt in Hfh. lia. }
  assert (Hfhi : (f <= hi)%Z).
  { rewrite Zle_Qle. lra. }
  assert (Hr : forall r : Z, (lo <= r <= hi)%Z ->
               inject_Z lo / sc <= inject_Z r / sc /\
               inject_Z r / sc <= inject_Z hi / sc).
  { intros r [H1 H2]. rewrite Zle_Qle in H1, H2.
    split; apply Qmult_le_compat_r; try assumption;
      apply Qlt_le_weak, Qinv_lt_0_compat; exact Hsc. }
  destruct (s - inject_Z f ?= 1 # 2) eqn:Hcmp.
  - apply Qeq_alt in Hcmp.
    destruct (Z.even f); apply Hr; try lia.
    assert (inject_Z f < s) by lra. specialize (Hup H). lia.
  - apply Hr. lia.
  - apply Qgt_alt in Hcmp.
    assert (inject_Z f < s) by lra. specialize (Hup H).
    apply Hr. lia.
Qed.

Lemma py_round_zero (x : Q) (n : nat) : x == 0 -> py_round x n == 0.
Proof.
  intros Hx. rewrite Hx.
  assert (Hz : 0 * inject_Z (10 ^ Z.of_nat n) == inject_Z 0) by (simpl; ring).
  destruct (py_round_between 0 n 0 0) as [H1 H2];
    [rewrite Hz; apply Qle_refl | rewrite Hz; apply Qle_refl | ].
  unfold Qdiv in H1, H2. change (inject_Z 0) with 0 in H1, H2. lra.
Qed.

Lemma py_round_unit_interval (x : Q) (n : nat) :
  0 <= x <= 1 -> 0 <= py_round x n <= 1.
Proof.
  intros [H0 H1].
  assert (Hsc := pow10_pos n).
  destruct (py_round_between x n 0 (10 ^ Z.of_nat n)) as [Ha Hb].
  - change (inject_Z 0) with 0. apply Qmult_le_0_compat; lra.
  - setoid_replace (inject_Z (10 ^ Z.of_nat n))
      with (1 * inject_Z (10 ^ Z.of_nat n)) at 2 by ring.
    apply Qmult_le_compat_r; lra.
  - split.
    + unfold Qdiv in Ha. change (inject_Z 0) with 0 in Ha. lra.
    + setoid_replace 1
        with (inject_Z (10 ^ Z.of_nat n) / inject_Z (10 ^ Z.of_nat n)).
      * exact Hb.
      * field. lra.
Qed.

Lemma py_round_one (x : Q) (n : nat) : x == 1 -> py_round x n == 1.
Proof.
  intros Hx. rewrite Hx.
  assert (Hsc := pow10_pos n).
  destruct (py_round_between 1 n (10 ^ Z.of_nat n) (10 ^ Z.of_nat n))
    as [Ha Hb]; [lra | lra | ].
  assert (E : inject_Z (10 ^ Z.of_nat n) / inject_Z (10 ^ Z.of_nat n) == 1)
    by (field; lra).
  rewrite E in Ha, Hb. lra.
Qed.

(** Rounding moves a number by at most half a unit of the last decimal
    kept. *)
Lemma py_round_error (x : Q) (n : nat) :
  Qabs (py_round x n - x) <= (1 # 2) / inject_Z (10 ^ Z.of_nat n).
Proof.
  unfold py_round.
  set (sc := inject_Z (10 ^ Z.of_nat n)).
  assert (Hsc : 0 < sc) by apply pow10_pos.
  set (s := x * sc). set (f := Qfloor s).
  assert (Hf1 : inject_Z f <= s) by apply Qfloor_le.
  assert (Hf2 : s < inject_Z (f + 1)) by apply Qlt_floor.
  rewrite inject_Z_plus in Hf2. change (inject_Z 1) with 1 in Hf2.
  assert (Hr : forall r : Z,
             - (1 # 2) <= inject_Z r - s -> inject_Z r - s <= 1 # 2 ->
             Qabs (inject_Z r / sc - x) <= (1 # 2) / sc).
  { intros r H1 H2.
    assert (E : inject_Z r / sc - x == (inject_Z r - s) / sc)
      by (unfold s; field; lra).
    rewrite E. apply Qabs_Qle_condition.
    assert (Hinv : 0 < / sc) by (apply Qinv_lt_0_compat; exact Hsc).
    unfold Qdiv. split.
    - setoid_replace (- ((1 # 2) * / sc)) with ((- (1 # 2)) * / sc) by ring.
      apply Qmult_le_compat_r; lra.
    - apply Qmult_le_compat_r; lra. }
  destruct (s - inject_Z f ?= 1 # 2) eqn:Hcmp.
  - apply Qeq_alt in Hcmp.
    destruct (Z.even f); apply Hr;
      rewrite ?inject_Z_plus; change (inject_Z 1) with 1; lra.
  - apply Qlt_alt in Hcmp. apply Hr; lra.
  - apply Qgt_alt in Hcmp. apply Hr;
      rewrite ?inject_Z_plus; change (inject_Z 1) with 1; lra.
Qed.

(** A field of two decimals is within a hundredth of the number it
    rounds. *)
Lemma py_round_2_close (x y : Q) : x == y -> Qabs (py_round x 2 - y) < 1 # 100.
Proof.
  intros E. rewrite <- E.
  apply Qle_lt_trans with (1 := py_round_error x 2). reflexivity.
Qed.

Lemma py_round_4_close (x y : Q) :
  x == y -> Qabs (py_round x 4 - y) < 1 # 10000.
Proof.
  intros E. rewrite <- E.
  apply Qle_lt_trans with (1 := py_round_error x 4). reflexivity.
Qed.

(** A whole number is a field of any number of decimals. *)
Lemma py_round_whole (x : Q) (n : nat) (w : Z) :
  x == inject_Z w -> py_round x n == inject_Z w.
Proof.
  intros E. rewrite E.
  assert (Hsc := pow10_pos n).
  assert (Hw : inject_Z w * inject_Z (10 ^ Z.of_nat n)
               == inject_Z (w * 10 ^ Z.of_nat n))
    by (rewrite inject_Z_mult; reflexivity).
  destruct (py_round_between (inject_Z w) n (w * 10 ^ Z.of_nat n)
              (w * 10 ^ Z.of_nat n)) as [H1 H2];
    [rewrite Hw; apply Qle_refl | rewrite Hw; apply Qle_refl | ].
  assert (Hq : inject_Z (w * 10 ^ Z.of_nat n) / inject_Z (10 ^ Z.of_nat n)
               == inject_Z w)
    by (rewrite inject_Z_mult; field; lra).
  rewrite Hq in H1, H2. apply Qle_antisym; assumption.
Qed.

(** Rounding keeps a number between two whole numbers that enclose it. *)
Lemma py_round_whole_bounds (x : Q) (n : nat) (lo hi : Z) :
  inject_Z lo <= x -> x <= inject_Z hi ->
  inject_Z lo <= py_round x n /\ py_round x n <= inject_Z hi.
Proof.
  intros Hlo Hhi.
  assert (Hsc := pow10_pos n).
  destruct (py_round_between x n (lo * 10 ^ Z.of_nat n)
              (hi * 10 ^ Z.of_nat n)) as [H1 H2].
  - rewrite inject_Z_mult. apply Qmult_le_compat_r; lra.
  - rewrite inject_Z_mult. apply Qmult_le_compat_r; lra.
  - assert (Hq : forall w, inject_Z (w * 10 ^ Z.of_nat n)
                           / inject_Z (10 ^ Z.of_nat n) == inject_Z w)
      by (intros w; rewrite inject_Z_mult; field; lra).
    rewrite !Hq in *. split; assumption.
Qed.

(** ** The frame: columns, day axis and the replicate loop *)

Lemma df_get_of_header (df : DataFrame) (c : string) :
  In c (df_columns df) -> exists d, df_get c df = Some d.
Proof.
  induction df as [|[h cells] df IH]; simpl; [tauto|].
  intros [->|Hin].
  - rewrite String.eqb_refl. eauto.
  - destruct (String.eqb c h); eauto.
Qed.

Lemma has_column_get (df : DataFrame) (c : string) :
  has_column c df = true -> exists d, df_get c df = Some d.
Proof.
  unfold has_column. rewrite existsb_exists.
  intros (h & Hin & Heq). apply String.eqb_eq in Heq. subst h.
  now apply df_get_of_header.
Qed.

Lemma rep_columns_are_headers (df : DataFrame) (c : string) :
  In c (rep_columns df) -> In c (df_columns df).
Proof.
  unfold rep_columns.
  destruct (filter is_rep_header (df_columns df)) eqn:E.
  - destruct (df_columns df); simpl; tauto.
  - intros Hin. rewrite <- E in Hin. apply filter_In in Hin. tauto.
Qed.

Lemma day_axis_returns (df : DataFrame) :
  df <> [] -> exists days, day_axis df = Returns days.
Proof.
  intros Hne. unfold day_axis.
  destruct (has_column "Day" df) eqn:E1.
  - destruct (has_column_get _ _ E1) as [d ->]. eauto.
  - destruct (has_column "ti" df) eqn:E2.
    + destruct (has_column_get _ _ E2) as [d ->]. eauto.
    + destruct df as [|[h d] df]; [congruence | eauto].
Qed.

Lemma day_axis_no_column : day_axis [] = Raises IndexError.
Proof. reflexivity. Qed.

Section Loop.

Context `{NP : Numpy}.
Variables (df : DataFrame) (days : list Q) (total_seeds : Z).

Lemma replicate_loop_nth (cols : list string) :
  (forall c, In c cols -> exists d, df_get c df = Some d) ->
  forall i k col,
    nth_error cols k = Some col ->
    exists d, df_get col df = Some d /\
      nth_error (replicate_loop df days total_seeds i cols) k
      = Some (replicate_record days total_seeds (i + k) d).
Proof.
  induction cols as [|c cols IH]; intros Hall i k col Hk.
  - destruct k; discriminate.
  - destruct (Hall c (or_introl eq_refl)) as [d Hd].
    simpl. rewrite Hd. destruct k as [|k]; simpl in Hk |- *.
    + injection Hk as <-. exists d. rewrite Nat.add_0_r. auto.
    + destruct (IH (fun c' H => Hall c' (or_intror H)) (S i) k col Hk)
        as (d' & Hd' & Hn).
      exists d'. split; [exact Hd'|].
      rewrite Hn. f_equal. f_equal. lia.
Qed.

Lemma replicate_loop_length (cols : list string) :
  (forall c, In c cols -> exists d, df_get c df = Some d) ->
  forall i, List.length (replicate_loop df days total_seeds i cols) = List.length cols.
Proof.
  induction cols as [|c cols IH]; intros Hall i; [reflexivity|].
  destruct (Hall c (or_introl eq_refl)) as [d Hd].
  simpl. rewrite Hd. simpl. f_equal.
  apply IH. intros c' H. apply Hall. now right.
Qed.

Lemma replicate_loop_In (cols : list string) (r : GerminationRecord) :
  forall i, In r (replicate_loop df days total_seeds i cols) ->
  exists k col d, In col cols /\ df_get col df = Some d /\
                  r = replicate_record days total_seeds k d.
Proof.
  induction cols as [|c cols IH]; intros i; simpl; [tauto|].
  destruct (df_get c df) as [d|] eqn:Hd.
  - intros [<-|Hin].
    + exists i, c, d. auto.
    + destruct (IH _ Hin) as (k & col & d' & H1 & H2 & H3).
      exists k, col, d'. auto.
  - intros Hin. destruct (IH _ Hin) as (k & col & d' & H1 & H2 & H3).
    exists k, col, d'. auto.
Qed.

End Loop.

(** On a frame with at least one column the call returns the rows of the
    replicate loop over the resolved day axis. *)
Lemma calculate_all_returns `{NP : Numpy} (total_seeds : Z) (df : DataFrame) :
  df <> [] ->
  exists days,
    day_axis df = Returns days /\
    calculate_all_germination_parameters total_seeds df
    = Returns (replicate_loop df (map inject_Z days) total_seeds 0
                 (rep_columns df)).
Proof.
  intros Hne. destruct (day_axis_returns df Hne) as [days Hd].
  exists days. split; [exact Hd|].
  unfold calculate_all_germination_parameters. now rewrite Hd.
Qed.

Lemma rep_column_frame_not_empty (df : DataFrame) (k : nat) (col : string) :
  nth_error (rep_columns df) k = Some col -> df <> [].
Proof. intros H ->. destruct k; discriminate. Qed.

(** ** The degenerate replicate *)

Lemma replicate_record_zero `{NP : Numpy} (days : list Q) (total_seeds : Z)
  (i : nat) (rep_data : list Z) :
  Np.sum rep_data = 0%Z ->
  all_statistics_zero (replicate_record days total_seeds i rep_data).
Proof.
  intros Hsum. unfold all_statistics_zero, replicate_record, replicate_stats.
  rewrite Hsum. cbn [Z.ltb Z.compare germinability mgt mgr variance std_dev cv
    speed_maguire uncertainty synchrony t50 G_Germinability
    MT_Mean_Germination_Time CVt_Coefficient_Variation
    MR_Mean_Germination_Rate U_Uncertainty_Index Z_Synchrony_Index
    Variance_Germination_Time Standard_Deviation Speed_Maguire_Index
    T50_Time_50 ArcSin_Transformation py_round_f Np.lift is_zero].
  repeat split; try (apply py_round_zero; reflexivity).
Qed.

(** C1.  A replicate column whose daily counts sum to zero yields, in the
    frame returned by [calculate_all_germination_parameters], a row in which
    germinability, mean germination time, variance, standard deviation,
    coefficient of variation, rate, speed index, uncertainty, synchrony, T50
    and the arcsine transform are all the number 0; the call returns
    normally and no field is NaN. *)
Theorem zero_total_gives_zero_statistics `{NP : Numpy}
  (total_seeds : Z) (df : DataFrame) (k : nat) (col : string)
  (rep_data : list Z) :
  nth_error (rep_columns df) k = Some col ->
  df_get col df = Some rep_data ->
  Np.sum rep_data = 0%Z ->
  exists rows r,
    calculate_all_germination_parameters total_seeds df = Returns rows /\
    nth_error rows k = Some r /\
    Germinated_Seeds r = 0%Z /\
    all_statistics_zero r.
Proof.
  intros Hk Hget Hsum.
  destruct (calculate_all_returns total_seeds df
              (rep_column_frame_not_empty _ _ _ Hk)) as (days & _ & Hret).
  destruct (replicate_loop_nth df (map inject_Z days) total_seeds
              (rep_columns df)
              (fun c H => df_get_of_header df c (rep_columns_are_headers df c H))
              0 k col Hk) as (d & Hd & Hn).
  rewrite Hget in Hd. injection Hd as <-.
  eexists. eexists. split; [exact Hret|]. split; [exact Hn|]. split.
  - exact Hsum.
  - now apply replicate_record_zero.
Qed.

Lemma zero_total_gives_zero_statistics_witness :
  nth_error (rep_columns frame_no_rows) 0 = Some "R1"%string /\
  df_get "R1" frame_no_rows = Some [] /\
  Np.sum [] = 0%Z /\
  exists rows r,
    calculate_all_germination_parameters (NP := sample_numpy) 25 frame_no_rows
    = Returns rows /\
    nth_error rows 0 = Some r /\
    Germinated_Seeds r = 0%Z /\
    all_statistics_zero r.
Proof.
  split; [reflexivity|]. split; [reflexivity|]. split; [reflexivity|].
  apply (zero_total_gives_zero_statistics (NP := sample_numpy)
           25 frame_no_rows 0 "R1"%string []); reflexivity.
Defined.

(** ** The round-trip scenario *)

(** C4.  For days 1..5 with counts 0, 5, 10, 5, 5 and 25 seeds sown, the
    engine returns one row with 25 germinated seeds, germinability 100 and
    T50 2.75; the cumulative sums are 0, 5, 15, 20, 25 and the T50 is the
    interpolation 2 + (12.5 - 5) * (3 - 2) / (15 - 5) between day 2 and
    day 3. *)
Theorem round_trip_scenario `{NP : Numpy} :
  exists r,
    calculate_all_germination_parameters 25 frame_round_trip = Returns [r] /\
    Germinated_Seeds r = 25%Z /\
    G_Germinability r == 100 /\
    T50_Time_50 r == 2.75 /\
    Np.cumsum [0; 5; 10; 5; 5]%Z = [0; 5; 15; 20; 25]%Z /\
    _calculate_tx [1; 2; 3; 4; 5] [0; 5; 10; 5; 5]%Z 25 (1 # 2)
    == 2 + (12.5 - 5) * (3 - 2) / (15 - 5) /\
    tx_loop [1; 2; 3; 4; 5] [0; 5; 15; 20; 25]%Z 12.5 0 [0; 5; 15; 20; 25]%Z
    = Some (2 + (12.5 - 5) * (3 - 2) / (15 - 5)).
Proof.
  eexists. split; [reflexivity|].
  repeat split; vm_compute; reflexivity.
Qed.

(** ** Germinability *)

Lemma sum_non_negative (a : list Z) :
  Forall (fun c => (0 <= c)%Z) a -> (0 <= Np.sum a)%Z.
Proof. induction 1; simpl; lia. Qed.

(** Before rounding, germinability is exactly 100 * germinated / sown. *)
Lemma germinability_exact `{NP : Numpy} (days : list Q) (total_seeds : Z)
  (rep_data : list Z) :
  (0 < total_seeds)%Z -> (0 <= Np.sum rep_data)%Z ->
  germinability (replicate_stats days total_seeds rep_data)
  == 100 * inject_Z (Np.sum rep_data) / inject_Z total_seeds.
Proof.
  intros Hts Hsum. unfold replicate_stats.
  assert (Hq : ~ inject_Z total_seeds == 0) by (apply inject_Z_nonzero; lia).
  destruct (0 <? Np.sum rep_data)%Z eqn:E; cbn [germinability].
  - field. exact Hq.
  - apply Z.ltb_ge in E. assert (Np.sum rep_data = 0%Z) as -> by lia.
    field. exact Hq.
Qed.

(** C8, as the code has it.  For a positive number of seeds sown and
    non-negative counts, on a frame with at least one column, the
    germinability field of every row is 100 * Germinated_Seeds / Total_Seeds
    to the two decimals reported: it differs from that number by less than
    0.01, and it is that number whenever that number is whole. *)
Theorem germinability_field_to_two_decimals `{NP : Numpy}
  (total_seeds : Z) (df : DataFrame) :
  (0 < total_seeds)%Z ->
  counts_non_negative df ->
  df <> [] ->
  exists rows,
    calculate_all_germination_parameters total_seeds df = Returns rows /\
    forall r, In r rows ->
      Total_Seeds r = total_seeds /\
      Qabs (G_Germinability r
            - 100 * inject_Z (Germinated_Seeds r) / inject_Z total_seeds)
      < 1 # 100 /\
      forall w : Z,
        100 * inject_Z (Germinated_Seeds r) / inject_Z total_seeds
        == inject_Z w ->
        G_Germinability r == inject_Z w.
Proof.
  intros Hts Hvalid Hne.
  destruct (calculate_all_returns total_seeds df Hne) as (days & _ & Hret).
  eexists. split; [exact Hret|].
  intros r Hin. apply replicate_loop_In in Hin.
  destruct Hin as (k & col & d & Hc & Hd & ->).
  cbn [G_Germinability Germinated_Seeds Total_Seeds replicate_record].
  assert (Hg : germinability (replicate_stats (map inject_Z days) total_seeds d)
               == 100 * inject_Z (Np.sum d) / inject_Z total_seeds).
  { apply germinability_exact; [exact Hts|].
    apply sum_non_negative. exact (Hvalid col d Hc Hd). }
  split; [reflexivity|]. split.
  - apply py_round_2_close. exact Hg.
  - intros w Hw. apply py_round_whole. rewrite Hg. exact Hw.
Qed.

Lemma frame_round_trip_non_negative : counts_non_negative frame_round_trip.
Proof.
  intros col d Hin Hget. vm_compute in Hin.
  destruct Hin as [<-|[]]. vm_compute in Hget. injection Hget as <-.
  repeat constructor; discriminate.
Qed.

Lemma germinability_field_to_two_decimals_witness :
  (0 < 160)%Z /\
  counts_non_negative frame_round_trip /\
  frame_round_trip <> [] /\
  exists rows,
    calculate_all_germination_parameters (NP := sample_numpy) 160
      frame_round_trip = Returns rows /\
    forall r, In r rows ->
      Total_Seeds r = 160%Z /\
      Qabs (G_Germinability r
            - 100 * inject_Z (Germinated_Seeds r) / inject_Z 160)
      < 1 # 100 /\
      forall w : Z,
        100 * inject_Z (Germinated_Seeds r) / inject_Z 160 == inject_Z w ->
        G_Germinability r == inject_Z w.
Proof.
  split; [reflexivity|]. split; [exact frame_round_trip_non_negative|].
  split; [discriminate|].
  apply (germinability_field_to_two_decimals (NP := sample_numpy) 160
           frame_round_trip);
    [reflexivity | exact frame_round_trip_non_negative | discriminate].
Defined.

(** C8, as stated, fails: one seed germinated out of three sown gives the
    field 33.33, which is not 100 / 3. *)
Lemma germinability_field_not_exact :
  exists r,
    calculate_all_germination_parameters (NP := sample_numpy) 3 frame_one_third
    = Returns [r] /\
    Germinated_Seeds r = 1%Z /\ Total_Seeds r = 3%Z /\
    G_Germinability r == 33.33 /\
    ~ G_Germinability r
      == 100 * inject_Z (Germinated_Seeds r) / inject_Z (Total_Seeds r).
Proof.
  eexists. split; [reflexivity|].
  repeat split; vm_compute; congruence.
Qed.

(** ** Replicate columns and rows *)

(** C9, as the code has it.  On a frame with at least one column the engine
    returns one row per replicate column, in column order and with no cap:
    row [k] is the record of the [k]-th replicate column, labelled R(k+1). *)
Theorem one_row_per_replicate_column `{NP : Numpy}
  (total_seeds : Z) (df : DataFrame) :
  df <> [] ->
  exists days rows,
    day_axis df = Returns days /\
    calculate_all_germination_parameters total_seeds df = Returns rows /\
    List.length rows = List.length (rep_columns df) /\
    forall k col,
      nth_error (rep_columns df) k = Some col ->
      exists rep_data,
        df_get col df = Some rep_data /\
        nth_error rows k
        = Some (replicate_record (map inject_Z days) total_seeds k rep_data).
Proof.
  intros Hne.
  destruct (calculate_all_returns total_seeds df Hne) as (days & Hd & Hret).
  assert (Hall : forall c, In c (rep_columns df) -> exists d, df_get c df = Some d).
  { intros c H. apply df_get_of_header, rep_columns_are_headers, H. }
  exists days. eexists. split; [exact Hd|]. split; [exact Hret|]. split.
  - now apply replicate_loop_length.
  - intros k col Hk.
    exact (replicate_loop_nth df (map inject_Z days) total_seeds
             (rep_columns df) Hall 0 k col Hk).
Qed.

Lemma one_row_per_replicate_column_witness :
  frame_seven <> [] /\
  exists days rows,
    day_axis frame_seven = Returns days /\
    calculate_all_germination_parameters (NP := sample_numpy) 25 frame_seven
    = Returns rows /\
    List.length rows = List.length (rep_columns frame_seven) /\
    forall k col,
      nth_error (rep_columns frame_seven) k = Some col ->
      exists rep_data,
        df_get col frame_seven = Some rep_data /\
        nth_error rows k
        = Some (replicate_record (NP := sample_numpy)
                  (map inject_Z days) 25 k rep_data).
Proof.
  split; [discriminate|].
  apply (one_row_per_replicate_column (NP := sample_numpy) 25 frame_seven).
  discriminate.
Defined.

(** C9, as stated, fails: a frame with seven replicate columns yields seven
    rows, the seventh labelled R7. *)
Lemma seventh_replicate_is_reported :
  List.length (rep_columns frame_seven) = 7%nat /\
  exists rows r,
    calculate_all_germination_parameters (NP := sample_numpy) 25 frame_seven
    = Returns rows /\
    List.length rows = 7%nat /\
    nth_error rows 6 = Some r /\
    Replicate r = "R7"%string /\
    Germinated_Seeds r = 1%Z.
Proof.
  split; [reflexivity|].
  eexists. eexists. split; [reflexivity|].
  split; [reflexivity|]. split; [reflexivity|]. split; reflexivity.
Qed.

(** ** Frames as loaded: headers, day axis and the replicate loop *)

Lemma rep_comprehension_text (columns : list label) :
  forallb is_text columns = true ->
  rep_comprehension columns = Returns (filter is_rep_label columns).
Proof.
  induction columns as [|[col|n] columns IH]; simpl; intros H.
  - reflexivity.
  - rewrite (IH H). reflexivity.
  - discriminate.
Qed.

Lemma rep_comprehension_number (columns : list label) :
  forallb is_text columns = false ->
  rep_comprehension columns = Raises AttributeError.
Proof.
  induction columns as [|[col|n] columns IH]; simpl; intros H.
  - discriminate.
  - rewrite (IH H). reflexivity.
  - reflexivity.
Qed.

Lemma raw_rep_columns_text (raw : RawFrame) :
  all_text raw = true -> raw_rep_columns raw = Returns (text_rep_columns raw).
Proof.
  intros H. unfold raw_rep_columns, text_rep_columns.
  rewrite (rep_comprehension_text _ H).
  destruct (filter is_rep_label (raw_columns raw)); reflexivity.
Qed.

Lemma raw_rep_columns_number (raw : RawFrame) :
  all_text raw = false -> raw_rep_columns raw = Raises AttributeError.
Proof.
  intros H. unfold raw_rep_columns.
  rewrite (rep_comprehension_number _ H). reflexivity.
Qed.

Lemma text_rep_columns_are_headers (raw : RawFrame) (c : label) :
  In c (text_rep_columns raw) -> In c (raw_columns raw).
Proof.
  unfold text_rep_columns.
  destruct (filter is_rep_label (raw_columns raw)) eqn:E.
  - destruct (raw_columns raw); simpl; tauto.
  - intros Hin. rewrite <- E in Hin. apply filter_In in Hin. tauto.
Qed.

Lemma label_eqb_eq (a b : label) : label_eqb a b = true <-> a = b.
Proof.
  destruct a as [s|n], b as [t|m]; simpl.
  - rewrite String.eqb_eq. split; congruence.
  - split; discriminate.
  - split; discriminate.
  - rewrite Z.eqb_eq. split; congruence.
Qed.

Lemma label_eqb_refl (a : label) : label_eqb a a = true.
Proof. now apply label_eqb_eq. Qed.

Lemma raw_get_of_header (raw : RawFrame) (c : label) :
  In c (raw_columns raw) -> exists cells, raw_get c raw = Some cells.
Proof.
  induction raw as [|[h cells] raw IH]; simpl; [tauto|].
  intros [->|Hin].
  - rewrite label_eqb_refl. eauto.
  - destruct (label_eqb c h); eauto.
Qed.

Lemma raw_has_column_get (raw : RawFrame) (c : label) :
  raw_has_column c raw = true -> exists cells, raw_get c raw = Some cells.
Proof.
  unfold raw_has_column. rewrite existsb_exists.
  intros (h & Hin & Heq). apply label_eqb_eq in Heq. subst h.
  now apply raw_get_of_header.
Qed.

Lemma raw_day_axis_returns (raw : RawFrame) :
  raw <> [] -> exists days, raw_day_axis raw = Returns days.
Proof.
  intros Hne. unfold raw_day_axis.
  destruct (raw_has_column (Text "Day") raw) eqn:E1.
  - destruct (raw_has_column_get _ _ E1) as [d ->]. eauto.
  - destruct (raw_has_column (Text "ti") raw) eqn:E2.
    + destruct (raw_has_column_get _ _ E2) as [d ->]. eauto.
    + destruct raw as [|[h d] raw]; [congruence | eauto].
Qed.

Section RawLoop.

Context `{NP : Numpy}.
Variables (raw : RawFrame) (days : list (option Z)) (total_seeds : Z).

Lemma replicate_loop_raw_nth (cols : list label) :
  (forall c, In c cols -> exists cells, raw_get c raw = Some cells) ->
  forall i k col,
    nth_error cols k = Some col ->
    exists cells, raw_get col raw = Some cells /\
      nth_error (replicate_loop_raw raw days total_seeds i cols) k
      = Some (replicate_record_raw days total_seeds (i + k) cells).
Proof.
  induction cols as [|c cols IH]; intros Hall i k col Hk.
  - destruct k; discriminate.
  - destruct (Hall c (or_introl eq_refl)) as [d Hd].
    simpl. rewrite Hd. destruct k as [|k]; simpl in Hk |- *.
    + injection Hk as <-. exists d. rewrite Nat.add_0_r. auto.
    + destruct (IH (fun c' H => Hall c' (or_intror H)) (S i) k col Hk)
        as (d' & Hd' & Hn).
      exists d'. split; [exact Hd'|].
      rewrite Hn. f_equal. f_equal. lia.
Qed.

Lemma replicate_loop_raw_length (cols : list label) :
  (forall c, In c cols -> exists cells, raw_get c raw = Some cells) ->
  forall i,
    List.length (replicate_loop_raw raw days total_seeds i cols)
    = List.length cols.
Proof.
  induction cols as [|c cols IH]; intros Hall i; [reflexivity|].
  destruct (Hall c (or_introl eq_refl)) as [d Hd].
  simpl. rewrite Hd. simpl. f_equal.
  apply IH. intros c' H. apply Hall. now right.
Qed.

End RawLoop.

(** On a frame with string headers and at least one column the call returns
    the rows of the replicate loop over the resolved day axis. *)
Lemma calculate_all_raw_returns `{NP : Numpy} (total_seeds : Z)
  (raw : RawFrame) :
  all_text raw = true -> raw <> [] ->
  exists days,
    raw_day_axis raw = Returns days /\
    calculate_all_raw total_seeds raw
    = Returns (replicate_loop_raw raw days total_seeds 0
                 (text_rep_columns raw)).
Proof.
  intros Ht Hne. destruct (raw_day_axis_returns raw Hne) as [days Hd].
  exists days. split; [exact Hd|].
  unfold calculate_all_raw. now rewrite (raw_rep_columns_text raw Ht), Hd.
Qed.

(** ** Frames without blank cells

    A frame of whole numbers under string headers is read the same way by
    both layers. *)

Lemma sum_of_numbers (l : list Q) : Nf.sum (map Fin l) = Fin (Np.sumQ l).
Proof.
  induction l as [|x l IH]; [reflexivity|].
  cbn [map]. unfold Nf.sum in *. cbn [fold_right]. rewrite IH. reflexivity.
Qed.

Lemma zip_with_numbers_l {B : Type} (f : Q -> B -> Q)
  (g : npfloat -> B -> npfloat) :
  (forall x y, g (Fin x) y = Fin (f x y)) ->
  forall a b, Np.zip_with g (map Fin a) b = map Fin (Np.zip_with f a b).
Proof.
  intros H. unfold Np.zip_with.
  induction a as [|x a IH]; intros [|y b]; try reflexivity.
  cbn [map combine fst snd]. rewrite H, IH. reflexivity.
Qed.

Lemma zip_with_numbers_r {B : Type} (f : B -> Q -> Q)
  (g : B -> npfloat -> npfloat) :
  (forall y x, g y (Fin x) = Fin (f y x)) ->
  forall b a, Np.zip_with g b (map Fin a) = map Fin (Np.zip_with f b a).
Proof.
  intros H. unfold Np.zip_with.
  induction b as [|y b IH]; intros [|x a]; try reflexivity.
  cbn [map combine fst snd]. rewrite H, IH. reflexivity.
Qed.

Lemma all_positive_numbers (days : list Q) :
  Nf.all_positive (map Fin days) = Np.all_positive days.
Proof.
  unfold Nf.all_positive, Np.all_positive.
  induction days as [|d days IH]; [reflexivity|].
  cbn [map forallb]. rewrite IH. reflexivity.
Qed.

Lemma last_numbers (days : list Q) :
  last (map Fin days) (Fin 0) = Fin (last days 0).
Proof.
  induction days as [|d [|d' days] IH]; try reflexivity.
  change (last (Fin d' :: map Fin days) (Fin 0) = Fin (last (d' :: days) 0)).
  exact IH.
Qed.

Lemma tx_loop_numbers (days : list Q) (cumulative : list Z) (target : Q)
  (rest : list Z) :
  forall i,
    tx_loop_raw (map Fin days) cumulative target i rest
    = option_map Fin (tx_loop days cumulative target i rest).
Proof.
  induction rest as [|c rest IH]; intros i; [reflexivity|].
  cbn [tx_loop_raw tx_loop].
  destruct (Qle_bool target (inject_Z c)); [|apply IH].
  destruct (Nat.eqb i 0).
  - change (Fin 0) with (Fin 0). rewrite (map_nth Fin days 0 0%nat). reflexivity.
  - cbv zeta. rewrite !(map_nth Fin days 0).
    destruct (negb _); reflexivity.
Qed.

Lemma calculate_tx_numbers (days : list Q) (rep_data : list Z) (total : Z)
  (percentage : Q) :
  _calculate_tx_raw (map Fin days) rep_data total percentage
  = Fin (_calculate_tx days rep_data total percentage).
Proof.
  unfold _calculate_tx_raw, _calculate_tx.
  destruct (total =? 0)%Z; [reflexivity|].
  cbv zeta. rewrite tx_loop_numbers.
  destruct (tx_loop _ _ _ _ _); [reflexivity | apply last_numbers].
Qed.

Lemma fillna0_numbers (cells : list Z) : fillna0 (map Some cells) = cells.
Proof.
  unfold fillna0. rewrite map_map. apply map_id.
Qed.

Lemma has_blank_numbers (cells : list Z) : has_blank (map Some cells) = false.
Proof. induction cells; [reflexivity | exact IHcells]. Qed.

Lemma day_values_numbers (cells : list Z) :
  day_values (map Some cells) = map Fin (map inject_Z cells).
Proof. unfold day_values. rewrite !map_map. reflexivity. Qed.

Lemma replicate_record_agrees `{NP : Numpy} (days : list Z) (total_seeds : Z)
  (i : nat) (rep_data : list Z) :
  replicate_record_raw (map Some days) total_seeds i (map Some rep_data)
  = to_raw (replicate_record (map inject_Z days) total_seeds i rep_data).
Proof.
  unfold replicate_record_raw, to_raw, replicate_record.
  rewrite fillna0_numbers, has_blank_numbers, day_values_numbers.
  cbv zeta. cbn [Replicate Total_Seeds Germinated_Seeds G_Germinability
    MT_Mean_Germination_Time CVt_Coefficient_Variation MR_Mean_Germination_Rate
    U_Uncertainty_Index Z_Synchrony_Index Variance_Germination_Time
    Standard_Deviation Speed_Maguire_Index T50_Time_50 ArcSin_Transformation].
  unfold replicate_stats_raw, replicate_stats.
  destruct (0 <? Np.sum rep_data)%Z; [|reflexivity].
  cbv zeta.
  cbn [raw_germinability raw_mgt raw_mgr raw_variance raw_std_dev raw_cv
       raw_speed_maguire raw_uncertainty raw_synchrony raw_t50
       germinability mgt mgr variance std_dev cv speed_maguire uncertainty
       synchrony t50].
  set (days' := map inject_Z days).
  rewrite (zip_with_numbers_l (fun d c => d * inject_Z c)
             (fun d c => Nf.mul d (Fin (inject_Z c)))) by reflexivity.
  rewrite sum_of_numbers. cbn [Nf.div].
  set (m := Np.sumQ (Np.zip_with (fun d c => d * inject_Z c) days' rep_data)
            / inject_Z (Np.sum rep_data)).
  rewrite (zip_with_numbers_r (fun c d => inject_Z c * (d - m) ^ 2)
             (fun c d => Nf.mul (Fin (inject_Z c))
                           (Nf.square (Nf.sub d (Fin m))))) by reflexivity.
  rewrite (zip_with_numbers_r (fun c d => inject_Z c / d)
             (fun c d => Nf.div (Fin (inject_Z c)) d)) by reflexivity.
  rewrite !sum_of_numbers, all_positive_numbers, calculate_tx_numbers.
  cbn [Nf.ltb Nf.div].
  unfold synchrony_numerator, _combination_of.
  assert (Hsq : forall v, Nf.sqrt (Fin v) = Np.sqrt v) by reflexivity.
  destruct (Qltb 0 m);
    destruct (1 <? Np.sum rep_data)%Z;
    destruct (Np.all_positive days');
    rewrite ?Hsq;
    try (destruct (Np.sqrt _); reflexivity);
    reflexivity.
Qed.

Lemma embed_columns (df : DataFrame) :
  raw_columns (embed_frame df) = map Text (df_columns df).
Proof.
  unfold raw_columns, embed_frame, df_columns. rewrite !map_map. reflexivity.
Qed.

Lemma embed_all_text (df : DataFrame) : all_text (embed_frame df) = true.
Proof.
  unfold all_text. rewrite embed_columns.
  induction (df_columns df) as [|c cols IH]; [reflexivity | exact IH].
Qed.

Lemma filter_text_labels (cols : list string) :
  filter is_rep_label (map Text cols) = map Text (filter is_rep_header cols).
Proof.
  induction cols as [|c cols IH]; [reflexivity|].
  cbn [map filter is_rep_label]. rewrite IH.
  destruct (is_rep_header c); reflexivity.
Qed.

Lemma embed_rep_columns (df : DataFrame) :
  text_rep_columns (embed_frame df) = map Text (rep_columns df).
Proof.
  unfold text_rep_columns, rep_columns.
  rewrite embed_columns, filter_text_labels.
  destruct (filter is_rep_header (df_columns df)); [|reflexivity].
  cbn [map]. destruct (df_columns df); reflexivity.
Qed.

Lemma embed_get (df : DataFrame) (c : string) :
  raw_get (Text c) (embed_frame df) = option_map (map Some) (df_get c df).
Proof.
  induction df as [|[h cells] df IH]; [reflexivity|].
  cbn [embed_frame map raw_get df_get fst snd label_eqb].
  destruct (String.eqb c h); [reflexivity | exact IH].
Qed.

Lemma embed_has_column (df : DataFrame) (c : string) :
  raw_has_column (Text c) (embed_frame df) = has_column c df.
Proof.
  unfold raw_has_column, has_column. rewrite embed_columns.
  induction (df_columns df) as [|h cols IH]; [reflexivity|].
  cbn [map existsb label_eqb]. rewrite IH. reflexivity.
Qed.

Lemma embed_day_axis (df : DataFrame) :
  raw_day_axis (embed_frame df)
  = match day_axis df with
    | Returns days => Returns (map Some days)
    | Raises e => Raises e
    end.
Proof.
  unfold raw_day_axis, day_axis.
  rewrite !embed_has_column, !embed_get.
  destruct (has_column "Day" df).
  - destruct (df_get "Day" df); reflexivity.
  - destruct (has_column "ti" df).
    + destruct (df_get "ti" df); reflexivity.
    + destruct df as [|[h d] df]; reflexivity.
Qed.

Lemma embed_replicate_loop `{NP : Numpy} (df : DataFrame) (days : list Z)
  (total_seeds : Z) (cols : list string) :
  forall i,
    replicate_loop_raw (embed_frame df) (map Some days) total_seeds i
      (map Text cols)
    = map to_raw (replicate_loop df (map inject_Z days) total_seeds i cols).
Proof.
  induction cols as [|c cols IH]; intros i; [reflexivity|].
  cbn [map replicate_loop_raw replicate_loop]. rewrite embed_get.
  destruct (df_get c df) as [rep_data|]; cbn [option_map map].
  - rewrite replicate_record_agrees, IH. reflexivity.
  - apply IH.
Qed.

(** On a frame with string headers and no blank cell the engine on frames
    as loaded returns the rows of the engine on whole-number frames: what
    is proved of the latter holds of the former on such frames. *)
Lemma engine_agrees_on_whole_number_frames `{NP : Numpy} (total_seeds : Z)
  (df : DataFrame) :
  calculate_all_raw total_seeds (embed_frame df)
  = match calculate_all_germination_parameters total_seeds df with
    | Returns rows => Returns (map to_raw rows)
    | Raises e => Raises e
    end.
Proof.
  unfold calculate_all_raw, calculate_all_germination_parameters.
  rewrite (raw_rep_columns_text _ (embed_all_text df)), embed_day_axis.
  destruct (day_axis df) as [days|e]; [|reflexivity].
  rewrite embed_rep_columns, embed_replicate_loop. reflexivity.
Qed.

(** ** What the engine raises *)

(** C2, as the code has it.  The engine checks neither the sign of the
    counts nor the number of rows, and what it raises comes from the
    library calls on the headers.  On a frame whose cells are whole numbers
    or blank:
    - a header that is not a string makes line 89 raise an AttributeError,
      whatever the cells hold;
    - a frame without any column raises the IndexError of the day-axis
      fall-back;
    - every other frame, negative counts, blank cells and no day row
      included, returns one row per replicate column, in column order; row
      [k] is computed from the cells of the [k]-th replicate column as they
      were read, blank cells counting as 0, and its Germinated_Seeds is the
      plain sum of these cells.
    The TypeError of [math.factorial] never leaves the engine. *)
Theorem engine_raises_on_headers_not_on_counts `{NP : Numpy}
  (total_seeds : Z) (raw : RawFrame) :
  (all_text raw = false ->
   calculate_all_raw total_seeds raw = Raises AttributeError) /\
  (raw = [] ->
   calculate_all_raw total_seeds raw = Raises IndexError) /\
  (all_text raw = true -> raw <> [] ->
   exists days rows,
     raw_day_axis raw = Returns days /\
     calculate_all_raw total_seeds raw = Returns rows /\
     List.length rows = List.length (text_rep_columns raw) /\
     forall k col,
       nth_error (text_rep_columns raw) k = Some col ->
       exists cells r,
         raw_get col raw = Some cells /\
         nth_error rows k = Some r /\
         r = replicate_record_raw days total_seeds k cells /\
         R_Germinated_Seeds r = Np.sum (fillna0 cells)) /\
  calculate_all_raw total_seeds raw <> Raises TypeError.
Proof.
  assert (Hnum : all_text raw = false ->
                 calculate_all_raw total_seeds raw = Raises AttributeError).
  { intros Hf. unfold calculate_all_raw.
    now rewrite (raw_rep_columns_number raw Hf). }
  assert (Hret : all_text raw = true -> raw <> [] ->
                 exists days,
                   raw_day_axis raw = Returns days /\
                   calculate_all_raw total_seeds raw
                   = Returns (replicate_loop_raw raw days total_seeds 0
                                (text_rep_columns raw)))
    by apply calculate_all_raw_returns.
  split; [exact Hnum|]. split; [intros ->; reflexivity|]. split.
  - intros Ht Hne. destruct (Hret Ht Hne) as (days & Hd & Hrows).
    assert (Hall : forall c, In c (text_rep_columns raw) ->
                             exists cells, raw_get c raw = Some cells).
    { intros c H. apply raw_get_of_header, text_rep_columns_are_headers, H. }
    exists days. eexists. split; [exact Hd|]. split; [exact Hrows|]. split.
    + now apply replicate_loop_raw_length.
    + intros k col Hk.
      destruct (replicate_loop_raw_nth raw days total_seeds
                  (text_rep_columns raw) Hall 0 k col Hk) as (cells & Hg & Hn).
      exists cells. eexists. split; [exact Hg|]. split; [exact Hn|].
      split; reflexivity.
  - destruct (all_text raw) eqn:Ht.
    + destruct raw as [|column raw'] eqn:Hraw.
      * discriminate.
      * rewrite <- Hraw in *.
        assert (Hne : raw <> []) by (rewrite Hraw; discriminate).
        destruct (Hret eq_refl Hne) as (days & _ & ->). discriminate.
    + rewrite (Hnum eq_refl). discriminate.
Qed.

Lemma engine_raises_on_headers_not_on_counts_witness :
  (all_text raw_numeric_header = false /\
   calculate_all_raw (NP := sample_numpy) 25 raw_numeric_header
   = Raises AttributeError) /\
  calculate_all_raw (NP := sample_numpy) 25 [] = Raises IndexError /\
  (all_text raw_negative_and_blank = true /\
   raw_negative_and_blank <> [] /\
   exists days rows,
     raw_day_axis raw_negative_and_blank = Returns days /\
     calculate_all_raw (NP := sample_numpy) 25 raw_negative_and_blank
     = Returns rows /\
     List.length rows = List.length (text_rep_columns raw_negative_and_blank) /\
     forall k col,
       nth_error (text_rep_columns raw_negative_and_blank) k = Some col ->
       exists cells r,
         raw_get col raw_negative_and_blank = Some cells /\
         nth_error rows k = Some r /\
         r = replicate_record_raw (NP := sample_numpy) days 25 k cells /\
         R_Germinated_Seeds r = Np.sum (fillna0 cells)).
Proof.
  split; [split; [reflexivity|]|split; [|split; [reflexivity|split; [discriminate|]]]].
  - apply (engine_raises_on_headers_not_on_counts (NP := sample_numpy)
             25 raw_numeric_header). reflexivity.
  - apply (engine_raises_on_headers_not_on_counts (NP := sample_numpy) 25 []).
    reflexivity.
  - apply (engine_raises_on_headers_not_on_counts (NP := sample_numpy)
             25 raw_negative_and_blank); [reflexivity | discriminate].
Defined.

(** The frame of the witness: the negative count and the blank cells enter
    the sums as -1 and 0. *)
Example negative_and_blank_scenario `{NP : Numpy} :
  exists r1 r2,
    calculate_all_raw 25 raw_negative_and_blank = Returns [r1; r2] /\
    R_Germinated_Seeds r1 = 2%Z /\ R_Germinated_Seeds r2 = 5%Z /\
    R_MT_Mean_Germination_Time r1 = NaN /\
    is_zero (R_Speed_Maguire_Index r1).
Proof.
  eexists. eexists. split; [reflexivity|].
  repeat split; vm_compute; reflexivity.
Qed.

(** C2, as stated, fails: a frame with a negative count and a frame with no
    day row both make the engine return normally; the negative count enters
    the sum as it is. *)
Lemma invalid_frames_do_not_raise :
  has_negative_count frame_negative = true /\
  (exists r,
     calculate_all_germination_parameters (NP := sample_numpy) 25 frame_negative
     = Returns [r] /\ Germinated_Seeds r = 2%Z) /\
  has_no_day_row frame_no_rows = true /\
  (exists r,
     calculate_all_germination_parameters (NP := sample_numpy) 25 frame_no_rows
     = Returns [r] /\ Germinated_Seeds r = 0%Z).
Proof.
  split; [reflexivity|]. split.
  - eexists. split; reflexivity.
  - split; [reflexivity|]. eexists. split; reflexivity.
Qed.

(** ** Synchrony *)

Lemma fact_upto_pos (k : nat) : (0 < fact_upto k)%Z.
Proof.
  induction k; [reflexivity|].
  change (fact_upto (S k)) with (Z.of_nat (S k) * fact_upto k)%Z.
  apply Z.mul_pos_pos; lia.
Qed.

Lemma factorial_step (n : Z) :
  (2 <= n)%Z -> factorial n = (n * (n - 1) * factorial (n - 2))%Z.
Proof.
  intros Hn. unfold factorial.
  replace (Z.to_nat n) with (S (S (Z.to_nat (n - 2)))) by lia.
  cbn [fact_upto]. rewrite !Nat2Z.inj_succ, Z2Nat.id by lia. lia.
Qed.

Lemma sum_cons (x : Z) (a : list Z) : Np.sum (x :: a) = (x + Np.sum a)%Z.
Proof. reflexivity. Qed.

Lemma sumQ_cons (x : Q) (a : list Q) : Np.sumQ (x :: a) = x + Np.sumQ a.
Proof. reflexivity. Qed.

(** Past the guard, C(n, 2) is n (n - 1) / 2. *)
Lemma combination_2 (n : Z) :
  (2 <= n)%Z -> _combination n 2 == inject_Z (n * (n - 1)) / 2.
Proof.
  intros Hn. unfold _combination.
  replace ((n <? 2)%Z || (n <? 0)%Z || (2 <? 0)%Z) with false
    by (symmetry; rewrite !orb_false_iff, !Z.ltb_ge; lia).
  rewrite (factorial_step n Hn).
  change (factorial 2) with 2%Z.
  assert (Hf : ~ inject_Z (factorial (n - 2)) == 0).
  { apply inject_Z_nonzero. pose proof (fact_upto_pos (Z.to_nat (n - 2))).
    unfold factorial. lia. }
  rewrite !inject_Z_mult. change (inject_Z 2) with 2. field. exact Hf.
Qed.

Lemma combination_below_2 (n : Z) : (n < 2)%Z -> _combination n 2 = 0.
Proof.
  intros Hn. unfold _combination.
  replace (n <? 2)%Z with true by (symmetry; apply Z.ltb_lt; lia).
  reflexivity.
Qed.

Lemma synchrony_numerator_pairs (rep_data : list Z) :
  synchrony_numerator rep_data == inject_Z (pairs_within rep_data) / 2.
Proof.
  unfold synchrony_numerator, pairs_within.
  induction rep_data as [|x a IH]; [reflexivity|].
  cbn [filter]. destruct (2 <=? x)%Z eqn:E; [|exact IH].
  apply Z.leb_le in E. cbn [map]. rewrite sumQ_cons, sum_cons.
  rewrite IH, (combination_2 x E), inject_Z_plus. field.
Qed.

Lemma pairs_within_bounds (rep_data : list Z) :
  Forall (fun c => (0 <= c)%Z) rep_data ->
  (0 <= pairs_within rep_data
   <= Np.sum rep_data * (Np.sum rep_data - 1))%Z.
Proof.
  unfold pairs_within. induction 1 as [|x a Hx Ha IH]; [simpl; lia|].
  pose proof (sum_non_negative a Ha) as Hs.
  cbn [filter]. destruct (2 <=? x)%Z eqn:E.
  - apply Z.leb_le in E. cbn [map]. rewrite !sum_cons. nia.
  - apply Z.leb_gt in E. rewrite sum_cons. nia.
Qed.

Lemma pairs_within_app (a b : list Z) :
  pairs_within (a ++ b) = (pairs_within a + pairs_within b)%Z.
Proof.
  unfold pairs_within. rewrite filter_app, map_app.
  induction (map (fun ni => ni * (ni - 1))%Z (filter (fun ni => (2 <=? ni)%Z) a));
    simpl in *; lia.
Qed.

Lemma sum_app (a b : list Z) : Np.sum (a ++ b) = (Np.sum a + Np.sum b)%Z.
Proof. induction a; simpl in *; lia. Qed.

Lemma zeros_sum_pairs (a : list Z) :
  Forall (fun c => c = 0%Z) a -> Np.sum a = 0%Z /\ pairs_within a = 0%Z.
Proof.
  unfold pairs_within. induction 1 as [|x a -> Ha [IH1 IH2]]; [split; reflexivity|].
  simpl. split; assumption.
Qed.

Lemma pairs_within_small (a : list Z) :
  Forall (fun c => (c <= 1)%Z) a -> pairs_within a = 0%Z.
Proof.
  unfold pairs_within. induction 1 as [|x a Hx Ha IH]; [reflexivity|].
  cbn [filter]. replace (2 <=? x)%Z with false by (symmetry; apply Z.leb_gt; lia).
  exact IH.
Qed.

(** The synchrony statistic is the quotient of the two pair counts as soon
    as two seeds have germinated. *)
Lemma synchrony_quotient `{NP : Numpy} (days : list Q) (total_seeds : Z)
  (rep_data : list Z) :
  (2 <= Np.sum rep_data)%Z ->
  synchrony (replicate_stats days total_seeds rep_data)
  = synchrony_numerator rep_data / _combination (Np.sum rep_data) 2.
Proof.
  intros HT. unfold replicate_stats.
  replace (0 <? Np.sum rep_data)%Z with true by (symmetry; apply Z.ltb_lt; lia).
  cbn [synchrony].
  assert (Hd : 0 < _combination (Np.sum rep_data) 2).
  { rewrite (combination_2 _ HT).
    assert (0 < inject_Z (Np.sum rep_data * (Np.sum rep_data - 1)))
      by (apply inject_Z_pos; nia).
    apply Qlt_shift_div_l; lra. }
  apply Qltb_lt in Hd. rewrite Hd. reflexivity.
Qed.

Lemma synchrony_value `{NP : Numpy} (days : list Q) (total_seeds : Z)
  (rep_data : list Z) :
  (2 <= Np.sum rep_data)%Z ->
  synchrony (replicate_stats days total_seeds rep_data)
  == inject_Z (pairs_within rep_data)
     / inject_Z (Np.sum rep_data * (Np.sum rep_data - 1)).
Proof.
  intros HT. rewrite (synchrony_quotient days total_seeds rep_data HT).
  rewrite synchrony_numerator_pairs, (combination_2 _ HT).
  field. apply inject_Z_nonzero. nia.
Qed.

Lemma synchrony_below_2 `{NP : Numpy} (days : list Q) (total_seeds : Z)
  (rep_data : list Z) :
  (Np.sum rep_data < 2)%Z ->
  synchrony (replicate_stats days total_seeds rep_data) == 0.
Proof.
  intros HT. unfold replicate_stats.
  destruct (0 <? Np.sum rep_data)%Z; cbn [synchrony]; [|reflexivity].
  rewrite (combination_below_2 _ HT). reflexivity.
Qed.

Lemma synchrony_no_pair `{NP : Numpy} (days : list Q) (total_seeds : Z)
  (rep_data : list Z) :
  Forall (fun c => (c <= 1)%Z) rep_data ->
  synchrony (replicate_stats days total_seeds rep_data) == 0.
Proof.
  intros Hs. unfold replicate_stats.
  destruct (0 <? Np.sum rep_data)%Z; cbn [synchrony]; [|reflexivity].
  destruct (Qltb 0 (_combination (Np.sum rep_data) 2)); [|reflexivity].
  rewrite synchrony_numerator_pairs, (pairs_within_small _ Hs).
  unfold Qdiv. change (inject_Z 0) with 0. ring.
Qed.

(** X25.  On a column without a blank cell and with non-negative counts:
    once two seeds have germinated, the synchrony index and its field lie
    in [0, 1]; both are exactly 1 when all germination falls on one day;
    both are 0 when fewer than two seeds germinated or when no day has more
    than one. *)
Theorem synchrony_on_whole_number_columns `{NP : Numpy} (days : list Q)
  (total_seeds : Z) (i : nat) (rep_data : list Z) :
  Forall (fun c => (0 <= c)%Z) rep_data ->
  let z := synchrony (replicate_stats days total_seeds rep_data) in
  let field := Z_Synchrony_Index (replicate_record days total_seeds i rep_data) in
  ((2 <= Np.sum rep_data)%Z ->
   0 <= z <= 1 /\ 0 <= field <= 1) /\
  (forall pre post n,
     (2 <= n)%Z ->
     Forall (fun c => c = 0%Z) pre -> Forall (fun c => c = 0%Z) post ->
     rep_data = pre ++ n :: post ->
     Np.sum rep_data = n /\ z == 1 /\ field == 1) /\
  ((Np.sum rep_data < 2)%Z \/ Forall (fun c => (c <= 1)%Z) rep_data ->
   z == 0 /\ field == 0).
Proof.
  intros Hvalid z field.
  assert (Hfield : field = py_round z 3) by reflexivity.
  split; [|split].
  - intros HT.
    assert (Hz : 0 <= z <= 1).
    { unfold z. rewrite (synchrony_value days total_seeds rep_data HT).
      pose proof (pairs_within_bounds rep_data Hvalid) as [Hlo Hhi].
      assert (HD : 0 < inject_Z (Np.sum rep_data * (Np.sum rep_data - 1)))
        by (apply inject_Z_pos; nia).
      rewrite Zle_Qle in Hlo, Hhi. change (inject_Z 0) with 0 in Hlo.
      split.
      - apply Qle_shift_div_l; [exact HD|]. lra.
      - apply Qle_shift_div_r; [exact HD|]. lra. }
    split; [exact Hz|].
    rewrite Hfield. apply py_round_unit_interval. exact Hz.
  - intros pre post n Hn Hpre Hpost ->.
    destruct (zeros_sum_pairs pre Hpre) as [Sp Pp].
    destruct (zeros_sum_pairs post Hpost) as [Sq Pq].
    assert (HS : Np.sum (pre ++ n :: post) = n).
    { rewrite sum_app. change (n :: post) with ([n] ++ post).
      rewrite sum_app. simpl. lia. }
    assert (HP : pairs_within (pre ++ n :: post) = (n * (n - 1))%Z).
    { rewrite pairs_within_app. change (n :: post) with ([n] ++ post).
      rewrite pairs_within_app, Pp, Pq. unfold pairs_within. cbn [filter].
      replace (2 <=? n)%Z with true by (symmetry; apply Z.leb_le; lia).
      simpl. lia. }
    assert (Hz : z == 1).
    { unfold z. rewrite synchrony_value by (rewrite HS; exact Hn).
      rewrite HS, HP. field. apply inject_Z_nonzero. nia. }
    split; [exact HS|]. split; [exact Hz|].
    rewrite Hfield. apply py_round_one. exact Hz.
  - intros Hcase.
    assert (Hz : z == 0).
    { destruct Hcase as [HT|Hs].
      - apply synchrony_below_2. exact HT.
      - apply synchrony_no_pair. exact Hs. }
    split; [exact Hz|]. rewrite Hfield. apply py_round_zero. exact Hz.
Qed.

Lemma synchrony_on_whole_number_columns_witness :
  Forall (fun c => (0 <= c)%Z) [0; 10; 0]%Z /\
  let z := synchrony (replicate_stats (NP := sample_numpy) [1; 2; 3] 25 [0; 10; 0]%Z) in
  let field :=
    Z_Synchrony_Index
      (replicate_record (NP := sample_numpy) [1; 2; 3] 25 0 [0; 10; 0]%Z) in
  ((2 <= Np.sum [0; 10; 0]%Z)%Z ->
   0 <= z <= 1 /\ 0 <= field <= 1) /\
  (forall pre post n,
     (2 <= n)%Z ->
     Forall (fun c => c = 0%Z) pre -> Forall (fun c => c = 0%Z) post ->
     [0; 10; 0]%Z = pre ++ n :: post ->
     Np.sum [0; 10; 0]%Z = n /\ z == 1 /\ field == 1) /\
  ((Np.sum [0; 10; 0]%Z < 2)%Z \/ Forall (fun c => (c <= 1)%Z) [0; 10; 0]%Z ->
   z == 0 /\ field == 0).
Proof.
  assert (H : Forall (fun c => (0 <= c)%Z) [0; 10; 0]%Z)
    by (repeat constructor; discriminate).
  split; [exact H|].
  exact (synchrony_on_whole_number_columns (NP := sample_numpy)
           [1; 2; 3] 25 0 [0; 10; 0]%Z H).
Defined.

Lemma combination_float_zero (n : Q) (r : Z) : _combination_float n r = 0.
Proof.
  unfold _combination_float, factorial_of_float.
  destruct (Qltb n (inject_Z r) || Qltb n 0 || (r <? 0)%Z); reflexivity.
Qed.

Lemma synchrony_of_float_column `{NP : Numpy} (days : list npfloat)
  (total_seeds : Z) (rep_data : list Z) :
  raw_synchrony (replicate_stats_raw days total_seeds true rep_data) = 0.
Proof.
  unfold replicate_stats_raw.
  destruct (0 <? Np.sum rep_data)%Z; [|reflexivity].
  cbv zeta. cbn [raw_synchrony]. unfold _combination_of.
  rewrite (combination_float_zero (inject_Z (Np.sum rep_data)) 2).
  reflexivity.
Qed.

(** C3 fails on the code.  A replicate column with a blank cell is loaded
    as float64; the blank counts as 0, as the specification asks, but
    [math.factorial] rejects every float, the bare [except] of
    [_combination] turns that into 0, and the synchrony index of the row is
    0 whatever the counts are: also when all germination falls on one day,
    where it should be 1. *)
Theorem synchrony_zero_on_blank_cell_column `{NP : Numpy}
  (days : list (option Z)) (total_seeds : Z) (i : nat)
  (cells : list (option Z)) :
  has_blank cells = true ->
  is_zero (R_Z_Synchrony_Index
             (replicate_record_raw days total_seeds i cells)).
Proof.
  intros Hblank. unfold replicate_record_raw. cbv zeta.
  cbn [R_Z_Synchrony_Index]. rewrite Hblank, synchrony_of_float_column.
  cbn [is_zero]. apply py_round_zero. reflexivity.
Qed.

Lemma synchrony_zero_on_blank_cell_column_witness :
  has_blank [None; Some 10; Some 0]%Z = true /\
  fillna0 [None; Some 10; Some 0]%Z = [0; 10; 0]%Z /\
  (exists r,
     calculate_all_raw (NP := sample_numpy) 25 raw_single_day_blank
     = Returns [r] /\
     R_Germinated_Seeds r = 10%Z /\
     is_zero (R_Z_Synchrony_Index r)) /\
  (exists r,
     calculate_all_raw (NP := sample_numpy) 25 raw_single_day = Returns [r] /\
     R_Germinated_Seeds r = 10%Z /\
     is_one (R_Z_Synchrony_Index r)).
Proof.
  split; [reflexivity|]. split; [reflexivity|]. split.
  - eexists. split; [reflexivity|]. split; [reflexivity|].
    apply (synchrony_zero_on_blank_cell_column (NP := sample_numpy)
             [Some 1; Some 2; Some 3]%Z 25 0 [None; Some 10; Some 0]%Z).
    reflexivity.
  - eexists. split; [reflexivity|]. split; [reflexivity|].
    vm_compute. reflexivity.
Defined.

(** All germination on one day: days 1, 2, 3 with counts 0, 10, 0. *)
Example single_day_scenario `{NP : Numpy} :
  Z_Synchrony_Index (replicate_record [1; 2; 3] 25 0 [0; 10; 0]%Z) == 1 /\
  MT_Mean_Germination_Time (replicate_record [1; 2; 3] 25 0 [0; 10; 0]%Z) == 2 /\
  Variance_Germination_Time (replicate_record [1; 2; 3] 25 0 [0; 10; 0]%Z) == 0.
Proof. repeat split; vm_compute; reflexivity. Qed.

(** ** Speed index *)

Lemma all_positive_true (days : list Q) :
  Np.all_positive days = true <-> Forall (fun d => 0 < d) days.
Proof.
  unfold Np.all_positive. rewrite forallb_forall, Forall_forall.
  split; intros H d Hd; apply Qltb_lt, H, Hd.
Qed.

Lemma all_positive_false (days : list Q) :
  Exists (fun d => d <= 0) days -> Np.all_positive days = false.
Proof.
  intros Hex. destruct (Np.all_positive days) eqn:E; [|reflexivity].
  apply all_positive_true in E. apply Exists_exists in Hex.
  destruct Hex as (d & Hin & Hle). rewrite Forall_forall in E.
  specialize (E d Hin). lra.
Qed.

Lemma zero_sum_zero_counts (a : list Z) :
  Forall (fun c => (0 <= c)%Z) a -> Np.sum a = 0%Z ->
  Forall (fun c => c = 0%Z) a.
Proof.
  induction 1 as [|x a Hx Ha IH]; intros Hs; [constructor|].
  rewrite sum_cons in Hs. pose proof (sum_non_negative a Ha).
  constructor; [lia | apply IH; lia].
Qed.

Lemma zero_counts_speed (rep_data : list Z) (days : list Q) :
  Forall (fun c => c = 0%Z) rep_data ->
  Np.sumQ (Np.zip_with (fun c d => inject_Z c / d) rep_data days) == 0.
Proof.
  intros H. revert days. induction H as [|x a -> Ha IH]; intros days.
  - reflexivity.
  - destruct days as [|d days]; [reflexivity|].
    unfold Np.zip_with in *. cbn [combine map fst snd]. rewrite sumQ_cons, IH.
    unfold Qdiv. change (inject_Z 0) with 0. ring.
Qed.

(** The day-0 scenario on a frame: days 0, 1, 2 with counts 5, 10, 10. *)
Example day_zero_scenario `{NP : Numpy} :
  exists r,
    calculate_all_germination_parameters 25 frame_day_zero = Returns [r] /\
    Speed_Maguire_Index r == 0 /\
    MT_Mean_Germination_Time r == 1.2 /\
    G_Germinability r == 100 /\
    T50_Time_50 r == 0.75.
Proof.
  eexists. split; [reflexivity|].
  repeat split; vm_compute; reflexivity.
Qed.

(** ** Time to a percentage of the germinated seeds *)

Lemma skipn_cons_nth {A : Type} (l : list A) (i : nat) (c : A)
  (rest : list A) (d : A) :
  skipn i l = c :: rest ->
  nth i l d = c /\ skipn (S i) l = rest /\ (i < List.length l)%nat.
Proof.
  revert l. induction i as [|i IH]; intros [|x l] H; simpl in H; try discriminate.
  - injection H as -> ->. simpl. repeat split. lia.
  - destruct (IH l H) as (H1 & H2 & H3). simpl. repeat split; auto. lia.
Qed.

Lemma last_is_nth {A : Type} (l : list A) (d : A) :
  last l d = nth (List.length l - 1) l d.
Proof.
  induction l as [|x l IH]; [reflexivity|].
  destruct l as [|y l]; [reflexivity|].
  change (last (x :: y :: l) d) with (last (y :: l) d). rewrite IH.
  simpl. rewrite Nat.sub_0_r. reflexivity.
Qed.

Lemma cumsum_from_length (a : list Z) (acc : Z) :
  List.length (Np.cumsum_from acc a) = List.length a.
Proof. revert acc. induction a; intros acc; simpl; auto. Qed.

Lemma sorted_nth (l : list Q) :
  Sorted Qle l ->
  forall a b, (a <= b < List.length l)%nat -> nth a l 0 <= nth b l 0.
Proof.
  intros Hs. apply Sorted_StronglySorted in Hs; [|exact Qle_trans].
  induction Hs as [|x l Hs IH Hall]; intros a b Hab; [simpl in Hab; lia|].
  destruct a as [|a], b as [|b]; simpl in *; try lia.
  - apply Qle_refl.
  - rewrite Forall_forall in Hall. apply Hall, nth_In. lia.
  - apply IH. lia.
Qed.

Section TimeToTarget.

Variables (days : list Q) (cumulative : list Z) (target : Q).

Lemma tx_loop_some (rest : list Z) :
  forall i r,
    skipn i cumulative = rest ->
    tx_loop days cumulative target i rest = Some r ->
    exists j,
      (i <= j < List.length cumulative)%nat /\
      target <= inject_Z (nth j cumulative 0%Z) /\
      (forall k, (i <= k < j)%nat -> inject_Z (nth k cumulative 0%Z) < target) /\
      r = tx_at days cumulative target j.
Proof.
  induction rest as [|c rest IH]; intros i r Hrest Hloop; [discriminate|].
  destruct (skipn_cons_nth _ _ _ _ 0%Z Hrest) as (Hc & Hsk & Hlt).
  cbn [tx_loop] in Hloop.
  destruct (Qle_bool target (inject_Z c)) eqn:E.
  - exists i. apply Qle_bool_iff in E. rewrite Hc.
    split; [lia|]. split; [exact E|]. split; [intros k Hk; lia|].
    unfold tx_at. destruct (Nat.eqb i 0); [congruence|].
    cbv zeta in Hloop.
    destruct (negb (Qeq_bool (inject_Z (nth i cumulative 0%Z))
                      (inject_Z (nth (i - 1) cumulative 0%Z)))); congruence.
  - destruct (IH (S i) r Hsk Hloop) as (j & Hj & Ht & Hbefore & Hr).
    exists j. split; [lia|]. split; [exact Ht|]. split; [|exact Hr].
    intros k Hk. destruct (Nat.eq_dec k i) as [->|Hne].
    + rewrite Hc.
      destruct (Qlt_le_dec (inject_Z c) target) as [H|H]; [exact H|].
      apply Qle_bool_iff in H. congruence.
    + apply Hbefore. lia.
Qed.

Lemma tx_loop_none (rest : list Z) :
  forall i,
    skipn i cumulative = rest ->
    tx_loop days cumulative target i rest = None ->
    forall k, (i <= k < List.length cumulative)%nat ->
              inject_Z (nth k cumulative 0%Z) < target.
Proof.
  induction rest as [|c rest IH]; intros i Hrest Hloop k Hk.
  - apply skipn_all_iff in Hrest. lia.
  - destruct (skipn_cons_nth _ _ _ _ 0%Z Hrest) as (Hc & Hsk & Hlt).
    cbn [tx_loop] in Hloop.
    destruct (Qle_bool target (inject_Z c)) eqn:E.
    + destruct (Nat.eqb i 0); [discriminate|]. cbv zeta in Hloop.
      destruct (negb (Qeq_bool (inject_Z (nth i cumulative 0%Z))
                        (inject_Z (nth (i - 1) cumulative 0%Z)))); discriminate.
    + destruct (Nat.eq_dec k i) as [->|Hne].
      * rewrite Hc.
        destruct (Qlt_le_dec (inject_Z c) target) as [H|H]; [exact H|].
        apply Qle_bool_iff in H. congruence.
      * apply (IH (S i) Hsk Hloop). lia.
Qed.

Hypothesis days_ascending : Sorted Qle days.
Hypothesis same_length : List.length days = List.length cumulative.

(** Where the loop stops, the returned day lies on the segment that ends at
    that index. *)
Lemma tx_at_segment (j : nat) :
  (j < List.length cumulative)%nat ->
  target <= inject_Z (nth j cumulative 0%Z) ->
  (forall k, (k < j)%nat -> inject_Z (nth k cumulative 0%Z) < target) ->
  nth (j - 1) days 0 <= tx_at days cumulative target j /\
  tx_at days cumulative target j <= nth j days 0.
Proof.
  intros Hj Ht Hbefore. unfold tx_at.
  destruct (Nat.eqb j 0) eqn:E0.
  - apply Nat.eqb_eq in E0. subst j. simpl. split; apply Qle_refl.
  - apply Nat.eqb_neq in E0.
    assert (Hy1 := Hbefore (j - 1)%nat ltac:(lia)).
    assert (Hx : nth (j - 1) days 0 <= nth j days 0)
      by (apply sorted_nth; [exact days_ascending | lia]).
    set (x1 := nth (j - 1) days 0) in *. set (x2 := nth j days 0) in *.
    set (y1 := inject_Z (nth (j - 1) cumulative 0%Z)) in *.
    set (y2 := inject_Z (nth j cumulative 0%Z)) in *.
    cbv zeta.
    destruct (Qeq_bool y2 y1) eqn:Eq; cbn [negb].
    + apply Qeq_bool_iff in Eq. lra.
    + assert (Hb : 0 < y2 - y1) by lra.
      assert (H0 : 0 <= (target - y1) * (x2 - x1) / (y2 - y1)).
      { apply Qle_shift_div_l; [exact Hb|].
        setoid_replace (0 * (y2 - y1)) with 0 by ring.
        apply Qmult_le_0_compat; lra. }
      assert (H1 : (target - y1) * (x2 - x1) / (y2 - y1) <= x2 - x1).
      { apply Qle_shift_div_r; [exact Hb|].
        assert (0 <= (y2 - target) * (x2 - x1))
          by (apply Qmult_le_0_compat; lra).
        lra. }
      lra.
Qed.

End TimeToTarget.

Lemma calculate_tx_result (days : list Q) (rep_data : list Z)
  (total_germinated : Z) (percentage : Q) :
  total_germinated <> 0%Z ->
  _calculate_tx days rep_data total_germinated percentage
  = tx_result days (Np.cumsum rep_data)
      (inject_Z total_germinated * percentage).
Proof.
  intros Hne. unfold _calculate_tx, tx_result.
  destruct (Z.eqb_spec total_germinated 0); [contradiction | reflexivity].
Qed.

Section Window.

Variables (days : list Q) (cumulative : list Z).
Hypothesis days_ascending : Sorted Qle days.
Hypothesis same_length : List.length days = List.length cumulative.
Hypothesis not_empty : cumulative <> [].

Lemma first_day_is_nth : hd 0 days = nth 0 days 0.
Proof. destruct days; reflexivity. Qed.

Lemma length_positive : (0 < List.length cumulative)%nat.
Proof. destruct cumulative; [contradiction | simpl; lia]. Qed.

Lemma tx_result_window (target : Q) :
  hd 0 days <= tx_result days cumulative target /\
  tx_result days cumulative target <= last days 0.
Proof.
  pose proof length_positive as Hlen.
  unfold tx_result. rewrite first_day_is_nth, !last_is_nth.
  destruct (tx_loop days cumulative target 0 cumulative) as [r|] eqn:E.
  - destruct (tx_loop_some days cumulative target cumulative 0 r eq_refl E)
      as (j & Hj & Ht & Hbefore & ->).
    destruct (tx_at_segment days cumulative target days_ascending same_length
                j ltac:(lia) Ht) as [Hlo Hhi].
    { intros k Hk. apply Hbefore. lia. }
    split.
    + apply Qle_trans with (nth (j - 1) days 0); [|exact Hlo].
      apply sorted_nth; [exact days_ascending | lia].
    + apply Qle_trans with (nth j days 0); [exact Hhi|].
      apply sorted_nth; [exact days_ascending | lia].
  - split; [|apply Qle_refl].
    apply sorted_nth; [exact days_ascending | lia].
Qed.

Lemma tx_result_monotone (t1 t2 : Q) :
  t1 <= t2 ->
  tx_result days cumulative t1 <= tx_result days cumulative t2.
Proof.
  intros Ht. pose proof length_positive as Hlen.
  destruct (tx_result_window t1) as [_ Hup1].
  unfold tx_result in *.
  destruct (tx_loop days cumulative t2 0 cumulative) as [r2|] eqn:E2.
  - destruct (tx_loop_some days cumulative t2 cumulative 0 r2 eq_refl E2)
      as (j2 & Hj2 & Ht2 & Hbefore2 & ->).
    destruct (tx_loop days cumulative t1 0 cumulative) as [r1|] eqn:E1.
    + destruct (tx_loop_some days cumulative t1 cumulative 0 r1 eq_refl E1)
        as (j1 & Hj1 & Ht1 & Hbefore1 & ->).
      assert (Hle : (j1 <= j2)%nat).
      { destruct (Nat.le_gt_cases j1 j2) as [H|H]; [exact H|].
        specialize (Hbefore1 j2 ltac:(lia)). lra. }
      destruct (tx_at_segment days cumulative t1 days_ascending same_length
                  j1 ltac:(lia) Ht1) as [Hlo1 Hhi1].
      { intros k Hk. apply Hbefore1. lia. }
      destruct (tx_at_segment days cumulative t2 days_ascending same_length
                  j2 ltac:(lia) Ht2) as [Hlo2 Hhi2].
      { intros k Hk. apply Hbefore2. lia. }
      destruct (Nat.eq_dec j1 j2) as [->|Hne].
      * unfold tx_at. destruct (Nat.eqb j2 0) eqn:E0; [apply Qle_refl|].
        apply Nat.eqb_neq in E0.
        assert (Hy1 := Hbefore1 (j2 - 1)%nat ltac:(lia)).
        assert (Hx : nth (j2 - 1) days 0 <= nth j2 days 0)
          by (apply sorted_nth; [exact days_ascending | lia]).
        set (x1 := nth (j2 - 1) days 0) in *. set (x2 := nth j2 days 0) in *.
        set (y1 := inject_Z (nth (j2 - 1) cumulative 0%Z)) in *.
        set (y2 := inject_Z (nth j2 cumulative 0%Z)) in *.
        cbv zeta.
        destruct (Qeq_bool y2 y1) eqn:Eq; cbn [negb]; [apply Qle_refl|].
        assert (Hb : 0 < y2 - y1) by lra.
        assert (Hi : 0 <= / (y2 - y1))
          by (apply Qlt_le_weak, Qinv_lt_0_compat; exact Hb).
        assert (Hm : (t1 - y1) * (x2 - x1) <= (t2 - y1) * (x2 - x1))
          by (apply Qmult_le_compat_r; lra).
        unfold Qdiv.
        pose proof (Qmult_le_compat_r _ _ _ Hm Hi). lra.
      * apply Qle_trans with (nth j1 days 0); [exact Hhi1|].
        apply Qle_trans with (nth (j2 - 1) days 0); [|exact Hlo2].
        apply sorted_nth; [exact days_ascending | lia].
    + pose proof (tx_loop_none days cumulative t1 cumulative 0 eq_refl E1
                    j2 ltac:(lia)). lra.
  - exact Hup1.
Qed.

End Window.

Lemma positive_sum_not_empty (rep_data : list Z) :
  (0 < Np.sum rep_data)%Z -> Np.cumsum rep_data <> [].
Proof. destruct rep_data; simpl; [lia | discriminate]. Qed.

Lemma sorted_whole_days (days : list Z) :
  Sorted Z.le days -> Sorted Qle (map inject_Z days).
Proof.
  induction 1 as [|d days Hs IH Hhd]; [constructor|].
  cbn [map]. constructor; [exact IH|].
  destruct Hhd as [|d' days' Hle]; constructor.
  rewrite <- Zle_Qle. exact Hle.
Qed.

Lemma hd_whole_days (days : list Z) :
  hd 0 (map inject_Z days) = inject_Z (hd 0%Z days).
Proof. destruct days; reflexivity. Qed.

Lemma last_whole_days (days : list Z) :
  last (map inject_Z days) 0 = inject_Z (last days 0%Z).
Proof.
  induction days as [|d [|d' days] IH]; try reflexivity.
  change (last (inject_Z d' :: map inject_Z days) 0
          = inject_Z (last (d' :: days) 0%Z)).
  exact IH.
Qed.

Lemma tx_window_whole_days (days rep_data : list Z) (percentage : Q) :
  Sorted Z.le days ->
  List.length days = List.length rep_data ->
  (0 < Np.sum rep_data)%Z ->
  inject_Z (hd 0%Z days)
  <= _calculate_tx (map inject_Z days) rep_data (Np.sum rep_data) percentage /\
  _calculate_tx (map inject_Z days) rep_data (Np.sum rep_data) percentage
  <= inject_Z (last days 0%Z).
Proof.
  intros Hs Hlen Htot.
  rewrite calculate_tx_result by lia.
  rewrite <- hd_whole_days, <- last_whole_days.
  apply tx_result_window.
  - apply sorted_whole_days. exact Hs.
  - unfold Np.cumsum. rewrite cumsum_from_length, length_map. exact Hlen.
  - apply positive_sum_not_empty. exact Htot.
Qed.

Lemma replicate_stats_t50 `{NP : Numpy} (days : list Q) (total_seeds : Z)
  (rep_data : list Z) :
  (0 < Np.sum rep_data)%Z ->
  t50 (replicate_stats days total_seeds rep_data)
  = _calculate_tx days rep_data (Np.sum rep_data) (1 # 2).
Proof.
  intros HT. apply Z.ltb_lt in HT. unfold replicate_stats. rewrite HT.
  reflexivity.
Qed.

(** C10.  For ascending whole-number days and a positive total, the day
    returned by [_calculate_tx] lies in the observation window, for every
    percentage: it is at least the first day and at most the last day.  So
    does the T50 field of the row, rounding included. *)
Theorem time_to_percentage_within_window `{NP : Numpy}
  (days rep_data : list Z) (percentage : Q) (total_seeds : Z) (i : nat) :
  Sorted Z.le days ->
  List.length days = List.length rep_data ->
  (0 < Np.sum rep_data)%Z ->
  let tx := _calculate_tx (map inject_Z days) rep_data (Np.sum rep_data)
              percentage in
  let field := T50_Time_50 (replicate_record (map inject_Z days) total_seeds i
                              rep_data) in
  (inject_Z (hd 0%Z days) <= tx /\ tx <= inject_Z (last days 0%Z)) /\
  (inject_Z (hd 0%Z days) <= field /\ field <= inject_Z (last days 0%Z)).
Proof.
  intros Hs Hlen Htot tx field. split.
  - apply tx_window_whole_days; assumption.
  - unfold field. cbn [T50_Time_50 replicate_record].
    rewrite replicate_stats_t50 by exact Htot.
    destruct (tx_window_whole_days days rep_data (1 # 2) Hs Hlen Htot)
      as [Hlo Hhi].
    apply py_round_whole_bounds; assumption.
Qed.

Lemma time_to_percentage_within_window_witness :
  Sorted Z.le [1; 2; 3; 4; 5]%Z /\
  List.length [1; 2; 3; 4; 5]%Z = List.length [0; 5; 10; 5; 5]%Z /\
  (0 < Np.sum [0; 5; 10; 5; 5]%Z)%Z /\
  let tx := _calculate_tx (map inject_Z [1; 2; 3; 4; 5]%Z) [0; 5; 10; 5; 5]%Z
              (Np.sum [0; 5; 10; 5; 5]%Z) (9 # 10) in
  let field := T50_Time_50
                 (replicate_record (NP := sample_numpy)
                    (map inject_Z [1; 2; 3; 4; 5]%Z) 25 0 [0; 5; 10; 5; 5]%Z) in
  (inject_Z (hd 0%Z [1; 2; 3; 4; 5]%Z) <= tx /\
   tx <= inject_Z (last [1; 2; 3; 4; 5]%Z 0%Z)) /\
  (inject_Z (hd 0%Z [1; 2; 3; 4; 5]%Z) <= field /\
   field <= inject_Z (last [1; 2; 3; 4; 5]%Z 0%Z)).
Proof.
  assert (Hs : Sorted Z.le [1; 2; 3; 4; 5]%Z)
    by (repeat constructor; discriminate).
  split; [exact Hs|]. split; [reflexivity|]. split; [reflexivity|].
  apply (time_to_percentage_within_window (NP := sample_numpy)
           [1; 2; 3; 4; 5]%Z [0; 5; 10; 5; 5]%Z (9 # 10) 25 0);
    [exact Hs | reflexivity | reflexivity].
Defined.

(** C5.  For ascending whole-number days and a positive total,
    [_calculate_tx] is monotonic in the percentage: a larger percentage
    never gives an earlier day. *)
Theorem time_to_percentage_monotone (days rep_data : list Z) (p1 p2 : Q) :
  Sorted Z.le days ->
  List.length days = List.length rep_data ->
  (0 < Np.sum rep_data)%Z ->
  p1 <= p2 ->
  _calculate_tx (map inject_Z days) rep_data (Np.sum rep_data) p1
  <= _calculate_tx (map inject_Z days) rep_data (Np.sum rep_data) p2.
Proof.
  intros Hs Hlen Htot Hp.
  rewrite !calculate_tx_result by lia.
  apply tx_result_monotone.
  - apply sorted_whole_days. exact Hs.
  - unfold Np.cumsum. rewrite cumsum_from_length, length_map. exact Hlen.
  - apply positive_sum_not_empty. exact Htot.
  - apply Qmult_le_l; [apply inject_Z_pos; exact Htot | exact Hp].
Qed.

Lemma time_to_percentage_monotone_witness :
  Sorted Z.le [1; 2; 3; 4; 5]%Z /\
  List.length [1; 2; 3; 4; 5]%Z = List.length [0; 5; 10; 5; 5]%Z /\
  (0 < Np.sum [0; 5; 10; 5; 5]%Z)%Z /\
  0.3 <= 0.7 /\
  _calculate_tx (map inject_Z [1; 2; 3; 4; 5]%Z) [0; 5; 10; 5; 5]%Z
    (Np.sum [0; 5; 10; 5; 5]%Z) 0.3
  <= _calculate_tx (map inject_Z [1; 2; 3; 4; 5]%Z) [0; 5; 10; 5; 5]%Z
       (Np.sum [0; 5; 10; 5; 5]%Z) 0.7.
Proof.
  assert (Hs : Sorted Z.le [1; 2; 3; 4; 5]%Z)
    by (repeat constructor; discriminate).
  split; [exact Hs|]. split; [reflexivity|]. split; [reflexivity|].
  split; [discriminate|].
  apply (time_to_percentage_monotone
           [1; 2; 3; 4; 5]%Z [0; 5; 10; 5; 5]%Z 0.3 0.7);
    [exact Hs | reflexivity | reflexivity | discriminate].
Defined.

(** The percentages of the specification's example, 30% and 70%, on the
    round-trip series. *)
Example percentages_30_and_70 :
  _calculate_tx (map inject_Z [1; 2; 3; 4; 5]%Z) [0; 5; 10; 5; 5]%Z 25 0.3 == 2.25 /\
  _calculate_tx (map inject_Z [1; 2; 3; 4; 5]%Z) [0; 5; 10; 5; 5]%Z 25 0.7 == 3.5.
Proof. split; vm_compute; reflexivity. Qed.

(** ** The arcsine transform *)

(** The arcsine field is NaN as soon as numpy's square root of
    germinability / 100 exceeds 1. *)
Lemma arcsine_field_nan `{NP : Numpy} (days : list Q) (total_seeds : Z)
  (i : nat) (rep_data : list Z) :
  0 < germinability (replicate_stats days total_seeds rep_data) ->
  1 < np_sqrt (germinability (replicate_stats days total_seeds rep_data) / 100) ->
  ArcSin_Transformation (replicate_record days total_seeds i rep_data) = NaN.
Proof.
  intros Hg Hs. unfold replicate_record. cbn [ArcSin_Transformation].
  set (g := germinability (replicate_stats days total_seeds rep_data)) in *.
  apply Qltb_lt in Hg. rewrite Hg. unfold Np.sqrt.
  destruct (Qltb (g / 100) 0); [reflexivity|].
  cbn [Np.arcsin].
  destruct (Qle_bool (Qabs (np_sqrt (g / 100))) 1) eqn:E; [|reflexivity].
  apply Qle_bool_iff in E. pose proof (Qle_Qabs (np_sqrt (g / 100))). lra.
Qed.

(** C7 fails on the code.  With 30 seeds counted on day 1 and 25 seeds sown,
    germinability is 120 and the arcsine transform is the arcsine of the
    square root of 1.2: the ArcSin_Transformation field of the returned row
    is NaN, for any numpy whose square root of 1.2 is above 1. *)
Theorem arcsine_nan_when_more_germinated_than_sown `{NP : Numpy} :
  (forall x, x == 6 # 5 -> 1 < np_sqrt x) ->
  exists r,
    calculate_all_germination_parameters 25 frame_more_than_sown
    = Returns [r] /\
    Germinated_Seeds r = 30%Z /\
    G_Germinability r == 120 /\
    ArcSin_Transformation r = NaN.
Proof.
  intros Hsqrt. eexists. split; [reflexivity|].
  split; [reflexivity|]. split; [vm_compute; reflexivity|].
  apply arcsine_field_nan.
  - vm_compute. reflexivity.
  - apply Hsqrt. vm_compute. reflexivity.
Qed.

Lemma sample_sqrt_above_one (x : Q) : x == 6 # 5 -> 1 < sample_sqrt x.
Proof.
  intros Hx. unfold sample_sqrt.
  assert (E : x * inject_Z (10 ^ 18) == (6 # 5) * inject_Z (10 ^ 18))
    by (rewrite Hx; reflexivity).
  rewrite (Qfloor_comp _ _ E). vm_compute. reflexivity.
Qed.

Lemma arcsine_nan_when_more_germinated_than_sown_witness :
  (forall x, x == 6 # 5 -> 1 < np_sqrt (Numpy := sample_numpy) x) /\
  exists r,
    calculate_all_germination_parameters (NP := sample_numpy) 25
      frame_more_than_sown
    = Returns [r] /\
    Germinated_Seeds r = 30%Z /\
    G_Germinability r == 120 /\
    ArcSin_Transformation r = NaN.
Proof.
  split; [exact sample_sqrt_above_one|].
  apply (arcsine_nan_when_more_germinated_than_sown (NP := sample_numpy)).
  exact sample_sqrt_above_one.
Defined.

(** ** The speed index and the statistics beside it *)

Lemma replicate_stats_positive `{NP : Numpy} (days : list Q)
  (total_seeds : Z) (rep_data : list Z) :
  (0 < Np.sum rep_data)%Z ->
  mgt (replicate_stats days total_seeds rep_data)
  = Np.sumQ (Np.zip_with (fun d c => d * inject_Z c) days rep_data)
    / inject_Z (Np.sum rep_data) /\
  variance (replicate_stats days total_seeds rep_data)
  = (if (1 <? Np.sum rep_data)%Z
     then Np.sumQ (Np.zip_with
                     (fun c d =>
                        inject_Z c
                        * (d - mgt (replicate_stats days total_seeds rep_data)) ^ 2)
                     rep_data days)
          / inject_Z (Np.sum rep_data - 1)
     else 0).
Proof.
  intros HT. apply Z.ltb_lt in HT. unfold replicate_stats. rewrite HT.
  cbn [mgt variance]. auto.
Qed.

Lemma replicate_stats_rate `{NP : Numpy} (days : list Q)
  (total_seeds : Z) (rep_data : list Z) :
  (0 < Np.sum rep_data)%Z ->
  mgr (replicate_stats days total_seeds rep_data)
  = if Qltb 0 (mgt (replicate_stats days total_seeds rep_data))
    then 1 / mgt (replicate_stats days total_seeds rep_data) else 0.
Proof.
  intros HT. apply Z.ltb_lt in HT. unfold replicate_stats. rewrite HT.
  reflexivity.
Qed.

Section Series.

Variable series : list (Z * Z).

Let days : list Z := map fst series.
Let rep_data : list Z := map snd series.

Lemma series_total : Np.sum rep_data = sum_counts series.
Proof.
  subst rep_data. induction series as [|[d c] l IH]; [reflexivity|].
  cbn [map snd sum_counts]. rewrite sum_cons, IH. reflexivity.
Qed.

Lemma series_weighted_days :
  Np.sumQ (Np.zip_with (fun d c => d * inject_Z c) (map inject_Z days) rep_data)
  == inject_Z (sum_day_times_count series).
Proof.
  subst days rep_data. unfold Np.zip_with.
  induction series as [|[d c] l IH]; [reflexivity|].
  cbn [map fst snd combine sum_day_times_count]. rewrite sumQ_cons, IH.
  rewrite inject_Z_plus, inject_Z_mult. reflexivity.
Qed.

Lemma series_counts_over_days :
  Np.sumQ (Np.zip_with (fun c d => inject_Z c / d) rep_data (map inject_Z days))
  == sum_count_over_day series.
Proof.
  subst days rep_data. unfold Np.zip_with.
  induction series as [|[d c] l IH]; [reflexivity|].
  cbn [map fst snd combine sum_count_over_day]. rewrite sumQ_cons, IH.
  reflexivity.
Qed.

Lemma series_squared_deviations (m m' : Q) :
  m == m' ->
  Np.sumQ (Np.zip_with (fun c d => inject_Z c * (d - m) ^ 2) rep_data
             (map inject_Z days))
  == sum_squared_deviations m' series.
Proof.
  intros Hm. subst days rep_data. unfold Np.zip_with.
  induction series as [|[d c] l IH]; [reflexivity|].
  cbn [map fst snd combine sum_squared_deviations]. rewrite sumQ_cons, IH.
  rewrite Hm. ring.
Qed.

End Series.

Lemma series_mean `{NP : Numpy} (series : list (Z * Z)) (total_seeds : Z) :
  (0 < sum_counts series)%Z ->
  mgt (replicate_stats (map inject_Z (map fst series)) total_seeds
         (map snd series))
  == mean_day series.
Proof.
  intros HT. rewrite <- series_total in HT.
  destruct (replicate_stats_positive (map inject_Z (map fst series))
              total_seeds (map snd series) HT) as [-> _].
  unfold mean_day. rewrite series_weighted_days, series_total. reflexivity.
Qed.

Lemma series_variance `{NP : Numpy} (series : list (Z * Z)) (total_seeds : Z) :
  (0 < sum_counts series)%Z ->
  variance (replicate_stats (map inject_Z (map fst series)) total_seeds
              (map snd series))
  == variance_of_days series.
Proof.
  intros HT. pose proof (series_mean series total_seeds HT) as Hm.
  rewrite <- series_total in HT.
  destruct (replicate_stats_positive (map inject_Z (map fst series))
              total_seeds (map snd series) HT) as [_ ->].
  unfold variance_of_days. rewrite series_total.
  destruct (1 <? sum_counts series)%Z; [|reflexivity].
  rewrite (series_squared_deviations series _ _ Hm). reflexivity.
Qed.

Lemma series_speed `{NP : Numpy} (series : list (Z * Z)) (total_seeds : Z) :
  Forall (fun p => (0 <= snd p)%Z) series ->
  Forall (fun d => (0 < d)%Z) (map fst series) ->
  speed_maguire (replicate_stats (map inject_Z (map fst series)) total_seeds
                   (map snd series))
  == sum_count_over_day series.
Proof.
  intros Hvalid Hpos.
  assert (Hv : Forall (fun c => (0 <= c)%Z) (map snd series)).
  { apply Forall_map. exact Hvalid. }
  assert (Hp : Np.all_positive (map inject_Z (map fst series)) = true).
  { apply all_positive_true, Forall_map.
    eapply Forall_impl; [|exact Hpos]. intros d Hd. cbv beta.
    apply inject_Z_pos. exact Hd. }
  rewrite <- series_counts_over_days.
  unfold replicate_stats.
  destruct (0 <? Np.sum (map snd series))%Z eqn:E; cbn [speed_maguire].
  - rewrite Hp. reflexivity.
  - apply Z.ltb_ge in E. pose proof (sum_non_negative _ Hv).
    symmetry. apply zero_counts_speed, zero_sum_zero_counts; [exact Hv | lia].
Qed.

Lemma series_guard `{NP : Numpy} (series : list (Z * Z)) (total_seeds : Z) :
  Exists (fun d => (d <= 0)%Z) (map fst series) ->
  speed_maguire (replicate_stats (map inject_Z (map fst series)) total_seeds
                   (map snd series))
  == 0.
Proof.
  intros Hex.
  assert (Hf : Np.all_positive (map inject_Z (map fst series)) = false).
  { apply all_positive_false, Exists_exists.
    apply Exists_exists in Hex. destruct Hex as (d & Hin & Hd).
    exists (inject_Z d). split; [apply in_map; exact Hin|].
    change 0 with (inject_Z 0). rewrite <- Zle_Qle. exact Hd. }
  unfold replicate_stats.
  destruct (0 <? Np.sum (map snd series))%Z; cbn [speed_maguire];
    [rewrite Hf|]; reflexivity.
Qed.

Lemma day_free_fields `{NP : Numpy} (days days' : list Q) (total_seeds : Z)
  (i : nat) (rep_data : list Z) :
  let r := replicate_record days total_seeds i rep_data in
  let r' := replicate_record days' total_seeds i rep_data in
  Germinated_Seeds r' = Germinated_Seeds r /\
  G_Germinability r' = G_Germinability r /\
  U_Uncertainty_Index r' = U_Uncertainty_Index r /\
  Z_Synchrony_Index r' = Z_Synchrony_Index r /\
  ArcSin_Transformation r' = ArcSin_Transformation r.
Proof.
  cbv zeta. unfold replicate_record, replicate_stats.
  destruct (0 <? Np.sum rep_data)%Z; repeat split; reflexivity.
Qed.

(** C6, as the code has it.  For a series of (day, dailyCount) pairs with
    whole-number days and non-negative counts:
    - when every day is strictly positive, the Speed_Maguire_Index field is
      the sum of dailyCount / day to the two decimals reported (it differs
      from the sum by less than 0.01);
    - as soon as one day is <= 0 the field is 0, whatever the other days
      are;
    - whether or not the guard fires, once a seed has germinated
      Germinated_Seeds is the sum of the counts, and for days of at most
      10000 in absolute value the mean time is the sum of day * dailyCount
      over all rows, a day <= 0 included, divided by the total, to two
      decimals, the variance is the sample variance around that mean, to
      two decimals, and the rate is the inverse of that mean, to four
      decimals (0 when the mean is not positive); for ascending days T50
      lies in the observation window;
    - germinability, uncertainty, synchrony and the arcsine transform do
      not look at the days at all: they are the same for any other day
      column. *)
Theorem speed_index_all_or_nothing `{NP : Numpy} (series : list (Z * Z))
  (total_seeds : Z) (i : nat) :
  Forall (fun p => (0 <= snd p)%Z) series ->
  let days := map fst series in
  let rep_data := map snd series in
  let r := replicate_record (map inject_Z days) total_seeds i rep_data in
  (Forall (fun d => (0 < d)%Z) days ->
   Qabs (Speed_Maguire_Index r - sum_count_over_day series) < 1 # 100) /\
  (Exists (fun d => (d <= 0)%Z) days -> Speed_Maguire_Index r == 0) /\
  ((0 < sum_counts series)%Z ->
   Germinated_Seeds r = sum_counts series /\
   (Forall (fun d => (Z.abs d <= 10000)%Z) days ->
    Qabs (MT_Mean_Germination_Time r - mean_day series) < 1 # 100 /\
    Qabs (Variance_Germination_Time r - variance_of_days series) < 1 # 100 /\
    (0 < mean_day series ->
     Qabs (MR_Mean_Germination_Rate r - 1 / mean_day series) < 1 # 10000) /\
    (mean_day series <= 0 -> MR_Mean_Germination_Rate r == 0)) /\
   (Sorted Z.le days ->
    inject_Z (hd 0%Z days) <= T50_Time_50 r /\
    T50_Time_50 r <= inject_Z (last days 0%Z))) /\
  (forall other_days : list Q,
     let r' := replicate_record other_days total_seeds i rep_data in
     Germinated_Seeds r' = Germinated_Seeds r /\
     G_Germinability r' = G_Germinability r /\
     U_Uncertainty_Index r' = U_Uncertainty_Index r /\
     Z_Synchrony_Index r' = Z_Synchrony_Index r /\
     ArcSin_Transformation r' = ArcSin_Transformation r).
Proof.
  intros Hvalid days rep_data r. split; [|split; [|split]].
  - intros Hpos. apply py_round_2_close.
    apply series_speed; assumption.
  - intros Hex. apply py_round_zero. apply series_guard. exact Hex.
  - intros HT.
    assert (HT' : (0 < Np.sum rep_data)%Z)
      by (unfold rep_data; rewrite series_total; exact HT).
    assert (Hm : mgt (replicate_stats (map inject_Z days) total_seeds rep_data)
                 == mean_day series)
      by (apply series_mean; exact HT).
    split; [apply series_total|]. split.
    + intros _. split; [|split; [|split]].
      * apply py_round_2_close. exact Hm.
      * apply py_round_2_close. apply series_variance. exact HT.
      * intros Hpos. apply py_round_4_close.
        unfold r. cbn [replicate_record MR_Mean_Germination_Rate].
        rewrite (replicate_stats_rate _ total_seeds _ HT').
        assert (Hb : Qltb 0 (mgt (replicate_stats (map inject_Z days)
                                    total_seeds rep_data)) = true).
        { apply Qltb_lt. apply Qlt_le_trans with (1 := Hpos).
          rewrite Hm. apply Qle_refl. }
        rewrite Hb. apply Qmult_comp; [reflexivity|].
        apply Qinv_comp. exact Hm.
      * intros Hneg. apply py_round_zero.
        rewrite (replicate_stats_rate _ total_seeds _ HT').
        assert (Hb : Qltb 0 (mgt (replicate_stats (map inject_Z days)
                                    total_seeds rep_data)) = false).
        { apply Qltb_ge. rewrite Hm. exact Hneg. }
        rewrite Hb. reflexivity.
    + intros Hs.
      assert (Hlen : List.length days = List.length rep_data)
        by (unfold days, rep_data; rewrite !length_map; reflexivity).
      unfold r. cbn [T50_Time_50 replicate_record].
      rewrite replicate_stats_t50 by exact HT'.
      destruct (tx_window_whole_days days rep_data (1 # 2) Hs Hlen HT')
        as [Hlo Hhi].
      apply py_round_whole_bounds; assumption.
  - intros other_days.
    exact (day_free_fields (map inject_Z days) other_days total_seeds i rep_data).
Qed.

Lemma speed_index_all_or_nothing_witness :
  let r1 := replicate_record (NP := sample_numpy)
              (map inject_Z (map fst series_round_trip)) 25 0
              (map snd series_round_trip) in
  let r2 := replicate_record (NP := sample_numpy)
              (map inject_Z (map fst series_day_zero)) 25 0
              (map snd series_day_zero) in
  (Forall (fun p => (0 <= snd p)%Z) series_round_trip /\
   Forall (fun d => (0 < d)%Z) (map fst series_round_trip) /\
   sum_count_over_day series_round_trip == 97 # 12 /\
   Qabs (Speed_Maguire_Index r1 - sum_count_over_day series_round_trip)
   < 1 # 100) /\
  (Forall (fun p => (0 <= snd p)%Z) series_day_zero /\
   Exists (fun d => (d <= 0)%Z) (map fst series_day_zero) /\
   (0 < sum_counts series_day_zero)%Z /\
   Forall (fun d => (Z.abs d <= 10000)%Z) (map fst series_day_zero) /\
   Sorted Z.le (map fst series_day_zero) /\
   Speed_Maguire_Index r2 == 0 /\
   Germinated_Seeds r2 = 25%Z /\
   mean_day series_day_zero == 6 # 5 /\
   Qabs (MT_Mean_Germination_Time r2 - mean_day series_day_zero) < 1 # 100 /\
   variance_of_days series_day_zero == 7 # 12 /\
   Qabs (Variance_Germination_Time r2 - variance_of_days series_day_zero)
   < 1 # 100 /\
   Qabs (MR_Mean_Germination_Rate r2 - 1 / mean_day series_day_zero)
   < 1 # 10000 /\
   0 <= T50_Time_50 r2 /\ T50_Time_50 r2 <= 2).
Proof.
  assert (V1 : Forall (fun p => (0 <= snd p)%Z) series_round_trip)
    by (repeat constructor; discriminate).
  assert (P1 : Forall (fun d => (0 < d)%Z) (map fst series_round_trip))
    by (repeat constructor).
  assert (V2 : Forall (fun p => (0 <= snd p)%Z) series_day_zero)
    by (repeat constructor; discriminate).
  assert (E2 : Exists (fun d => (d <= 0)%Z) (map fst series_day_zero))
    by (constructor; discriminate).
  assert (B2 : Forall (fun d => (Z.abs d <= 10000)%Z) (map fst series_day_zero))
    by (repeat constructor; discriminate).
  assert (S2 : Sorted Z.le (map fst series_day_zero))
    by (repeat constructor; discriminate).
  intros r1 r2.
  destruct (speed_index_all_or_nothing (NP := sample_numpy)
              series_round_trip 25 0 V1) as (Hspeed & _).
  destruct (speed_index_all_or_nothing (NP := sample_numpy)
              series_day_zero 25 0 V2) as (_ & Hguard & Hstats & _).
  destruct (Hstats eq_refl) as (Hsum & Hmoments & Hwindow).
  destruct (Hmoments B2) as (Hmt & Hvar & Hmr & _).
  destruct (Hwindow S2) as (Hlo & Hhi).
  split.
  - split; [exact V1|]. split; [exact P1|]. split; [reflexivity|].
    exact (Hspeed P1).
  - split; [exact V2|]. split; [exact E2|]. split; [reflexivity|].
    split; [exact B2|]. split; [exact S2|].
    split; [exact (Hguard E2)|]. split; [exact Hsum|].
    split; [reflexivity|]. split; [exact Hmt|]. split; [reflexivity|].
    split; [exact Hvar|]. split; [apply Hmr; reflexivity|].
    split; [exact Hlo | exact Hhi].
Defined.

(** The round-trip series has positive days only: its speed index is
    0/1 + 5/2 + 10/3 + 5/4 + 5/5 = 97/12, reported as 8.08. *)
Example positive_days_scenario `{NP : Numpy} :
  exists r,
    calculate_all_germination_parameters 25 frame_round_trip = Returns [r] /\
    Speed_Maguire_Index r == 8.08 /\
    speed_maguire (replicate_stats [1; 2; 3; 4; 5] 25 [0; 5; 10; 5; 5]%Z)
    == 97 # 12.
Proof.
  eexists. split; [reflexivity|]. split; vm_compute; reflexivity.
Qed.

(** C6, as stated, fails: one seed on day 3 has the sum of dailyCount / day
    equal to 1/3, and the speed index of its row is 0.33. *)
Lemma speed_field_is_not_the_exact_sum :
  exists r,
    calculate_all_germination_parameters (NP := sample_numpy) 25
      frame_third_day = Returns [r] /\
    sum_count_over_day [(3, 1)]%Z == 1 # 3 /\
    Speed_Maguire_Index r == 0.33 /\
    ~ Speed_Maguire_Index r == sum_count_over_day [(3, 1)]%Z.
Proof.
  eexists. split; [reflexivity|]. split; [reflexivity|].
  split; [vm_compute; reflexivity|]. vm_compute. discriminate.
Qed.

(** * Further properties of the engine *)

(** ** The binomial coefficient *)

Lemma factorial_succ (n : Z) :
  (0 <= n)%Z -> factorial (n + 1) = ((n + 1) * factorial n)%Z.
Proof.
  intros Hn. unfold factorial.
  replace (Z.to_nat (n + 1)) with (S (Z.to_nat n)) by lia.
  cbn [fact_upto]. rewrite Nat2Z.inj_succ, Z2Nat.id by lia. lia.
Qed.

Lemma factorial_nonzero (n : Z) : ~ inject_Z (factorial n) == 0.
Proof.
  apply inject_Z_nonzero. pose proof (fact_upto_pos (Z.to_nat n)).
  unfold factorial. lia.
Qed.

Lemma combination_in_range (n r : Z) :
  (0 <= r <= n)%Z ->
  _combination n r
  = inject_Z (factorial n) / inject_Z (factorial r * factorial (n - r)).
Proof.
  intros H. unfold _combination.
  replace ((n <? r)%Z || (n <? 0)%Z || (r <? 0)%Z) with false
    by (symmetry; rewrite !orb_false_iff, !Z.ltb_ge; lia).
  reflexivity.
Qed.

(** X1.  [_combination] obeys Pascal's rule on the rows of its triangle
    that float64 holds exactly, those up to 56: for 0 <= r <= n < 56,
    C(n+1, r+1) = C(n, r) + C(n, r+1), the last term being the guarded 0
    when r = n. *)
Theorem combination_pascal (n r : Z) :
  (0 <= r <= n)%Z -> (n < 56)%Z ->
  _combination (n + 1) (r + 1) == _combination n r + _combination n (r + 1).
Proof.
  intros H _.
  pose proof (factorial_nonzero r) as Hr.
  pose proof (factorial_nonzero (n - r)) as Hnr.
  rewrite (combination_in_range (n + 1) (r + 1)) by lia.
  rewrite (combination_in_range n r) by lia.
  replace (n + 1 - (r + 1))%Z with (n - r)%Z by lia.
  rewrite (factorial_succ n), (factorial_succ r) by lia.
  assert (Hr1 : ~ inject_Z (r + 1) == 0) by (apply inject_Z_nonzero; lia).
  destruct (Z.eq_dec r n) as [->|Hne].
  - unfold _combination.
    replace (n <? n + 1)%Z with true by (symmetry; apply Z.ltb_lt; lia).
    cbn [orb]. rewrite !inject_Z_mult. field. auto.
  - pose proof (factorial_nonzero (n - (r + 1))) as Hnr1.
    rewrite (combination_in_range n (r + 1)) by lia.
    replace (n - r)%Z with (n - (r + 1) + 1)%Z in * by lia.
    rewrite (factorial_succ (n - (r + 1))) in * by lia.
    rewrite (factorial_succ r) by lia.
    assert (Hd : ~ inject_Z (n - (r + 1) + 1) == 0)
      by (apply inject_Z_nonzero; lia).
    rewrite !inject_Z_mult, !inject_Z_plus. rewrite inject_Z_plus in Hr1, Hd.
    change (inject_Z 1) with 1 in *.
    replace (inject_Z (n - (r + 1))) with (inject_Z n - (inject_Z r + 1)) in *.
    + field. repeat split; auto.
    + unfold Z.sub. rewrite inject_Z_plus, inject_Z_opp, inject_Z_plus.
      reflexivity.
Qed.

Lemma combination_pascal_witness :
  (0 <= 2 <= 5)%Z /\ (5 < 56)%Z /\
  _combination (5 + 1) (2 + 1) == _combination 5 2 + _combination 5 (2 + 1).
Proof.
  split; [lia|]. split; [lia|]. apply (combination_pascal 5 2); lia.
Defined.

(** X2.  [_combination] is symmetric, C(n, r) = C(n, n - r), and its border
    is 1: C(n, 0) = C(n, n) = 1, for 0 <= r <= n. *)
Theorem combination_symmetric (n r : Z) :
  (0 <= r <= n)%Z ->
  _combination n r == _combination n (n - r) /\
  _combination n 0 == 1 /\ _combination n n == 1.
Proof.
  intros H.
  pose proof (factorial_nonzero n) as Hn.
  pose proof (factorial_nonzero r) as Hr.
  pose proof (factorial_nonzero (n - r)) as Hnr.
  rewrite (combination_in_range n r), (combination_in_range n (n - r)),
    (combination_in_range n 0), (combination_in_range n n) by lia.
  replace (n - (n - r))%Z with r by lia.
  replace (n - 0)%Z with n by lia. replace (n - n)%Z with 0%Z by lia.
  change (factorial 0) with 1%Z.
  rewrite !inject_Z_mult. change (inject_Z 1) with 1.
  repeat split; field; auto.
Qed.

Lemma combination_symmetric_witness :
  (0 <= 2 <= 5)%Z /\
  _combination 5 2 == _combination 5 (5 - 2) /\
  _combination 5 0 == 1 /\ _combination 5 5 == 1.
Proof.
  split; [lia|]. apply (combination_symmetric 5 2). lia.
Defined.

(** ** Mean germination time, rate and variance *)

(** The weighted sum of days lies between the total times the two bounds of
    the days. *)
Lemma weighted_days_between (lo hi : Q) (days : list Q) :
  Forall (fun d => lo <= d /\ d <= hi) days ->
  forall rep_data,
    List.length days = List.length rep_data ->
    Forall (fun c => (0 <= c)%Z) rep_data ->
    lo * inject_Z (Np.sum rep_data)
    <= Np.sumQ (Np.zip_with (fun d c => d * inject_Z c) days rep_data) /\
    Np.sumQ (Np.zip_with (fun d c => d * inject_Z c) days rep_data)
    <= hi * inject_Z (Np.sum rep_data).
Proof.
  induction 1 as [|d days [Hlo Hhi] Hd IH]; intros [|c rep_data] Hlen Hvalid;
    try discriminate.
  - simpl. change (inject_Z 0) with 0. split; lra.
  - inversion Hvalid as [|? ? Hc Hrest]; subst.
    destruct (IH rep_data ltac:(simpl in Hlen; lia) Hrest) as [IH1 IH2].
    unfold Np.zip_with in *. cbn [combine map fst snd].
    rewrite sumQ_cons, sum_cons, inject_Z_plus.
    assert (Hc0 : 0 <= inject_Z c)
      by (change 0 with (inject_Z 0); rewrite <- Zle_Qle; exact Hc).
    assert (0 <= (d - lo) * inject_Z c) by (apply Qmult_le_0_compat; lra).
    assert (0 <= (hi - d) * inject_Z c) by (apply Qmult_le_0_compat; lra).
    split; lra.
Qed.

Lemma whole_days_between (lo hi : Z) (days : list Z) :
  Forall (fun d => (lo <= d <= hi)%Z) days ->
  Forall (fun d => inject_Z lo <= d /\ d <= inject_Z hi) (map inject_Z days).
Proof.
  intros H. apply Forall_map. eapply Forall_impl; [|exact H].
  intros d [H1 H2]. cbv beta. rewrite <- !Zle_Qle. split; assumption.
Qed.

Lemma mean_time_whole_days `{NP : Numpy} (days : list Z) (total_seeds : Z)
  (rep_data : list Z) (lo hi : Z) :
  List.length days = List.length rep_data ->
  Forall (fun c => (0 <= c)%Z) rep_data ->
  (0 < Np.sum rep_data)%Z ->
  Forall (fun d => (lo <= d <= hi)%Z) days ->
  inject_Z lo <= mgt (replicate_stats (map inject_Z days) total_seeds rep_data) /\
  mgt (replicate_stats (map inject_Z days) total_seeds rep_data) <= inject_Z hi.
Proof.
  intros Hlen Hvalid HT Hb.
  destruct (replicate_stats_positive (map inject_Z days) total_seeds rep_data HT)
    as [-> _].
  assert (Hlen' : List.length (map inject_Z days) = List.length rep_data)
    by (rewrite length_map; exact Hlen).
  destruct (weighted_days_between _ _ _ (whole_days_between lo hi days Hb)
              rep_data Hlen' Hvalid) as [H1 H2].
  pose proof (inject_Z_pos _ HT) as Hpos.
  split.
  - apply Qle_shift_div_l; [exact Hpos | exact H1].
  - apply Qle_shift_div_r; [exact Hpos | exact H2].
Qed.

(** X3.  For whole-number days and non-negative counts with at least one
    germinated seed, the mean germination time is a weighted mean of the
    days: it lies between any lower and upper bound of the days, and so
    does the MT_Mean_Germination_Time field. *)
Theorem mgt_between_days `{NP : Numpy} (days : list Z) (total_seeds : Z)
  (i : nat) (rep_data : list Z) (lo hi : Z) :
  List.length days = List.length rep_data ->
  Forall (fun c => (0 <= c)%Z) rep_data ->
  (0 < Np.sum rep_data)%Z ->
  Forall (fun d => (lo <= d <= hi)%Z) days ->
  let m := mgt (replicate_stats (map inject_Z days) total_seeds rep_data) in
  let field := MT_Mean_Germination_Time
                 (replicate_record (map inject_Z days) total_seeds i rep_data) in
  (inject_Z lo <= m /\ m <= inject_Z hi) /\
  (inject_Z lo <= field /\ field <= inject_Z hi).
Proof.
  intros Hlen Hvalid HT Hb m field.
  destruct (mean_time_whole_days days total_seeds rep_data lo hi
              Hlen Hvalid HT Hb) as [H1 H2].
  split; [split; assumption|].
  unfold field. cbn [MT_Mean_Germination_Time replicate_record].
  apply py_round_whole_bounds; assumption.
Qed.

Lemma mgt_between_days_witness :
  List.length [1; 2; 3; 4; 5]%Z = List.length [0; 5; 10; 5; 5]%Z /\
  Forall (fun c => (0 <= c)%Z) [0; 5; 10; 5; 5]%Z /\
  (0 < Np.sum [0; 5; 10; 5; 5]%Z)%Z /\
  Forall (fun d => (1 <= d <= 5)%Z) [1; 2; 3; 4; 5]%Z /\
  let m := mgt (replicate_stats (NP := sample_numpy)
                  (map inject_Z [1; 2; 3; 4; 5]%Z) 25 [0; 5; 10; 5; 5]%Z) in
  let field := MT_Mean_Germination_Time
                 (replicate_record (NP := sample_numpy)
                    (map inject_Z [1; 2; 3; 4; 5]%Z) 25 0 [0; 5; 10; 5; 5]%Z) in
  (inject_Z 1 <= m /\ m <= inject_Z 5) /\
  (inject_Z 1 <= field /\ field <= inject_Z 5).
Proof.
  assert (Hv : Forall (fun c => (0 <= c)%Z) [0; 5; 10; 5; 5]%Z)
    by (repeat constructor; discriminate).
  assert (Hb : Forall (fun d => (1 <= d <= 5)%Z) [1; 2; 3; 4; 5]%Z)
    by (repeat constructor; lia).
  split; [reflexivity|]. split; [exact Hv|]. split; [reflexivity|].
  split; [exact Hb|].
  apply (mgt_between_days (NP := sample_numpy)
           [1; 2; 3; 4; 5]%Z 25 0 [0; 5; 10; 5; 5]%Z 1 5);
    [reflexivity | exact Hv | reflexivity | exact Hb].
Defined.

(** X4.  When every day is at least 1, the counts are non-negative and a
    seed germinated, the mean germination time is at least 1, so the rate
    guard never fires: the rate is strictly positive and at most 1, and the
    MR_Mean_Germination_Rate field lies in [0, 1]. *)
Theorem rate_in_unit_interval `{NP : Numpy} (days : list Z)
  (total_seeds : Z) (i : nat) (rep_data : list Z) :
  List.length days = List.length rep_data ->
  Forall (fun c => (0 <= c)%Z) rep_data ->
  (0 < Np.sum rep_data)%Z ->
  Forall (fun d => (1 <= d)%Z) days ->
  let s := replicate_stats (map inject_Z days) total_seeds rep_data in
  let field := MR_Mean_Germination_Rate
                 (replicate_record (map inject_Z days) total_seeds i rep_data) in
  1 <= mgt s /\
  (0 < mgr s /\ mgr s <= 1) /\
  (0 <= field /\ field <= 1).
Proof.
  intros Hlen Hvalid HT Hb s field.
  assert (Hhi : exists hi, Forall (fun d => (1 <= d <= hi)%Z) days).
  { clear Hlen. induction Hb as [|d days Hd _ [hi IH]].
    - exists 1%Z. constructor.
    - exists (Z.max d hi). constructor; [lia|].
      eapply Forall_impl; [|exact IH]. intros x Hx. cbv beta in *. lia. }
  destruct Hhi as [hi Hhi].
  destruct (mean_time_whole_days days total_seeds rep_data 1 hi
              Hlen Hvalid HT Hhi) as [H1 _].
  change (inject_Z 1) with 1 in H1. fold s in H1.
  assert (Hr : 0 < mgr s /\ mgr s <= 1).
  { unfold s. rewrite (replicate_stats_rate _ total_seeds rep_data HT).
    fold s. set (m := mgt s) in *.
    assert (Hm : 0 < m) by lra.
    pose proof Hm as Hm'. apply Qltb_lt in Hm'. rewrite Hm'.
    split.
    - apply Qlt_shift_div_l; [exact Hm | lra].
    - apply Qle_shift_div_r; [exact Hm | lra]. }
  split; [exact H1|]. split; [exact Hr|].
  unfold field. cbn [MR_Mean_Germination_Rate replicate_record]. fold s.
  apply py_round_unit_interval. destruct Hr. split; lra.
Qed.

Lemma rate_in_unit_interval_witness :
  List.length [1; 2; 3; 4; 5]%Z = List.length [0; 5; 10; 5; 5]%Z /\
  Forall (fun c => (0 <= c)%Z) [0; 5; 10; 5; 5]%Z /\
  (0 < Np.sum [0; 5; 10; 5; 5]%Z)%Z /\
  Forall (fun d => (1 <= d)%Z) [1; 2; 3; 4; 5]%Z /\
  let s := replicate_stats (NP := sample_numpy)
             (map inject_Z [1; 2; 3; 4; 5]%Z) 25 [0; 5; 10; 5; 5]%Z in
  let field := MR_Mean_Germination_Rate
                 (replicate_record (NP := sample_numpy)
                    (map inject_Z [1; 2; 3; 4; 5]%Z) 25 0 [0; 5; 10; 5; 5]%Z) in
  1 <= mgt s /\
  (0 < mgr s /\ mgr s <= 1) /\
  (0 <= field /\ field <= 1).
Proof.
  assert (Hv : Forall (fun c => (0 <= c)%Z) [0; 5; 10; 5; 5]%Z)
    by (repeat constructor; discriminate).
  assert (Hb : Forall (fun d => (1 <= d)%Z) [1; 2; 3; 4; 5]%Z)
    by (repeat constructor; lia).
  split; [reflexivity|]. split; [exact Hv|]. split; [reflexivity|].
  split; [exact Hb|].
  apply (rate_in_unit_interval (NP := sample_numpy)
           [1; 2; 3; 4; 5]%Z 25 0 [0; 5; 10; 5; 5]%Z);
    [reflexivity | exact Hv | reflexivity | exact Hb].
Defined.





(** ** Where the time-to-percentage loop stops *)

Lemma nth_cumsum_from (a : list Z) :
  forall acc k, (k < List.length a)%nat ->
    nth k (Np.cumsum_from acc a) 0%Z = (acc + Np.sum (firstn (S k) a))%Z.
Proof.
  induction a as [|x a IH]; intros acc k Hk; [simpl in Hk; lia|].
  destruct k as [|k].
  - simpl. destruct a; simpl; lia.
  - cbn [Np.cumsum_from nth]. rewrite IH by (simpl in Hk; lia).
    change (firstn (S (S k)) (x :: a)) with (x :: firstn (S k) a).
    rewrite sum_cons. lia.
Qed.

Lemma nth_cumsum (a : list Z) (k : nat) :
  (k < List.length a)%nat ->
  nth k (Np.cumsum a) 0%Z = Np.sum (firstn (S k) a).
Proof. intros Hk. unfold Np.cumsum. rewrite nth_cumsum_from by exact Hk. lia. Qed.

Lemma cumsum_length (a : list Z) :
  List.length (Np.cumsum a) = List.length a.
Proof. apply cumsum_from_length. Qed.

Lemma cumsum_last (a : list Z) :
  a <> [] -> nth (List.length a - 1) (Np.cumsum a) 0%Z = Np.sum a.
Proof.
  intros Hne. assert (0 < List.length a)%nat by (destruct a; simpl; [congruence|lia]).
  rewrite nth_cumsum by lia.
  replace (S (List.length a - 1)) with (List.length a) by lia.
  rewrite firstn_all. reflexivity.
Qed.

Lemma sum_firstn_skipn (a : list Z) (k : nat) :
  Np.sum a = (Np.sum (firstn k a) + Np.sum (skipn k a))%Z.
Proof. rewrite <- sum_app, firstn_skipn. reflexivity. Qed.

Lemma sum_firstn_succ (a : list Z) :
  forall k, (k < List.length a)%nat ->
    Np.sum (firstn (S k) a) = (Np.sum (firstn k a) + nth k a 0)%Z.
Proof.
  induction a as [|x a IH]; intros k Hk; [simpl in Hk; lia|].
  destruct k as [|k].
  - simpl. destruct a; simpl; lia.
  - change (firstn (S (S k)) (x :: a)) with (x :: firstn (S k) a).
    change (firstn (S k) (x :: a)) with (x :: firstn k a).
    rewrite !sum_cons, IH by (simpl in Hk; lia). simpl nth. lia.
Qed.

Lemma skipn_non_negative (a : list Z) (k : nat) :
  Forall (fun c => (0 <= c)%Z) a -> Forall (fun c => (0 <= c)%Z) (skipn k a).
Proof.
  intros H. rewrite Forall_forall in *. intros x Hx. apply H.
  rewrite <- (firstn_skipn k a). apply in_or_app. now right.
Qed.

Lemma firstn_non_negative (a : list Z) (k : nat) :
  Forall (fun c => (0 <= c)%Z) a -> Forall (fun c => (0 <= c)%Z) (firstn k a).
Proof.
  intros H. rewrite Forall_forall in *. intros x Hx. apply H.
  rewrite <- (firstn_skipn k a). apply in_or_app. now left.
Qed.

(** With a target that the total reaches, the loop returns from inside: at
    its stopping index the cumulative count before is below the target, so
    the result is the first day or the interpolation itself. *)
Lemma tx_stops_inside (days : list Q) (rep_data : list Z) (target : Q) :
  rep_data <> [] ->
  target <= inject_Z (Np.sum rep_data) ->
  exists j,
    (j < List.length rep_data)%nat /\
    target <= inject_Z (nth j (Np.cumsum rep_data) 0%Z) /\
    (forall k, (k < j)%nat ->
               inject_Z (nth k (Np.cumsum rep_data) 0%Z) < target) /\
    tx_result days (Np.cumsum rep_data) target
    = match j with
      | O => nth 0 days 0
      | S j' =>
          nth j' days 0
          + (target - inject_Z (nth j' (Np.cumsum rep_data) 0%Z))
            * (nth j days 0 - nth j' days 0)
            / (inject_Z (nth j (Np.cumsum rep_data) 0%Z)
               - inject_Z (nth j' (Np.cumsum rep_data) 0%Z))
      end.
Proof.
  intros Hne Ht. unfold tx_result.
  assert (Hlen : (0 < List.length rep_data)%nat)
    by (destruct rep_data; simpl; [congruence|lia]).
  destruct (tx_loop days (Np.cumsum rep_data) target 0 (Np.cumsum rep_data))
    as [r|] eqn:E.
  - destruct (tx_loop_some days (Np.cumsum rep_data) target _ 0 r eq_refl E)
      as (j & Hj & Htj & Hbefore & ->).
    rewrite cumsum_length in Hj.
    exists j. split; [lia|]. split; [exact Htj|]. split.
    + intros k Hk. apply Hbefore. lia.
    + unfold tx_at. destruct j as [|j']; [reflexivity|].
      cbn [Nat.eqb]. replace (S j' - 1)%nat with j' by lia. cbv zeta.
      pose proof (Hbefore j' ltac:(lia)) as Hy1.
      destruct (Qeq_bool _ _) eqn:Eq; cbn [negb]; [|reflexivity].
      apply Qeq_bool_iff in Eq. lra.
  - pose proof (tx_loop_none days (Np.cumsum rep_data) target _ 0 eq_refl E
                  (List.length rep_data - 1)%nat) as Hcontra.
    rewrite cumsum_length, (cumsum_last _ Hne) in Hcontra.
    specialize (Hcontra ltac:(lia)). lra.
Qed.

Lemma nth_whole_days (days : list Z) (k : nat) :
  nth k (map inject_Z days) 0 = inject_Z (nth k days 0%Z).
Proof. exact (map_nth inject_Z days 0%Z k). Qed.

(** An interpolation between two ordered days stays between them. *)
Lemma interpolation_between (x1 x2 t y1 y2 : Q) :
  x1 <= x2 -> y1 < t -> t <= y2 ->
  x1 <= x1 + (t - y1) * (x2 - x1) / (y2 - y1) /\
  x1 + (t - y1) * (x2 - x1) / (y2 - y1) <= x2.
Proof.
  intros Hx H1 H2.
  assert (Hb : 0 < y2 - y1) by lra.
  assert (Hn : 0 <= (t - y1) * (x2 - x1)) by (apply Qmult_le_0_compat; lra).
  assert (Hu : (t - y1) * (x2 - x1) <= (x2 - x1) * (y2 - y1)).
  { rewrite (Qmult_comm (x2 - x1)). apply Qmult_le_compat_r; lra. }
  assert (Hq0 : 0 <= (t - y1) * (x2 - x1) / (y2 - y1)).
  { apply Qle_shift_div_l; [exact Hb|]. lra. }
  assert (Hq1 : (t - y1) * (x2 - x1) / (y2 - y1) <= x2 - x1).
  { apply Qle_shift_div_r; [exact Hb | exact Hu]. }
  split; lra.
Qed.

(** X6.  For ascending whole-number days, a positive total and a
    percentage in (0, 1], the time to that percentage falls in the
    observation interval that ends on a day with germination: there is a
    day [j] with a positive count such that the result is day [j] itself
    when [j] is the first day, and lies between day [j - 1] and day [j]
    otherwise. *)
Theorem time_to_percentage_stops_inside (days rep_data : list Z)
  (percentage : Q) :
  Sorted Z.le days ->
  List.length days = List.length rep_data ->
  (0 < Np.sum rep_data)%Z ->
  0 < percentage -> percentage <= 1 ->
  let tx := _calculate_tx (map inject_Z days) rep_data (Np.sum rep_data)
              percentage in
  exists j,
    (j < List.length rep_data)%nat /\
    (0 < nth j rep_data 0)%Z /\
    match j with
    | O => tx == inject_Z (nth 0 days 0%Z)
    | S j' =>
        inject_Z (nth j' days 0%Z) <= tx /\ tx <= inject_Z (nth j days 0%Z)
    end.
Proof.
  intros Hs Hlen HT Hp0 Hp1 tx. unfold tx.
  rewrite calculate_tx_result by lia.
  pose proof (inject_Z_pos _ HT) as Hpos.
  set (target := inject_Z (Np.sum rep_data) * percentage).
  assert (Ht0 : 0 < target) by (apply Qmult_lt_0_compat; assumption).
  assert (Ht1 : target <= inject_Z (Np.sum rep_data)).
  { unfold target.
    setoid_replace (inject_Z (Np.sum rep_data))
      with (inject_Z (Np.sum rep_data) * 1) at 2 by ring.
    apply Qmult_le_l; assumption. }
  assert (Hne : rep_data <> []) by (intros ->; simpl in HT; lia).
  destruct (tx_stops_inside (map inject_Z days) rep_data target Hne Ht1)
    as (j & Hj & Htj & Hbefore & ->).
  exists j. split; [exact Hj|].
  destruct j as [|j'].
  - split.
    + rewrite nth_cumsum in Htj by exact Hj.
      rewrite sum_firstn_succ in Htj by exact Hj.
      change (Np.sum (firstn 0 rep_data)) with 0%Z in Htj.
      assert (H : inject_Z 0 < inject_Z (0 + nth 0 rep_data 0%Z))
        by (change (inject_Z 0) with 0; lra).
      rewrite <- Zlt_Qlt in H. lia.
    + rewrite nth_whole_days. reflexivity.
  - pose proof (Hbefore j' ltac:(lia)) as Hy1.
    split.
    + rewrite !nth_cumsum in Htj, Hy1 by lia.
      rewrite (sum_firstn_succ rep_data (S j')) in Htj by exact Hj.
      assert (H : inject_Z (Np.sum (firstn (S j') rep_data))
                  < inject_Z (Np.sum (firstn (S j') rep_data)
                              + nth (S j') rep_data 0%Z)) by lra.
      rewrite <- Zlt_Qlt in H. lia.
    + rewrite !nth_whole_days.
      apply interpolation_between; [|exact Hy1|exact Htj].
      rewrite <- Zle_Qle.
      assert (Hq : nth j' (map inject_Z days) 0 <= nth (S j') (map inject_Z days) 0).
      { apply sorted_nth; [apply sorted_whole_days; exact Hs|].
        rewrite length_map. lia. }
      rewrite !nth_whole_days, <- Zle_Qle in Hq. exact Hq.
Qed.

Lemma time_to_percentage_stops_inside_witness :
  Sorted Z.le [1; 2; 3; 4; 5]%Z /\
  List.length [1; 2; 3; 4; 5]%Z = List.length [0; 5; 10; 5; 5]%Z /\
  (0 < Np.sum [0; 5; 10; 5; 5]%Z)%Z /\
  0 < (1 # 2) /\ (1 # 2) <= 1 /\
  let tx := _calculate_tx (map inject_Z [1; 2; 3; 4; 5]%Z) [0; 5; 10; 5; 5]%Z
              (Np.sum [0; 5; 10; 5; 5]%Z) (1 # 2) in
  exists j,
    (j < List.length [0; 5; 10; 5; 5]%Z)%nat /\
    (0 < nth j [0; 5; 10; 5; 5]%Z 0)%Z /\
    match j with
    | O => tx == inject_Z (nth 0 [1; 2; 3; 4; 5]%Z 0%Z)
    | S j' =>
        inject_Z (nth j' [1; 2; 3; 4; 5]%Z 0%Z) <= tx /\
        tx <= inject_Z (nth j [1; 2; 3; 4; 5]%Z 0%Z)
    end.
Proof.
  assert (Hs : Sorted Z.le [1; 2; 3; 4; 5]%Z)
    by (repeat constructor; discriminate).
  split; [exact Hs|]. split; [reflexivity|]. split; [reflexivity|].
  split; [reflexivity|]. split; [discriminate|].
  apply (time_to_percentage_stops_inside
           [1; 2; 3; 4; 5]%Z [0; 5; 10; 5; 5]%Z (1 # 2));
    [exact Hs | reflexivity | reflexivity | reflexivity | discriminate].
Defined.

Lemma cumsum_at_most_total (a : list Z) (k : nat) :
  Forall (fun c => (0 <= c)%Z) a -> (k < List.length a)%nat ->
  (nth k (Np.cumsum a) 0 <= Np.sum a)%Z.
Proof.
  intros Hv Hk. rewrite nth_cumsum by exact Hk.
  rewrite (sum_firstn_skipn a (S k)).
  pose proof (sum_non_negative _ (skipn_non_negative a (S k) Hv)). lia.
Qed.

(** X7.  For whole-number days and non-negative counts with a seed
    germinated, the time to 100% is an observation day exactly: the first
    day on which the cumulative count equals the total, that is the day of
    the last germination. *)
Theorem time_to_all_is_last_germination_day (days rep_data : list Z) :
  Forall (fun c => (0 <= c)%Z) rep_data ->
  (0 < Np.sum rep_data)%Z ->
  exists j,
    (j < List.length rep_data)%nat /\
    nth j (Np.cumsum rep_data) 0%Z = Np.sum rep_data /\
    (forall k, (k < j)%nat ->
               (nth k (Np.cumsum rep_data) 0 < Np.sum rep_data)%Z) /\
    _calculate_tx (map inject_Z days) rep_data (Np.sum rep_data) 1
    == inject_Z (nth j days 0%Z).
Proof.
  intros Hv HT.
  assert (Hne : rep_data <> []) by (intros ->; simpl in HT; lia).
  rewrite calculate_tx_result by lia.
  assert (Ht : inject_Z (Np.sum rep_data) * 1 <= inject_Z (Np.sum rep_data))
    by (rewrite Qmult_1_r; apply Qle_refl).
  destruct (tx_stops_inside (map inject_Z days) rep_data _ Hne Ht)
    as (j & Hj & Htj & Hbefore & ->).
  rewrite Qmult_1_r in Htj.
  assert (Hcj : nth j (Np.cumsum rep_data) 0%Z = Np.sum rep_data).
  { pose proof (cumsum_at_most_total rep_data j Hv Hj).
    rewrite <- Zle_Qle in Htj. lia. }
  exists j. split; [exact Hj|]. split; [exact Hcj|]. split.
  - intros k Hk. specialize (Hbefore k Hk).
    rewrite Qmult_1_r, <- Zlt_Qlt in Hbefore. exact Hbefore.
  - destruct j as [|j']; [rewrite nth_whole_days; reflexivity|].
    specialize (Hbefore j' ltac:(lia)). rewrite Qmult_1_r in Hbefore.
    rewrite Hcj, !nth_whole_days. field. lra.
Qed.

Lemma time_to_all_is_last_germination_day_witness :
  Forall (fun c => (0 <= c)%Z) [0; 5; 10; 5; 0]%Z /\
  (0 < Np.sum [0; 5; 10; 5; 0]%Z)%Z /\
  exists j,
    (j < List.length [0; 5; 10; 5; 0]%Z)%nat /\
    nth j (Np.cumsum [0; 5; 10; 5; 0]%Z) 0%Z = Np.sum [0; 5; 10; 5; 0]%Z /\
    (forall k, (k < j)%nat ->
               (nth k (Np.cumsum [0; 5; 10; 5; 0]%Z) 0
                < Np.sum [0; 5; 10; 5; 0]%Z)%Z) /\
    _calculate_tx (map inject_Z [1; 2; 3; 4; 5]%Z) [0; 5; 10; 5; 0]%Z
      (Np.sum [0; 5; 10; 5; 0]%Z) 1
    == inject_Z (nth j [1; 2; 3; 4; 5]%Z 0%Z).
Proof.
  assert (Hv : Forall (fun c => (0 <= c)%Z) [0; 5; 10; 5; 0]%Z)
    by (repeat constructor; discriminate).
  split; [exact Hv|]. split; [reflexivity|].
  apply (time_to_all_is_last_germination_day
           [1; 2; 3; 4; 5]%Z [0; 5; 10; 5; 0]%Z); [exact Hv | reflexivity].
Defined.

(** ** A replicate that germinates on a single day *)

Lemma zip_with_flip {A B C : Type} (f : A -> B -> C) (a : list A) :
  forall b, Np.zip_with f a b = Np.zip_with (fun y x => f x y) b a.
Proof.
  unfold Np.zip_with. induction a as [|x a IH]; intros [|y b]; simpl; auto.
  f_equal. apply IH.
Qed.

Section SingleDay.

Variable h : Q -> Z -> Q.
Hypothesis h_zero : forall d, h d 0%Z == 0.

Lemma zeros_weighted (post : list Z) :
  Forall (fun c => c = 0%Z) post ->
  forall days, Np.sumQ (Np.zip_with h days post) == 0.
Proof.
  induction 1 as [|c post -> Hp IH]; intros [|d days]; try reflexivity.
  unfold Np.zip_with in *. cbn [combine map fst snd].
  rewrite sumQ_cons, IH, h_zero. ring.
Qed.

Lemma single_day_weighted (n : Z) (post : list Z) :
  Forall (fun c => c = 0%Z) post ->
  forall pre days,
    Forall (fun c => c = 0%Z) pre ->
    List.length days = List.length (pre ++ n :: post) ->
    Np.sumQ (Np.zip_with h days (pre ++ n :: post))
    == h (nth (List.length pre) days 0) n.
Proof.
  intros Hpost pre. induction pre as [|c pre IH]; intros [|d days] Hpre Hlen;
    try discriminate.
  - unfold Np.zip_with. cbn [app combine map fst snd List.length nth].
    rewrite sumQ_cons. fold (Np.zip_with h days post).
    rewrite (zeros_weighted post Hpost days). ring.
  - inversion Hpre as [|? ? Hc Hpre']; subst.
    unfold Np.zip_with. cbn [app combine map fst snd List.length nth].
    rewrite sumQ_cons. fold (Np.zip_with h days (pre ++ n :: post)).
    rewrite IH by (auto; simpl in Hlen; lia). rewrite h_zero. ring.
Qed.

End SingleDay.

Lemma single_day_total (pre post : list Z) (n : Z) :
  Forall (fun c => c = 0%Z) pre -> Forall (fun c => c = 0%Z) post ->
  Np.sum (pre ++ n :: post) = n.
Proof.
  intros Hpre Hpost.
  destruct (zeros_sum_pairs pre Hpre) as [Sp _].
  destruct (zeros_sum_pairs post Hpost) as [Sq _].
  rewrite sum_app, sum_cons. lia.
Qed.

(** X8.  When all the seeds of a replicate germinate on one whole-number
    day, the mean germination time is that day and the variance of the
    germination time is 0, in the statistics and in the fields of the
    row. *)
Theorem single_day_mean_and_variance `{NP : Numpy} (days : list Z)
  (total_seeds : Z) (i : nat) (pre post : list Z) (n : Z) :
  (1 <= n)%Z ->
  Forall (fun c => c = 0%Z) pre -> Forall (fun c => c = 0%Z) post ->
  List.length days = List.length (pre ++ n :: post) ->
  let s := replicate_stats (map inject_Z days) total_seeds (pre ++ n :: post) in
  let r := replicate_record (map inject_Z days) total_seeds i
             (pre ++ n :: post) in
  let day := inject_Z (nth (List.length pre) days 0%Z) in
  mgt s == day /\ variance s == 0 /\
  MT_Mean_Germination_Time r == day /\ Variance_Germination_Time r == 0.
Proof.
  intros Hn Hpre Hpost Hlen s r day.
  assert (Hlen' : List.length (map inject_Z days)
                  = List.length (pre ++ n :: post))
    by (rewrite length_map; exact Hlen).
  pose proof (single_day_total pre post n Hpre Hpost) as HS.
  assert (HT : (0 < Np.sum (pre ++ n :: post))%Z) by lia.
  destruct (replicate_stats_positive (map inject_Z days) total_seeds _ HT)
    as [Hm Hv].
  fold s in Hm, Hv.
  assert (Hn0 : ~ inject_Z n == 0) by (apply inject_Z_nonzero; lia).
  assert (Hmean : mgt s == day).
  { rewrite Hm, HS.
    rewrite (single_day_weighted (fun d c => d * inject_Z c)
               ltac:(intros; cbv beta; change (inject_Z 0) with 0; ring)
               n post Hpost pre (map inject_Z days) Hpre Hlen').
    unfold day. rewrite nth_whole_days. field. exact Hn0. }
  assert (Hvar : variance s == 0).
  { rewrite Hv, HS. destruct (1 <? n)%Z eqn:E; [|reflexivity].
    apply Z.ltb_lt in E.
    set (m := mgt s) in *.
    rewrite zip_with_flip.
    rewrite (single_day_weighted (fun d c => inject_Z c * (d - m) ^ 2)
               ltac:(intros; cbv beta; change (inject_Z 0) with 0; ring)
               n post Hpost pre (map inject_Z days) Hpre Hlen').
    rewrite nth_whole_days. fold day.
    assert (Hd : day - m == 0) by lra.
    assert (Hden : ~ inject_Z (n - 1) == 0) by (apply inject_Z_nonzero; lia).
    simpl Qpower. rewrite Hd. field. exact Hden. }
  split; [exact Hmean|]. split; [exact Hvar|]. split.
  - apply py_round_whole. exact Hmean.
  - apply py_round_zero. exact Hvar.
Qed.

Lemma single_day_mean_and_variance_witness :
  (1 <= 10)%Z /\
  Forall (fun c => c = 0%Z) [0]%Z /\ Forall (fun c => c = 0%Z) [0]%Z /\
  List.length [1; 2; 3]%Z = List.length ([0] ++ 10 :: [0])%Z /\
  let s := replicate_stats (NP := sample_numpy) (map inject_Z [1; 2; 3]%Z) 25
             ([0] ++ 10 :: [0])%Z in
  let r := replicate_record (NP := sample_numpy) (map inject_Z [1; 2; 3]%Z)
             25 0 ([0] ++ 10 :: [0])%Z in
  let day := inject_Z (nth (List.length [0%Z]) [1; 2; 3]%Z 0%Z) in
  mgt s == day /\ variance s == 0 /\
  MT_Mean_Germination_Time r == day /\ Variance_Germination_Time r == 0.
Proof.
  assert (Hz : Forall (fun c => c = 0%Z) [0]%Z) by (repeat constructor).
  split; [lia|]. split; [exact Hz|]. split; [exact Hz|]. split; [reflexivity|].
  apply (single_day_mean_and_variance (NP := sample_numpy)
           [1; 2; 3]%Z 25 0 [0%Z] [0%Z] 10);
    [lia | exact Hz | exact Hz | reflexivity].
Defined.

Lemma firstn_zeros (a : list Z) (k : nat) :
  Forall (fun c => c = 0%Z) a -> Np.sum (firstn k a) = 0%Z.
Proof.
  intros H. apply zeros_sum_pairs. rewrite Forall_forall in *.
  intros x Hx. apply H. rewrite <- (firstn_skipn k a).
  apply in_or_app. now left.
Qed.

Lemma single_day_cumsum (pre post : list Z) (n : Z) :
  Forall (fun c => c = 0%Z) pre ->
  (forall k, (k < List.length pre)%nat ->
             nth k (Np.cumsum (pre ++ n :: post)) 0%Z = 0%Z) /\
  nth (List.length pre) (Np.cumsum (pre ++ n :: post)) 0%Z = n.
Proof.
  intros Hpre. split.
  - intros k Hk. rewrite nth_cumsum by (rewrite length_app; simpl; lia).
    rewrite firstn_app. replace (S k - List.length pre)%nat with 0%nat by lia.
    change (firstn 0 (n :: post)) with (@nil Z).
    rewrite app_nil_r. apply firstn_zeros. exact Hpre.
  - rewrite nth_cumsum by (rewrite length_app; simpl; lia).
    rewrite firstn_app.
    replace (S (List.length pre) - List.length pre)%nat with 1%nat by lia.
    rewrite firstn_all2 by lia. change (firstn 1 (n :: post)) with [n].
    rewrite sum_app, sum_cons.
    destruct (zeros_sum_pairs pre Hpre) as [-> _]. simpl. lia.
Qed.

(** X9.  When all the seeds of a replicate germinate on one whole-number
    day, T50 is not that day but the midpoint between it and the
    observation day before it; it is the day itself only when that day is
    the first of the series. *)
Theorem single_day_t50_is_midpoint `{NP : Numpy} (days : list Z)
  (total_seeds : Z) (pre post : list Z) (n : Z) :
  (1 <= n)%Z ->
  Forall (fun c => c = 0%Z) pre -> Forall (fun c => c = 0%Z) post ->
  t50 (replicate_stats (map inject_Z days) total_seeds (pre ++ n :: post))
  == match List.length pre with
     | O => inject_Z (nth 0 days 0%Z)
     | S k => inject_Z (nth k days 0%Z + nth (S k) days 0%Z) / 2
     end.
Proof.
  intros Hn Hpre Hpost.
  pose proof (single_day_total pre post n Hpre Hpost) as HS.
  destruct (single_day_cumsum pre post n Hpre) as [Hzero Hat].
  unfold replicate_stats.
  replace (0 <? Np.sum (pre ++ n :: post))%Z with true
    by (symmetry; apply Z.ltb_lt; lia).
  cbn [t50]. rewrite calculate_tx_result by lia. rewrite HS.
  assert (Hne : pre ++ n :: post <> []) by (destruct pre; discriminate).
  assert (Hpos : 0 < inject_Z n) by (apply inject_Z_pos; lia).
  assert (Ht : inject_Z n * (1 # 2) <= inject_Z (Np.sum (pre ++ n :: post)))
    by (rewrite HS; lra).
  destruct (tx_stops_inside (map inject_Z days) _ _ Hne Ht)
    as (j & Hj & Htj & Hbefore & ->).
  assert (Hjk : j = List.length pre).
  { destruct (Nat.lt_trichotomy j (List.length pre)) as [H|[H|H]]; [|exact H|].
    - rewrite (Hzero j H) in Htj. change (inject_Z 0) with 0 in Htj. lra.
    - specialize (Hbefore _ H). rewrite Hat in Hbefore. lra. }
  subst j. destruct (List.length pre) as [|k] eqn:Ek.
  - rewrite nth_whole_days. reflexivity.
  - rewrite Hat, (Hzero k) by lia. change (inject_Z 0) with 0.
    rewrite !nth_whole_days, inject_Z_plus. field. lra.
Qed.

Lemma single_day_t50_is_midpoint_witness :
  (1 <= 10)%Z /\
  Forall (fun c => c = 0%Z) [0]%Z /\ Forall (fun c => c = 0%Z) [0]%Z /\
  t50 (replicate_stats (NP := sample_numpy) (map inject_Z [1; 2; 3]%Z) 25
         ([0] ++ 10 :: [0])%Z)
  == match List.length [0%Z] with
     | O => inject_Z (nth 0 [1; 2; 3]%Z 0%Z)
     | S k => inject_Z (nth k [1; 2; 3]%Z 0%Z + nth (S k) [1; 2; 3]%Z 0%Z) / 2
     end.
Proof.
  assert (Hz : Forall (fun c => c = 0%Z) [0]%Z) by (repeat constructor).
  split; [lia|]. split; [exact Hz|]. split; [exact Hz|].
  apply (single_day_t50_is_midpoint (NP := sample_numpy)
           [1; 2; 3]%Z 25 [0%Z] [0%Z] 10); [lia | exact Hz | exact Hz].
Defined.

(** ** Frequencies and uncertainty *)

Lemma count_at_most_total (a : list Z) (c : Z) :
  Forall (fun x => (0 <= x)%Z) a -> In c a -> (0 <= c <= Np.sum a)%Z.
Proof.
  induction 1 as [|x a Hx Ha IH]; intros Hin; [contradiction|].
  pose proof (sum_non_negative a Ha). rewrite sum_cons.
  destruct Hin as [->|Hin]; [lia|]. specialize (IH Hin). lia.
Qed.

Lemma frequencies_in_unit_interval (a : list Z) :
  (0 < Np.sum a)%Z ->
  Forall (fun c => (0 <= c)%Z) a ->
  Forall (fun f => 0 < f /\ f <= 1) (frequencies a (Np.sum a)).
Proof.
  intros HT Hv. pose proof (inject_Z_pos _ HT) as Hpos.
  apply Forall_forall. intros f Hf. unfold frequencies in Hf.
  apply filter_In in Hf. destruct Hf as [Hin Hgt]. apply Qltb_lt in Hgt.
  split; [exact Hgt|].
  apply in_map_iff in Hin. destruct Hin as (c & <- & Hc).
  destruct (count_at_most_total a c Hv Hc) as [_ Hle].
  apply Qle_shift_div_r; [exact Hpos|]. rewrite Qmult_1_l.
  rewrite <- Zle_Qle. exact Hle.
Qed.

Lemma frequencies_count (total : Z) (a : list Z) :
  (0 < total)%Z ->
  List.length (frequencies a total)
  = List.length (filter (fun c => (0 <? c)%Z) a).
Proof.
  intros HT. pose proof (inject_Z_pos _ HT) as Hpos. unfold frequencies.
  induction a as [|c a IH]; [reflexivity|].
  cbn [map filter].
  destruct (Z.ltb_spec 0 c) as [Hc|Hc].
  - replace (Qltb 0 (inject_Z c / inject_Z total)) with true.
    + cbn [List.length]. rewrite IH. reflexivity.
    + symmetry. apply Qltb_lt. apply Qlt_shift_div_l; [exact Hpos|].
      rewrite Qmult_0_l. change 0 with (inject_Z 0). rewrite <- Zlt_Qlt.
      exact Hc.
  - replace (Qltb 0 (inject_Z c / inject_Z total)) with false; [exact IH|].
    symmetry. apply Qltb_ge. apply Qle_shift_div_r; [exact Hpos|].
    rewrite Qmult_0_l. change 0 with (inject_Z 0). rewrite <- Zle_Qle.
    exact Hc.
Qed.

Lemma positive_sum_has_positive_count (a : list Z) :
  (0 < Np.sum a)%Z ->
  (0 < List.length (filter (fun c => (0 <? c)%Z) a))%nat.
Proof.
  induction a as [|c a IH]; [simpl; lia|].
  rewrite sum_cons. cbn [filter].
  destruct (Z.ltb_spec 0 c) as [Hc|Hc]; [simpl; lia|].
  intros H. apply IH. lia.
Qed.

(** X10.  For non-negative counts with a seed germinated, the frequencies
    that enter the uncertainty index are the shares of the days with
    germination: each lies in (0, 1], there is one per day with a positive
    count, and there is at least one, so the guard on an empty selection
    never fires. *)
Theorem frequencies_form_a_distribution (rep_data : list Z) :
  Forall (fun c => (0 <= c)%Z) rep_data ->
  (0 < Np.sum rep_data)%Z ->
  let freqs := frequencies rep_data (Np.sum rep_data) in
  Forall (fun f => 0 < f /\ f <= 1) freqs /\
  List.length freqs = List.length (filter (fun c => (0 <? c)%Z) rep_data) /\
  (0 < List.length freqs)%nat.
Proof.
  intros Hv HT freqs.
  assert (Hc : List.length freqs
               = List.length (filter (fun c => (0 <? c)%Z) rep_data))
    by (apply frequencies_count; exact HT).
  split; [apply frequencies_in_unit_interval; assumption|].
  split; [exact Hc|].
  rewrite Hc. apply positive_sum_has_positive_count. exact HT.
Qed.

Lemma frequencies_form_a_distribution_witness :
  Forall (fun c => (0 <= c)%Z) [0; 5; 10; 5; 5]%Z /\
  (0 < Np.sum [0; 5; 10; 5; 5]%Z)%Z /\
  let freqs := frequencies [0; 5; 10; 5; 5]%Z (Np.sum [0; 5; 10; 5; 5]%Z) in
  Forall (fun f => 0 < f /\ f <= 1) freqs /\
  List.length freqs
  = List.length (filter (fun c => (0 <? c)%Z) [0; 5; 10; 5; 5]%Z) /\
  (0 < List.length freqs)%nat.
Proof.
  assert (Hv : Forall (fun c => (0 <= c)%Z) [0; 5; 10; 5; 5]%Z)
    by (repeat constructor; discriminate).
  split; [exact Hv|]. split; [reflexivity|].
  apply (frequencies_form_a_distribution [0; 5; 10; 5; 5]%Z);
    [exact Hv | reflexivity].
Defined.

Lemma entropy_terms_non_positive `{NP : Numpy} (fs : list Q) :
  (forall f, 0 < f -> f <= 1 -> np_log2 f <= 0) ->
  Forall (fun f => 0 < f /\ f <= 1) fs ->
  Np.sumQ (map (fun f => f * np_log2 f) fs) <= 0.
Proof.
  intros Hlog. induction 1 as [|f fs [H0 H1] Hfs IH]; [apply Qle_refl|].
  cbn [map]. rewrite sumQ_cons.
  specialize (Hlog f H0 H1).
  assert (0 <= f * - np_log2 f) by (apply Qmult_le_0_compat; lra).
  lra.
Qed.

(** X11.  For non-negative counts the uncertainty index is never negative,
    for any numpy whose binary logarithm is at most 0 on (0, 1]. *)
Theorem uncertainty_non_negative `{NP : Numpy} (days : list Q)
  (total_seeds : Z) (rep_data : list Z) :
  (forall f, 0 < f -> f <= 1 -> np_log2 f <= 0) ->
  Forall (fun c => (0 <= c)%Z) rep_data ->
  0 <= uncertainty (replicate_stats days total_seeds rep_data).
Proof.
  intros Hlog Hv. unfold replicate_stats.
  destruct (0 <? Np.sum rep_data)%Z eqn:E; cbn [uncertainty]; [|apply Qle_refl].
  apply Z.ltb_lt in E.
  destruct (0 <? List.length _)%nat; [|apply Qle_refl].
  pose proof (entropy_terms_non_positive _ Hlog
                (frequencies_in_unit_interval rep_data E Hv)).
  lra.
Qed.

Lemma sample_log2_non_positive (f : Q) :
  0 < f -> f <= 1 -> np_log2 (Numpy := sample_numpy) f <= 0.
Proof.
  intros H0 H1. cbn [np_log2 sample_numpy]. unfold sample_log2.
  destruct (Qle_bool 1 f) eqn:E.
  - apply Qle_bool_iff in E. assert (Hf : f == 1) by lra.
    rewrite (Qfloor_comp _ _ Hf). apply Qle_refl.
  - pose proof (Z.log2_up_nonneg (Qceiling (/ f))) as Hn.
    rewrite Zle_Qle in Hn. change (inject_Z 0) with 0 in Hn. lra.
Qed.

Lemma uncertainty_non_negative_witness :
  (forall f, 0 < f -> f <= 1 -> np_log2 (Numpy := sample_numpy) f <= 0) /\
  Forall (fun c => (0 <= c)%Z) [0; 5; 10; 5; 5]%Z /\
  0 <= uncertainty (replicate_stats (NP := sample_numpy)
                      [1; 2; 3; 4; 5] 25 [0; 5; 10; 5; 5]%Z).
Proof.
  assert (Hv : Forall (fun c => (0 <= c)%Z) [0; 5; 10; 5; 5]%Z)
    by (repeat constructor; discriminate).
  split; [exact sample_log2_non_positive|]. split; [exact Hv|].
  apply (uncertainty_non_negative (NP := sample_numpy)
           [1; 2; 3; 4; 5] 25 [0; 5; 10; 5; 5]%Z);
    [exact sample_log2_non_positive | exact Hv].
Defined.

Lemma frequencies_zeros (total : Z) (a : list Z) :
  Forall (fun c => c = 0%Z) a -> frequencies a total = [].
Proof.
  unfold frequencies. induction 1 as [|c a -> Ha IH]; [reflexivity|].
  cbn [map filter].
  replace (Qltb 0 (inject_Z 0 / inject_Z total)) with false; [exact IH|].
  symmetry. apply Qltb_ge. unfold Qdiv. change (inject_Z 0) with 0.
  rewrite Qmult_0_l. apply Qle_refl.
Qed.

Lemma frequencies_app (total : Z) (a b : list Z) :
  frequencies (a ++ b) total = frequencies a total ++ frequencies b total.
Proof. unfold frequencies. rewrite map_app, filter_app. reflexivity. Qed.

Lemma single_day_frequencies (pre post : list Z) (n : Z) :
  (1 <= n)%Z ->
  Forall (fun c => c = 0%Z) pre -> Forall (fun c => c = 0%Z) post ->
  frequencies (pre ++ n :: post) n = [inject_Z n / inject_Z n].
Proof.
  intros Hn Hpre Hpost.
  change (n :: post) with ([n] ++ post).
  rewrite !frequencies_app, (frequencies_zeros n pre Hpre),
    (frequencies_zeros n post Hpost).
  unfold frequencies. cbn [map filter app].
  replace (Qltb 0 (inject_Z n / inject_Z n)) with true; [reflexivity|].
  symmetry. apply Qltb_lt. pose proof (inject_Z_pos n ltac:(lia)).
  apply Qlt_shift_div_l; lra.
Qed.

(** X12.  When all the seeds of a replicate germinate on one day, the
    uncertainty index is 0, for any numpy whose binary logarithm of 1
    is 0. *)
Theorem single_day_uncertainty_is_zero `{NP : Numpy} (days : list Q)
  (total_seeds : Z) (pre post : list Z) (n : Z) :
  (forall x, x == 1 -> np_log2 x == 0) ->
  (1 <= n)%Z ->
  Forall (fun c => c = 0%Z) pre -> Forall (fun c => c = 0%Z) post ->
  uncertainty (replicate_stats days total_seeds (pre ++ n :: post)) == 0.
Proof.
  intros Hlog Hn Hpre Hpost.
  pose proof (single_day_total pre post n Hpre Hpost) as HS.
  unfold replicate_stats.
  replace (0 <? Np.sum (pre ++ n :: post))%Z with true
    by (symmetry; apply Z.ltb_lt; lia).
  cbn [uncertainty]. rewrite HS, (single_day_frequencies pre post n Hn Hpre Hpost).
  cbn [List.length Nat.ltb Nat.leb map]. rewrite sumQ_cons.
  assert (Hone : inject_Z n / inject_Z n == 1)
    by (field; apply inject_Z_nonzero; lia).
  rewrite (Hlog _ Hone). simpl Np.sumQ. ring.
Qed.

Lemma sample_log2_of_one (x : Q) :
  x == 1 -> np_log2 (Numpy := sample_numpy) x == 0.
Proof.
  intros Hx. cbn [np_log2 sample_numpy]. unfold sample_log2.
  assert (E : Qle_bool 1 x = true) by (apply Qle_bool_iff; lra).
  rewrite E, (Qfloor_comp _ _ Hx). reflexivity.
Qed.

Lemma single_day_uncertainty_is_zero_witness :
  (forall x, x == 1 -> np_log2 (Numpy := sample_numpy) x == 0) /\
  (1 <= 10)%Z /\
  Forall (fun c => c = 0%Z) [0]%Z /\ Forall (fun c => c = 0%Z) [0]%Z /\
  uncertainty (replicate_stats (NP := sample_numpy)
                 [1; 2; 3] 25 ([0] ++ 10 :: [0])%Z) == 0.
Proof.
  assert (Hz : Forall (fun c => c = 0%Z) [0]%Z) by (repeat constructor).
  split; [exact sample_log2_of_one|]. split; [lia|].
  split; [exact Hz|]. split; [exact Hz|].
  apply (single_day_uncertainty_is_zero (NP := sample_numpy)
           [1; 2; 3] 25 [0%Z] [0%Z] 10);
    [exact sample_log2_of_one | lia | exact Hz | exact Hz].
Defined.

(** ** The arcsine transform within its domain *)

(** X13.  When the counts are non-negative and no more seeds germinated
    than were sown, the arcsine field of the row is a number, not NaN, for
    any numpy whose square root maps [0, 1] into [0, 1]. *)
Theorem arcsine_field_is_a_number `{NP : Numpy} (days : list Q)
  (total_seeds : Z) (i : nat) (rep_data : list Z) :
  (forall x, 0 <= x -> x <= 1 -> 0 <= np_sqrt x /\ np_sqrt x <= 1) ->
  Forall (fun c => (0 <= c)%Z) rep_data ->
  (0 < total_seeds)%Z ->
  (Np.sum rep_data <= total_seeds)%Z ->
  exists a,
    ArcSin_Transformation (replicate_record days total_seeds i rep_data)
    = Fin a.
Proof.
  intros Hsqrt Hv Hts Hle.
  pose proof (germinability_exact days total_seeds rep_data Hts
                (sum_non_negative _ Hv)) as Hg.
  unfold replicate_record. cbn [ArcSin_Transformation].
  set (g := germinability (replicate_stats days total_seeds rep_data)) in *.
  destruct (Qltb 0 g) eqn:E; [|eexists; reflexivity].
  apply Qltb_lt in E.
  assert (Hpos : 0 < inject_Z total_seeds) by (apply inject_Z_pos; exact Hts).
  assert (Hg100 : g <= 100).
  { rewrite Hg. apply Qle_shift_div_r; [exact Hpos|].
    rewrite Zle_Qle in Hle. lra. }
  assert (H0 : 0 <= g / 100) by (apply Qle_shift_div_l; lra).
  assert (H1 : g / 100 <= 1) by (apply Qle_shift_div_r; lra).
  destruct (Hsqrt _ H0 H1) as [Hs0 Hs1].
  unfold Np.sqrt. apply Qltb_ge in H0. rewrite H0. cbn [Np.arcsin].
  assert (Ha : Qle_bool (Qabs (np_sqrt (g / 100))) 1 = true).
  { apply Qle_bool_iff, Qabs_Qle_condition. split; lra. }
  rewrite Ha. cbn [Np.lift py_round_f]. eexists. reflexivity.
Qed.

Lemma sample_sqrt_unit_interval (x : Q) :
  0 <= x -> x <= 1 ->
  0 <= np_sqrt (Numpy := sample_numpy) x /\
  np_sqrt (Numpy := sample_numpy) x <= 1.
Proof.
  intros H0 H1. cbn [np_sqrt sample_numpy]. unfold sample_sqrt.
  set (m := Qfloor (x * inject_Z (10 ^ 18))).
  assert (Hm : (m <= 10 ^ 18)%Z).
  { assert (Hx : x * inject_Z (10 ^ 18) <= inject_Z (10 ^ 18)).
    { assert (0 < inject_Z (10 ^ 18)) by reflexivity.
      apply Qle_trans with (1 * inject_Z (10 ^ 18)).
      - apply Qmult_le_compat_r; lra.
      - rewrite Qmult_1_l. apply Qle_refl. }
    apply Qfloor_resp_le in Hx. rewrite Qfloor_Z in Hx. exact Hx. }
  pose proof (Z.sqrt_nonneg m) as Hs0.
  pose proof (Z.sqrt_le_mono m (10 ^ 18) Hm) as Hs1.
  change (Z.sqrt (10 ^ 18)) with (10 ^ 9)%Z in Hs1.
  rewrite Zle_Qle in Hs0, Hs1. change (inject_Z 0) with 0 in Hs0.
  assert (Hd : 0 < inject_Z (10 ^ 9)) by reflexivity.
  split.
  - apply Qle_shift_div_l; lra.
  - apply Qle_shift_div_r; lra.
Qed.

Lemma arcsine_field_is_a_number_witness :
  (forall x, 0 <= x -> x <= 1 ->
             0 <= np_sqrt (Numpy := sample_numpy) x /\
             np_sqrt (Numpy := sample_numpy) x <= 1) /\
  Forall (fun c => (0 <= c)%Z) [0; 5; 10; 5; 5]%Z /\
  (0 < 25)%Z /\
  (Np.sum [0; 5; 10; 5; 5]%Z <= 25)%Z /\
  exists a,
    ArcSin_Transformation
      (replicate_record (NP := sample_numpy)
         [1; 2; 3; 4; 5] 25 0 [0; 5; 10; 5; 5]%Z)
    = Fin a.
Proof.
  assert (Hv : Forall (fun c => (0 <= c)%Z) [0; 5; 10; 5; 5]%Z)
    by (repeat constructor; discriminate).
  split; [exact sample_sqrt_unit_interval|]. split; [exact Hv|].
  split; [reflexivity|]. split; [discriminate|].
  apply (arcsine_field_is_a_number (NP := sample_numpy)
           [1; 2; 3; 4; 5] 25 0 [0; 5; 10; 5; 5]%Z);
    [exact sample_sqrt_unit_interval | exact Hv | reflexivity | discriminate].
Defined.

(** ** Row labels *)

Lemma append_cancel_left (a s1 s2 : string) :
  (a ++ s1)%string = (a ++ s2)%string -> s1 = s2.
Proof.
  induction a as [|ch a IH]; simpl; intros H; [exact H|].
  injection H as H. apply IH. exact H.
Qed.

Lemma replicate_label_injective (i j : nat) :
  replicate_label i = replicate_label j -> i = j.
Proof.
  unfold replicate_label. intros H. apply append_cancel_left in H.
  assert (E : Some (Nat.to_uint (S i)) = Some (Nat.to_uint (S j)))
    by (rewrite <- !NilEmpty.usu, H; reflexivity).
  injection E as E. apply DecimalNat.Unsigned.to_uint_inj in E. lia.
Qed.

Lemma replicate_loop_labels `{NP : Numpy} (df : DataFrame) (days : list Q)
  (total_seeds : Z) (cols : list string) :
  forall i r,
    In r (replicate_loop df days total_seeds i cols) ->
    exists k, (i <= k)%nat /\ Replicate r = replicate_label k.
Proof.
  induction cols as [|c cols IH]; intros i r; simpl; [tauto|].
  destruct (df_get c df) as [d|].
  - intros [<-|Hin].
    + exists i. split; [lia | reflexivity].
    + destruct (IH _ _ Hin) as (k & Hk & Hr). exists k. split; [lia | exact Hr].
  - intros Hin. destruct (IH _ _ Hin) as (k & Hk & Hr).
    exists k. split; [lia | exact Hr].
Qed.

Lemma replicate_loop_labels_distinct `{NP : Numpy} (df : DataFrame)
  (days : list Q) (total_seeds : Z) (cols : list string) :
  forall i, NoDup (map Replicate (replicate_loop df days total_seeds i cols)).
Proof.
  induction cols as [|c cols IH]; intros i; simpl; [constructor|].
  destruct (df_get c df) as [d|]; [|apply IH].
  cbn [map]. constructor; [|apply IH].
  intros Hin. apply in_map_iff in Hin. destruct Hin as (r & Hr & Hin).
  destruct (replicate_loop_labels _ _ _ _ _ _ Hin) as (k & Hk & Hlab).
  rewrite Hlab in Hr. cbn [Replicate replicate_record] in Hr.
  apply replicate_label_injective in Hr. lia.
Qed.

(** X14.  The rows that the engine returns carry pairwise distinct
    Replicate labels, whatever the headers of the frame are. *)
Theorem rows_have_distinct_labels `{NP : Numpy} (total_seeds : Z)
  (df : DataFrame) (rows : list GerminationRecord) :
  calculate_all_germination_parameters total_seeds df = Returns rows ->
  NoDup (map Replicate rows).
Proof.
  unfold calculate_all_germination_parameters.
  destruct (day_axis df) as [days|e]; [|discriminate].
  intros H. injection H as <-. apply replicate_loop_labels_distinct.
Qed.

Lemma rows_have_distinct_labels_witness :
  exists rows,
    calculate_all_germination_parameters (NP := sample_numpy) 25 frame_seven
    = Returns rows /\
    NoDup (map Replicate rows).
Proof.
  eexists. split; [reflexivity|].
  apply (rows_have_distinct_labels (NP := sample_numpy) 25 frame_seven).
  reflexivity.
Defined.

(** ** The analysis loop *)




(** An analysis run over a sheet with data, a sheet with headers only and
    a sheet without anything: only the first one reaches the engine. *)
Example analysis_loop_skips_empty_sheets `{NP : Numpy} :
  exists rows,
    analyze_data 25
      [("A", embed_frame frame_round_trip); ("B", embed_frame frame_no_rows);
       ("C", [])]%string
    = Returns [("A"%string, rows)] /\
    List.length rows = 1%nat.
Proof. eexists. split; reflexivity. Qed.

(** ** The data behind the curves *)

Lemma curve_rep_columns_are_headers (df : DataFrame) (c : string) :
  In c (curve_rep_columns df) -> In c (df_columns df).
Proof.
  unfold curve_rep_columns.
  destruct (filter (prefix "R") (df_columns df)) eqn:E.
  - destruct (df_columns df); simpl; tauto.
  - intros Hin. rewrite <- E in Hin. apply filter_In in Hin. tauto.
Qed.

Lemma In_firstn {A : Type} (n : nat) (l : list A) (x : A) :
  In x (firstn n l) -> In x l.
Proof.
  intros H. rewrite <- (firstn_skipn n l). apply in_or_app. now left.
Qed.

Lemma curve_loop_found (df : DataFrame) (cols : list string) :
  (forall c, In c cols -> In c (df_columns df)) ->
  map fst (curve_loop df cols) = cols /\
  Forall (fun p => In (fst p) cols /\ df_get (fst p) df = Some (snd p))
         (curve_loop df cols).
Proof.
  induction cols as [|c cols IH]; intros Hall; [split; [reflexivity|constructor]|].
  destruct (df_get_of_header df c (Hall c (or_introl eq_refl))) as [d Hd].
  destruct (IH (fun c' H => Hall c' (or_intror H))) as [IH1 IH2].
  cbn [curve_loop]. rewrite Hd. cbn [map fst]. split; [f_equal; exact IH1|].
  constructor; [cbn [fst snd]; split; [now left | exact Hd]|].
  eapply Forall_impl; [|exact IH2]. intros p [H1 H2]. split; [now right | exact H2].
Qed.

Lemma cumulative_of_daily (daily : list (string * list Z)) :
  Forall2 (fun cum d => snd cum = Np.cumsum (snd d))
          (map (fun p => (fst p, Np.cumsum (snd p))) daily) daily.
Proof. induction daily; constructor; auto. Qed.

Lemma save_curves_returns `{NP : Numpy} (df : DataFrame) :
  df <> [] ->
  exists days cd,
    day_axis df = Returns days /\
    save_germination_curves_data df = Returns cd /\
    cd_Day cd = days /\
    cd_Daily cd = curve_loop df (firstn 6 (curve_rep_columns df)) /\
    cd_Cumulative cd
    = map (fun p => (fst p, Np.cumsum (snd p))) (cd_Daily cd) /\
    cd_Mean_Daily cd
    = map (fun t => pd_mean
                      (row_at (map snd (curve_loop df (curve_rep_columns df))) t))
          (seq 0 (df_len df)) /\
    cd_Std_Daily cd
    = map (fun t => pd_std
                      (row_at (map snd (curve_loop df (curve_rep_columns df))) t))
          (seq 0 (df_len df)).
Proof.
  intros Hne. destruct (day_axis_returns df Hne) as [days Hd].
  unfold save_germination_curves_data. rewrite Hd.
  eexists. eexists. split; [reflexivity|]. split; [reflexivity|].
  cbn [cd_Day cd_Daily cd_Cumulative cd_Mean_Daily cd_Std_Daily].
  repeat split.
Qed.

Lemma save_curves_inversion `{NP : Numpy} (df : DataFrame) (cd : CurveData) :
  save_germination_curves_data df = Returns cd -> df <> [].
Proof. intros H ->. discriminate. Qed.

(** X16.  The curve export keeps the first six replicate columns only: its
    Cumulative_ and Daily_ columns are those of the first six replicate
    headers, in sheet order, each cumulative column being the running sum
    of its daily column; yet Mean_Daily and Std_Daily are taken over all the
    replicate columns of the sheet, the seventh and later ones included. *)
Theorem curves_keep_first_six `{NP : Numpy} (df : DataFrame) (cd : CurveData) :
  save_germination_curves_data df = Returns cd ->
  map fst (cd_Daily cd) = firstn 6 (curve_rep_columns df) /\
  map fst (cd_Cumulative cd) = firstn 6 (curve_rep_columns df) /\
  (List.length (cd_Cumulative cd) <= 6)%nat /\
  Forall2 (fun cum daily => snd cum = Np.cumsum (snd daily))
          (cd_Cumulative cd) (cd_Daily cd) /\
  exists block,
    map fst block = curve_rep_columns df /\
    Forall (fun p => df_get (fst p) df = Some (snd p)) block /\
    cd_Mean_Daily cd
    = map (fun t => pd_mean (row_at (map snd block) t)) (seq 0 (df_len df)) /\
    cd_Std_Daily cd
    = map (fun t => pd_std (row_at (map snd block) t)) (seq 0 (df_len df)).
Proof.
  intros Hsave. pose proof (save_curves_inversion df cd Hsave) as Hne.
  destruct (save_curves_returns df Hne)
    as (days & cd' & _ & Hret & _ & Hdaily & Hcum & Hmean & Hstd).
  rewrite Hsave in Hret. injection Hret as <-.
  destruct (curve_loop_found df (firstn 6 (curve_rep_columns df))) as [Hn _].
  { intros c H. apply curve_rep_columns_are_headers, (In_firstn 6), H. }
  destruct (curve_loop_found df (curve_rep_columns df)
              (curve_rep_columns_are_headers df)) as [Hall Hget].
  assert (Hd : map fst (cd_Daily cd) = firstn 6 (curve_rep_columns df))
    by (rewrite Hdaily; exact Hn).
  assert (Hc : map fst (cd_Cumulative cd) = firstn 6 (curve_rep_columns df)).
  { rewrite Hcum, map_map. cbn [fst]. exact Hd. }
  split; [exact Hd|]. split; [exact Hc|]. split.
  - rewrite <- (length_map fst), Hc. apply firstn_le_length.
  - split.
    + rewrite Hcum. apply cumulative_of_daily.
    + exists (curve_loop df (curve_rep_columns df)).
      split; [exact Hall|]. split; [|split; assumption].
      eapply Forall_impl; [|exact Hget]. intros p [_ H]. exact H.
Qed.

Lemma curves_keep_first_six_witness :
  exists cd,
    save_germination_curves_data (NP := sample_numpy) frame_seven = Returns cd /\
    map fst (cd_Daily cd) = firstn 6 (curve_rep_columns frame_seven) /\
    map fst (cd_Cumulative cd) = firstn 6 (curve_rep_columns frame_seven) /\
    (List.length (cd_Cumulative cd) <= 6)%nat /\
    Forall2 (fun cum daily => snd cum = Np.cumsum (snd daily))
            (cd_Cumulative cd) (cd_Daily cd) /\
    exists block,
      map fst block = curve_rep_columns frame_seven /\
      Forall (fun p => df_get (fst p) frame_seven = Some (snd p)) block /\
      cd_Mean_Daily cd
      = map (fun t => pd_mean (row_at (map snd block) t))
            (seq 0 (df_len frame_seven)) /\
      cd_Std_Daily cd
      = map (fun t => pd_std (NP := sample_numpy) (row_at (map snd block) t))
            (seq 0 (df_len frame_seven)).
Proof.
  eexists. split; [reflexivity|].
  apply (curves_keep_first_six (NP := sample_numpy) frame_seven).
  reflexivity.
Defined.

(** Seven replicate columns: six cumulative curves, a daily mean over
    seven. *)
Example seven_replicates_six_curves `{NP : Numpy} :
  exists cd,
    save_germination_curves_data frame_seven = Returns cd /\
    List.length (cd_Cumulative cd) = 6%nat /\
    List.length (curve_rep_columns frame_seven) = 7%nat /\
    cd_Mean_Daily cd = [Fin (7 # 7)].
Proof. eexists. repeat split. Qed.

Lemma cumsum_last_total (a : list Z) : last (Np.cumsum a) 0%Z = Np.sum a.
Proof.
  destruct a as [|x a]; [reflexivity|].
  rewrite last_is_nth, cumsum_length. apply cumsum_last. discriminate.
Qed.

Lemma nth_error_firstn_some {A : Type} (n k : nat) (l : list A) (x : A) :
  nth_error (firstn n l) k = Some x -> nth_error l k = Some x.
Proof.
  revert k l. induction n as [|n IH]; intros k l H.
  - destruct k; discriminate.
  - destruct l as [|y l]; [destruct k; discriminate|].
    destruct k as [|k]; simpl in *; [exact H | apply IH; exact H].
Qed.

Lemma curve_loop_nth (df : DataFrame) (cols : list string) :
  (forall c, In c cols -> In c (df_columns df)) ->
  forall k col daily,
    nth_error (curve_loop df cols) k = Some (col, daily) ->
    nth_error cols k = Some col /\ df_get col df = Some daily.
Proof.
  induction cols as [|c cols IH]; intros Hall k col daily Hk.
  - destruct k; discriminate.
  - destruct (df_get_of_header df c (Hall c (or_introl eq_refl))) as [d Hd].
    cbn [curve_loop] in Hk. rewrite Hd in Hk.
    destruct k as [|k]; simpl in Hk |- *.
    + injection Hk as <- <-. auto.
    + apply IH; [intros c' H; apply Hall; now right | exact Hk].
Qed.

Lemma same_selection (df : DataFrame) :
  (forall h, In h (df_columns df) ->
             contains "Rep" h = true -> prefix "R" h = true) ->
  curve_rep_columns df = rep_columns df.
Proof.
  intros Hsel. unfold curve_rep_columns, rep_columns.
  replace (filter is_rep_header (df_columns df))
    with (filter (prefix "R") (df_columns df)); [reflexivity|].
  apply filter_ext_in. intros h Hh. unfold is_rep_header.
  destruct (prefix "R" h) eqn:E; [reflexivity|].
  destruct (contains "Rep" h) eqn:E'; [|reflexivity].
  rewrite (Hsel h Hh E') in E. discriminate.
Qed.

(** X17.  On a sheet whose headers contain Rep only when they start with R,
    the curve export and the engine agree: the k-th exported cumulative
    curve belongs to the replicate of the k-th row of the engine, and its
    last value is the Germinated_Seeds of that row. *)
Theorem cumulative_curve_ends_at_germinated_seeds `{NP : Numpy}
  (total_seeds : Z) (df : DataFrame) (rows : list GerminationRecord)
  (cd : CurveData) (k : nat) (col : string) (cumulative : list Z) :
  (forall h, In h (df_columns df) ->
             contains "Rep" h = true -> prefix "R" h = true) ->
  calculate_all_germination_parameters total_seeds df = Returns rows ->
  save_germination_curves_data df = Returns cd ->
  nth_error (cd_Cumulative cd) k = Some (col, cumulative) ->
  nth_error (rep_columns df) k = Some col /\
  exists r,
    nth_error rows k = Some r /\
    Replicate r = replicate_label k /\
    last cumulative 0%Z = Germinated_Seeds r.
Proof.
  intros Hsel Hrows Hsave Hk.
  pose proof (save_curves_inversion df cd Hsave) as Hne.
  destruct (save_curves_returns df Hne)
    as (days & cd' & Hday & Hret & _ & Hdaily & Hcum & _ & _).
  rewrite Hsave in Hret. injection Hret as <-.
  rewrite Hcum, Hdaily, nth_error_map in Hk.
  destruct (nth_error (curve_loop df (firstn 6 (curve_rep_columns df))) k)
    as [[c d]|] eqn:E; [|discriminate].
  cbn [option_map fst snd] in Hk. injection Hk as -> <-.
  destruct (curve_loop_nth df (firstn 6 (curve_rep_columns df))
              ltac:(intros c' H; apply curve_rep_columns_are_headers,
                                   (In_firstn 6), H)
              k col d E) as [Hcol Hget].
  apply nth_error_firstn_some in Hcol. rewrite (same_selection df Hsel) in Hcol.
  split; [exact Hcol|].
  destruct (calculate_all_returns total_seeds df Hne) as (days' & _ & Hret).
  rewrite Hrows in Hret. injection Hret as ->.
  destruct (replicate_loop_nth df (map inject_Z days') total_seeds
              (rep_columns df)
              (fun c H => df_get_of_header df c (rep_columns_are_headers df c H))
              0 k col Hcol) as (d' & Hd' & Hn).
  rewrite Hget in Hd'. injection Hd' as <-.
  eexists. split; [exact Hn|]. split; [reflexivity|].
  cbn [Germinated_Seeds replicate_record]. apply cumsum_last_total.
Qed.

Lemma frame_round_trip_headers (h : string) :
  In h (df_columns frame_round_trip) ->
  contains "Rep" h = true -> prefix "R" h = true.
Proof. intros [<-|[<-|[]]]; vm_compute; auto. Qed.

Lemma cumulative_curve_ends_at_germinated_seeds_witness :
  (forall h, In h (df_columns frame_round_trip) ->
             contains "Rep" h = true -> prefix "R" h = true) /\
  exists rows cd,
    calculate_all_germination_parameters (NP := sample_numpy) 25
      frame_round_trip = Returns rows /\
    save_germination_curves_data (NP := sample_numpy) frame_round_trip
    = Returns cd /\
    nth_error (cd_Cumulative cd) 0 = Some ("R1"%string, [0; 5; 15; 20; 25]%Z) /\
    nth_error (rep_columns frame_round_trip) 0 = Some "R1"%string /\
    exists r,
      nth_error rows 0 = Some r /\
      Replicate r = replicate_label 0 /\
      last [0; 5; 15; 20; 25]%Z 0%Z = Germinated_Seeds r.
Proof.
  split; [exact frame_round_trip_headers|].
  eexists. eexists. split; [reflexivity|]. split; [reflexivity|].
  split; [reflexivity|].
  apply (cumulative_curve_ends_at_germinated_seeds (NP := sample_numpy)
           25 frame_round_trip _ _ 0 "R1"%string [0; 5; 15; 20; 25]%Z
           frame_round_trip_headers eq_refl eq_refl eq_refl).
Defined.

(** ** Cumulative counts *)

Lemma cumsum_from_sorted (a : list Z) :
  Forall (fun c => (0 <= c)%Z) a ->
  forall acc,
    Sorted Z.le (Np.cumsum_from acc a) /\
    Forall (fun c => (acc <= c)%Z) (Np.cumsum_from acc a).
Proof.
  induction 1 as [|x a Hx Ha IH]; intros acc; [split; constructor|].
  destruct (IH (acc + x)%Z) as [IH1 IH2]. cbn [Np.cumsum_from]. split.
  - constructor; [exact IH1|].
    destruct a as [|y a]; [constructor|]. cbn [Np.cumsum_from] in *.
    constructor. inversion IH2; subst. assumption.
  - constructor; [lia|]. eapply Forall_impl; [|exact IH2].
    intros c Hc. cbv beta in *. lia.
Qed.

(** X18.  For non-negative counts every exported cumulative curve is
    non-decreasing and never negative. *)
Theorem cumulative_curves_never_decrease `{NP : Numpy} (df : DataFrame)
  (cd : CurveData) :
  curve_counts_non_negative df ->
  save_germination_curves_data df = Returns cd ->
  Forall (fun p => Sorted Z.le (snd p) /\ Forall (fun c => (0 <= c)%Z) (snd p))
         (cd_Cumulative cd).
Proof.
  intros Hvalid Hsave.
  pose proof (save_curves_inversion df cd Hsave) as Hne.
  destruct (save_curves_returns df Hne)
    as (days & cd' & _ & Hret & _ & Hdaily & Hcum & _ & _).
  rewrite Hsave in Hret. injection Hret as <-.
  destruct (curve_loop_found df (firstn 6 (curve_rep_columns df))) as [_ Hget].
  { intros c H. apply curve_rep_columns_are_headers, (In_firstn 6), H. }
  rewrite Hcum, Hdaily. apply Forall_map.
  eapply Forall_impl; [|exact Hget]. intros [c d] [Hin Hd]. cbn [fst snd] in *.
  apply cumsum_from_sorted. apply (Hvalid c d); [|exact Hd].
  apply (In_firstn 6). exact Hin.
Qed.

Lemma frame_round_trip_curve_counts :
  curve_counts_non_negative frame_round_trip.
Proof.
  intros col d Hin Hget. vm_compute in Hin.
  destruct Hin as [<-|[]]. vm_compute in Hget. injection Hget as <-.
  repeat constructor; discriminate.
Qed.

Lemma cumulative_curves_never_decrease_witness :
  curve_counts_non_negative frame_round_trip /\
  exists cd,
    save_germination_curves_data (NP := sample_numpy) frame_round_trip
    = Returns cd /\
    Forall (fun p => Sorted Z.le (snd p) /\ Forall (fun c => (0 <= c)%Z) (snd p))
           (cd_Cumulative cd).
Proof.
  split; [exact frame_round_trip_curve_counts|].
  eexists. split; [reflexivity|].
  apply (cumulative_curves_never_decrease (NP := sample_numpy) frame_round_trip);
    [exact frame_round_trip_curve_counts | reflexivity].
Defined.

(** X19.  The daily counts are recovered from the cumulative counts of
    [np.cumsum] as successive differences: the first cumulative value is the
    first count and each later count is the cumulative value minus the one
    before it. *)
Theorem daily_counts_from_cumulative (rep_data : list Z) (k : nat) :
  (k < List.length rep_data)%nat ->
  nth k rep_data 0%Z
  = match k with
    | O => nth 0 (Np.cumsum rep_data) 0%Z
    | S k' => (nth k (Np.cumsum rep_data) 0 - nth k' (Np.cumsum rep_data) 0)%Z
    end.
Proof.
  intros Hk. destruct k as [|k'].
  - rewrite nth_cumsum by exact Hk. rewrite sum_firstn_succ by exact Hk.
    simpl. lia.
  - rewrite !nth_cumsum by lia. rewrite (sum_firstn_succ rep_data (S k')) by lia.
    lia.
Qed.

Lemma daily_counts_from_cumulative_witness :
  (2 < List.length [0; 5; 10; 5; 5]%Z)%nat /\
  nth 2 [0; 5; 10; 5; 5]%Z 0%Z
  = (nth 2 (Np.cumsum [0; 5; 10; 5; 5]%Z) 0
     - nth 1 (Np.cumsum [0; 5; 10; 5; 5]%Z) 0)%Z.
Proof.
  split; [simpl; lia|].
  apply (daily_counts_from_cumulative [0; 5; 10; 5; 5]%Z 2). simpl. lia.
Defined.

(** ** Means and deviations across replicates *)

Lemma squared_deviations_non_negative (row : list Z) :
  0 <= squared_deviations row.
Proof.
  unfold squared_deviations. generalize (np_mean row) as m. intros m.
  induction row as [|x row IH]; [apply Qle_refl|].
  cbn [map]. rewrite sumQ_cons.
  assert (0 <= (inject_Z x - m) ^ 2).
  { simpl. destruct (Qlt_le_dec (inject_Z x - m) 0).
    - setoid_replace ((inject_Z x - m) * (inject_Z x - m))
        with ((m - inject_Z x) * (m - inject_Z x)) by ring.
      apply Qmult_le_0_compat; lra.
    - apply Qmult_le_0_compat; lra. }
  lra.
Qed.

Lemma np_std_is_number `{NP : Numpy} (row : list Z) : is_number (np_std row).
Proof.
  unfold np_std, Np.sqrt.
  assert (H : 0 <= squared_deviations row
                   / inject_Z (Z.of_nat (List.length row))).
  { apply Qmult_le_0_compat; [apply squared_deviations_non_negative|].
    apply Qinv_le_0_compat. change 0 with (inject_Z 0).
    rewrite <- Zle_Qle. lia. }
  apply Qltb_ge in H. rewrite H. eexists. reflexivity.
Qed.

(** X20.  The Std_Cumulative column of the curve export, a population
    standard deviation, never holds NaN. *)
Theorem std_cumulative_is_never_nan `{NP : Numpy} (df : DataFrame)
  (cd : CurveData) (column : list npfloat) :
  save_germination_curves_data df = Returns cd ->
  cd_Std_Cumulative cd = Some column ->
  Forall is_number column.
Proof.
  unfold save_germination_curves_data.
  destruct (day_axis df) as [days|e]; [|discriminate].
  intros H. injection H as <-. cbn [cd_Std_Cumulative].
  destruct (0 <? List.length _)%nat; [|discriminate].
  intros H. injection H as <-.
  destruct (0 <? _ * _)%nat; [|constructor].
  apply Forall_map, Forall_forall. intros t _. apply np_std_is_number.
Qed.

Lemma std_cumulative_is_never_nan_witness :
  exists cd column,
    save_germination_curves_data (NP := sample_numpy) frame_one_replicate
    = Returns cd /\
    cd_Std_Cumulative cd = Some column /\
    Forall is_number column.
Proof.
  eexists. eexists. split; [reflexivity|]. split; [reflexivity|].
  eapply (std_cumulative_is_never_nan (NP := sample_numpy) frame_one_replicate);
    reflexivity.
Defined.

Lemma row_at_length (cols : list (list Z)) (t : nat) :
  List.length (row_at cols t) = List.length cols.
Proof. unfold row_at. apply length_map. Qed.

Lemma map_seq_constant {A : Type} (f : nat -> A) (c : A) (n : nat) :
  (forall t, f t = c) -> forall s, map f (seq s n) = repeat c n.
Proof.
  intros Hf. induction n as [|n IH]; intros s; [reflexivity|].
  cbn [seq map repeat]. rewrite IH, Hf. reflexivity.
Qed.

(** X21.  On a sheet with exactly one replicate column, the Std_Daily column
    of the curve export, a sample standard deviation, is NaN on every row,
    while Mean_Daily holds a number on every row; both have one cell per
    row of the sheet. *)
Theorem single_replicate_std_daily_is_nan `{NP : Numpy} (df : DataFrame)
  (cd : CurveData) :
  List.length (curve_rep_columns df) = 1%nat ->
  save_germination_curves_data df = Returns cd ->
  cd_Std_Daily cd = repeat NaN (df_len df) /\
  List.length (cd_Mean_Daily cd) = df_len df /\
  Forall is_number (cd_Mean_Daily cd).
Proof.
  intros Hone Hsave.
  pose proof (save_curves_inversion df cd Hsave) as Hne.
  destruct (save_curves_returns df Hne)
    as (days & cd' & _ & Hret & _ & _ & _ & Hmean & Hstd).
  rewrite Hsave in Hret. injection Hret as <-.
  destruct (curve_loop_found df (curve_rep_columns df)
              (curve_rep_columns_are_headers df)) as [Hall _].
  assert (Hlen : forall t,
             List.length (row_at (map snd (curve_loop df (curve_rep_columns df))) t)
             = 1%nat).
  { intros t. rewrite row_at_length, length_map, <- (length_map fst), Hall.
    exact Hone. }
  rewrite Hmean, Hstd. split; [|split].
  - apply map_seq_constant. intros t.
    unfold pd_std. rewrite Hlen. reflexivity.
  - rewrite length_map, length_seq. reflexivity.
  - apply Forall_map, Forall_forall. intros t _.
    unfold pd_mean. rewrite Hlen. eexists. reflexivity.
Qed.

Lemma single_replicate_std_daily_is_nan_witness :
  List.length (curve_rep_columns frame_one_replicate) = 1%nat /\
  exists cd,
    save_germination_curves_data (NP := sample_numpy) frame_one_replicate
    = Returns cd /\
    cd_Std_Daily cd = repeat NaN (df_len frame_one_replicate) /\
    List.length (cd_Mean_Daily cd) = df_len frame_one_replicate /\
    Forall is_number (cd_Mean_Daily cd).
Proof.
  split; [reflexivity|]. eexists. split; [reflexivity|].
  apply (single_replicate_std_daily_is_nan (NP := sample_numpy)
           frame_one_replicate); reflexivity.
Defined.

Lemma sorted_map_seq (f : nat -> Q) (n : nat) :
  forall s,
    (forall t, (s <= t)%nat -> (S t < s + n)%nat -> f t <= f (S t)) ->
    Sorted Qle (map f (seq s n)).
Proof.
  induction n as [|n IH]; intros s Hstep; [constructor|].
  cbn [seq map]. constructor.
  - apply IH. intros t H1 H2. apply Hstep; lia.
  - destruct n as [|n]; [constructor|]. cbn [seq map]. constructor.
    apply Hstep; lia.
Qed.

Lemma sum_row_le (cols : list (list Z)) (t t' : nat) :
  Forall (fun c => (nth t c 0 <= nth t' c 0)%Z) cols ->
  (Np.sum (row_at cols t) <= Np.sum (row_at cols t'))%Z.
Proof.
  unfold row_at. induction 1 as [|c cols Hc Hcols IH]; [simpl; lia|].
  cbn [map]. rewrite !sum_cons. lia.
Qed.

Lemma cumsum_step (a : list Z) (t : nat) :
  Forall (fun c => (0 <= c)%Z) a -> (S t < List.length a)%nat ->
  (nth t (Np.cumsum a) 0 <= nth (S t) (Np.cumsum a) 0)%Z.
Proof.
  intros Hv Ht. rewrite !nth_cumsum by lia.
  rewrite (sum_firstn_succ a (S t)) by lia.
  assert (0 <= nth (S t) a 0)%Z.
  { rewrite Forall_forall in Hv. apply Hv, nth_In. lia. }
  lia.
Qed.

Lemma df_get_In (df : DataFrame) (col : string) (d : list Z) :
  df_get col df = Some d -> In (col, d) df.
Proof.
  induction df as [|[h cells] df IH]; simpl; [discriminate|].
  destruct (String.eqb_spec col h) as [->|Hne].
  - intros H. injection H as <-. now left.
  - intros H. right. apply IH, H.
Qed.

(** X22.  On a rectangular sheet with non-negative counts, the
    Mean_Cumulative column of the curve export never decreases from one row
    to the next. *)
Theorem mean_cumulative_never_decreases `{NP : Numpy} (df : DataFrame)
  (cd : CurveData) (column : list Q) :
  rectangular df ->
  curve_counts_non_negative df ->
  save_germination_curves_data df = Returns cd ->
  cd_Mean_Cumulative cd = Some column ->
  Sorted Qle column.
Proof.
  intros Hrect Hvalid Hsave Hcol.
  destruct (curve_loop_found df (firstn 6 (curve_rep_columns df))) as [_ Hget].
  { intros c H. apply curve_rep_columns_are_headers, (In_firstn 6), H. }
  unfold save_germination_curves_data in Hsave.
  remember (curve_loop df (firstn 6 (curve_rep_columns df))) as daily
    eqn:Edaily in *.
  destruct (day_axis df) as [days|e]; [|discriminate].
  injection Hsave as <-.
  cbv beta iota zeta delta [cd_Mean_Cumulative] in Hcol.
  set (cums := map snd (map (fun p => (fst p, Np.cumsum (snd p))) daily)) in *.
  set (rows := match cums with [] => 0%nat | c :: _ => List.length c end) in *.
  destruct (0 <? List.length cums * rows)%nat eqn:Esize;
    [|simpl in Hcol; discriminate].
  destruct (0 <? List.length _)%nat in Hcol; [|discriminate].
  injection Hcol as <-.
  apply Nat.ltb_lt in Esize.
  assert (HR : (0 < List.length cums)%nat) by lia.
  assert (Hcums : Forall (fun c => exists d,
                            c = Np.cumsum d /\ List.length d = rows /\
                            Forall (fun x => (0 <= x)%Z) d) cums).
  { assert (Hlens : forall p, In p daily -> forall q, In q daily ->
                      List.length (snd p) = List.length (snd q)).
    { rewrite Forall_forall in Hget. intros p Hp q Hq.
      destruct (Hget p Hp) as [_ H1]. destruct (Hget q Hq) as [_ H2].
      destruct p as [c1 d1], q as [c2 d2]. cbn [fst snd] in *.
      exact (Hrect _ _ _ _ (df_get_In _ _ _ H1) (df_get_In _ _ _ H2)). }
    assert (Hrows : forall p, In p daily -> List.length (snd p) = rows).
    { unfold rows, cums. destruct daily as [|p0 daily']; [intros p []|].
      intros p Hp. cbn [map snd fst]. rewrite cumsum_length.
      apply Hlens; [exact Hp | now left]. }
    unfold cums. rewrite map_map. cbn [snd]. apply Forall_map.
    apply Forall_forall. intros p Hp. exists (snd p).
    split; [reflexivity|]. split; [apply Hrows, Hp|].
    rewrite Forall_forall in Hget. destruct (Hget p Hp) as [Hin Hd].
    apply (Hvalid (fst p) (snd p)); [apply (In_firstn 6), Hin | exact Hd]. }
  apply sorted_map_seq. intros t _ Ht. cbn [Nat.add] in Ht.
  unfold np_mean. rewrite !row_at_length.
  apply Qmult_le_compat_r.
  - rewrite <- Zle_Qle. apply sum_row_le.
    eapply Forall_impl; [|exact Hcums].
    intros c (d & -> & Hlen & Hd). apply cumsum_step; [exact Hd | lia].
  - apply Qinv_le_0_compat. change 0 with (inject_Z 0).
    rewrite <- Zle_Qle. lia.
Qed.

Lemma frame_round_trip_rectangular : rectangular frame_round_trip.
Proof.
  intros h1 c1 h2 c2 H1 H2. simpl in H1, H2.
  destruct H1 as [H1|[H1|[]]], H2 as [H2|[H2|[]]];
    injection H1 as <- <-; injection H2 as <- <-; reflexivity.
Qed.

Lemma mean_cumulative_never_decreases_witness :
  rectangular frame_round_trip /\
  curve_counts_non_negative frame_round_trip /\
  exists cd column,
    save_germination_curves_data (NP := sample_numpy) frame_round_trip
    = Returns cd /\
    cd_Mean_Cumulative cd = Some column /\
    Sorted Qle column.
Proof.
  split; [exact frame_round_trip_rectangular|].
  split; [exact frame_round_trip_curve_counts|].
  eexists. eexists. split; [reflexivity|]. split; [reflexivity|].
  apply (mean_cumulative_never_decreases (NP := sample_numpy) frame_round_trip
           _ _ frame_round_trip_rectangular frame_round_trip_curve_counts
           eq_refl eq_refl).
Defined.

(** ** The preview of a loaded sheet *)

Lemma df_get_distinct (df : DataFrame) (h : string) (cells : list Z) :
  NoDup (df_columns df) -> In (h, cells) df -> df_get h df = Some cells.
Proof.
  induction df as [|[h' c'] df IH]; intros Hnd Hin; [contradiction|].
  cbn [df_columns map fst] in Hnd. inversion Hnd as [|? ? Hnot Hnd']; subst.
  cbn [df_get]. destruct Hin as [Heq|Hin].
  - injection Heq as -> ->. rewrite String.eqb_refl. reflexivity.
  - destruct (String.eqb_spec h h') as [->|Hne]; [|apply IH; assumption].
    exfalso. apply Hnot. unfold df_columns.
    change h' with (fst (h', cells)). apply in_map. exact Hin.
Qed.

Lemma replicate_loop_totals `{NP : Numpy} (df : DataFrame) (days : list Q)
  (total_seeds : Z) (block : list (string * list Z)) :
  (forall p, In p block -> df_get (fst p) df = Some (snd p)) ->
  forall i,
    map Germinated_Seeds
        (replicate_loop df days total_seeds i (map fst block))
    = map (fun column => Np.sum (snd column)) block.
Proof.
  induction block as [|[h c] block IH]; intros Hall i; [reflexivity|].
  pose proof (Hall (h, c) (or_introl eq_refl)) as Hget. cbn [fst snd] in Hget.
  cbn [map fst replicate_loop]. rewrite Hget.
  cbn [snd map Germinated_Seeds replicate_record].
  f_equal. apply IH. intros p Hp. apply Hall. now right.
Qed.

(** X23.  On a sheet with distinct headers whose replicate columns are all
    the columns but the first, the number of germination events shown in
    the preview of the loaded file equals the sum of the Germinated_Seeds of
    the rows that the engine returns. *)
Theorem preview_counts_what_the_engine_reports `{NP : Numpy}
  (total_seeds : Z) (df : DataFrame) (rows : list GerminationRecord) :
  NoDup (df_columns df) ->
  rep_columns df = tl (df_columns df) ->
  calculate_all_germination_parameters total_seeds df = Returns rows ->
  Np.sum (map Germinated_Seeds rows) = germination_events df.
Proof.
  intros Hnd Hrep Hrows. unfold calculate_all_germination_parameters in Hrows.
  destruct (day_axis df) as [days|e]; [|discriminate].
  injection Hrows as <-. rewrite Hrep. unfold germination_events.
  replace (tl (df_columns df)) with (map fst (tl df))
    by (destruct df; reflexivity).
  rewrite replicate_loop_totals; [reflexivity|].
  intros [h c] Hp. cbn [fst snd]. apply df_get_distinct; [exact Hnd|].
  destruct df; [contradiction | now right].
Qed.

Lemma preview_counts_what_the_engine_reports_witness :
  NoDup (df_columns frame_seven) /\
  rep_columns frame_seven = tl (df_columns frame_seven) /\
  exists rows,
    calculate_all_germination_parameters (NP := sample_numpy) 25 frame_seven
    = Returns rows /\
    Np.sum (map Germinated_Seeds rows) = germination_events frame_seven.
Proof.
  assert (Hnd : NoDup (df_columns frame_seven)).
  { repeat constructor; simpl; intros H;
      repeat (destruct H as [H|H]; [discriminate|]); exact H. }
  split; [exact Hnd|]. split; [reflexivity|].
  eexists. split; [reflexivity|].
  apply (preview_counts_what_the_engine_reports (NP := sample_numpy)
           25 frame_seven); [exact Hnd | reflexivity | reflexivity].
Defined.

(** ** The range of the germinability field *)

(** X24.  When the counts are non-negative and no more seeds germinated
    than were sown, the germinability field of the row lies between 0 and
    100, rounding included. *)
Theorem germinability_field_in_range `{NP : Numpy} (days : list Q)
  (total_seeds : Z) (i : nat) (rep_data : list Z) :
  Forall (fun c => (0 <= c)%Z) rep_data ->
  (0 < total_seeds)%Z ->
  (Np.sum rep_data <= total_seeds)%Z ->
  0 <= G_Germinability (replicate_record days total_seeds i rep_data) /\
  G_Germinability (replicate_record days total_seeds i rep_data) <= 100.
Proof.
  intros Hv Hts Hle.
  pose proof (sum_non_negative _ Hv) as Hs.
  pose proof (germinability_exact days total_seeds rep_data Hts Hs) as Hg.
  cbn [G_Germinability replicate_record].
  set (g := germinability (replicate_stats days total_seeds rep_data)) in *.
  assert (Hpos : 0 < inject_Z total_seeds) by (apply inject_Z_pos; exact Hts).
  rewrite Zle_Qle in Hs, Hle. change (inject_Z 0) with 0 in Hs.
  assert (Hg0 : 0 <= g).
  { rewrite Hg. apply Qle_shift_div_l; [exact Hpos|]. lra. }
  assert (Hg1 : g <= 100).
  { rewrite Hg. apply Qle_shift_div_r; [exact Hpos|]. lra. }
  destruct (py_round_between g 2 0 10000) as [H1 H2].
  - change (inject_Z 0) with 0. change (inject_Z (10 ^ Z.of_nat 2)) with 100. lra.
  - change (inject_Z 10000) with 10000.
    change (inject_Z (10 ^ Z.of_nat 2)) with 100. lra.
  - change (inject_Z (10 ^ Z.of_nat 2)) with 100 in H1, H2.
    change (inject_Z 0) with 0 in H1. change (inject_Z 10000) with 10000 in H2.
    assert (E0 : 0 / 100 == 0) by reflexivity.
    assert (E1 : 10000 / 100 == 100) by reflexivity.
    rewrite E0 in H1. rewrite E1 in H2. split; assumption.
Qed.

Lemma germinability_field_in_range_witness :
  Forall (fun c => (0 <= c)%Z) [0; 5; 10; 5; 5]%Z /\
  (0 < 25)%Z /\
  (Np.sum [0; 5; 10; 5; 5]%Z <= 25)%Z /\
  0 <= G_Germinability
         (replicate_record (NP := sample_numpy)
            [1; 2; 3; 4; 5] 25 0 [0; 5; 10; 5; 5]%Z) /\
  G_Germinability
    (replicate_record (NP := sample_numpy)
       [1; 2; 3; 4; 5] 25 0 [0; 5; 10; 5; 5]%Z) <= 100.
Proof.
  assert (Hv : Forall (fun c => (0 <= c)%Z) [0; 5; 10; 5; 5]%Z)
    by (repeat constructor; discriminate).
  split; [exact Hv|]. split; [reflexivity|]. split; [discriminate|].
  apply (germinability_field_in_range (NP := sample_numpy)
           [1; 2; 3; 4; 5] 25 0 [0; 5; 10; 5; 5]%Z);
    [exact Hv | reflexivity | discriminate].
Defined.
